(** * Token lifecycle of the Granola API proxy

    A shallow embedding of the [TokenState] class and of the handlers that
    use it, as written in [api.py] (file persistence on a volume) and in
    [api_fixed.py] (persistence through the Railway control plane).

    Modelling conventions.
    - Values that Python receives from JSON ([response.json()], [json.load])
      are dynamically typed; they are modelled by [json] with Python's
      truthiness, slicing and equality.  JSON numbers are integers here.
    - A naive [datetime] is an integer number of microseconds since
      1970-01-01T00:00:00, a [timedelta] an integer number of microseconds.
      Both types are bounded in Python: [timedelta(seconds=n)] and the sum of
      a datetime and a timedelta raise [OverflowError] outside their ranges,
      and so do they here.  The readings of the clock are datetimes.
    - Methods are computations in a state-and-exception monad over the object
      and the outside world.  A mutation made before an exception is raised
      stays, as in Python.
    - The clock, the provider, the disk and the Railway API are oracles of the
      world: every theorem holds for all of their behaviours. *)

From Stdlib Require Import ZArith List String Bool Lia DecimalString.
Import ListNotations.
Open Scope string_scope.
Open Scope Z_scope.

Set Warnings "-register-all".

(** ** Python values obtained from JSON *)

Inductive json : Type :=
| JNull
| JBool (b : bool)
| JInt (n : Z)
| JStr (s : string)
| JArr (items : list json)
| JObj (fields : list (string * json)).

(** [bool(v)]: what [if v] and [not v] test. *)
Definition truthy (v : json) : bool :=
  match v with
  | JNull => false
  | JBool b => b
  | JInt n => negb (n =? 0)
  | JStr s => negb (s =? EmptyString)%string
  | JArr items => match items with [] => false | _ => true end
  | JObj fields => match fields with [] => false | _ => true end
  end.

(** [v is not None]. *)
Definition is_not_none (v : json) : bool :=
  match v with JNull => false | _ => true end.

Fixpoint assoc (k : string) (fields : list (string * json)) : option json :=
  match fields with
  | [] => None
  | (k', v) :: rest => if (k =? k')%string then Some v else assoc k rest
  end.

Definition b2z (b : bool) : Z := if b then 1 else 0.

(** [a == b] on JSON values: [True == 1], sequences compare item by item,
    and dicts (whose keys are distinct) compare key by key. *)
Fixpoint py_eq (a b : json) {struct a} : bool :=
  match a, b with
  | JNull, JNull => true
  | JBool x, JBool y => Bool.eqb x y
  | JBool x, JInt n => b2z x =? n
  | JInt n, JBool y => n =? b2z y
  | JInt n, JInt m => n =? m
  | JStr s, JStr t => (s =? t)%string
  | JArr xs, JArr ys =>
      (fix items_eq (xs ys : list json) {struct xs} : bool :=
         match xs, ys with
         | [], [] => true
         | x :: xs', y :: ys' => py_eq x y && items_eq xs' ys'
         | _, _ => false
         end) xs ys
  | JObj fs, JObj gs =>
      Nat.eqb (List.length fs) (List.length gs) &&
      (fix fields_in (fs : list (string * json)) {struct fs} : bool :=
         match fs with
         | [] => true
         | (k, v) :: fs' =>
             match assoc k gs with
             | Some w => py_eq v w && fields_in fs'
             | None => false
             end
         end) fs
  | _, _ => false
  end.

Definition py_ne (a b : json) : bool := negb (py_eq a b).

(** ** Exceptions *)

Inductive exn : Type :=
| ConnectionError      (* requests.post could not reach the server *)
| HTTPError            (* raise_for_status on a 4xx/5xx answer *)
| JSONDecodeError      (* the body is not JSON *)
| AttributeError       (* .get on something that is not a dict *)
| TypeError
| ValueError
| OverflowError        (* a timedelta or a datetime out of range *)
| OSError.

Inductive res (A : Type) : Type :=
| Ok (a : A)
| Raise (e : exn).
Arguments Ok {A} a.
Arguments Raise {A} e.

(** [d.get(k)] and [d.get(k, default)]; [d] may fail to be a dict. *)
Definition dict_get_default (d : json) (k : string) (default : json) : res json :=
  match d with
  | JObj fields =>
      match assoc k fields with
      | Some v => Ok v
      | None => Ok default
      end
  | _ => Raise AttributeError
  end.

Definition dict_get (d : json) (k : string) : res json :=
  dict_get_default d k JNull.

(** [v[:10]]: strings and lists can be sliced, nothing else. *)
Definition slice10 (v : json) : res json :=
  match v with
  | JStr s => Ok (JStr (substring 0 10 s))
  | JArr items => Ok (JArr (firstn 10 items))
  | _ => Raise TypeError
  end.

(** [v + "..."]. *)
Definition add_dots (v : json) : res json :=
  match v with
  | JStr s => Ok (JStr (s ++ "..."))
  | _ => Raise TypeError
  end.

(** ** Time *)

Definition datetime := Z.
Definition timedelta := Z.

(** [datetime.min] is 0001-01-01T00:00:00 and [datetime.max] is
    9999-12-31T23:59:59.999999. *)
Definition datetime_min : datetime := -62135596800000000.
Definition datetime_max : datetime := 253402300799999999.

(** [timedelta.min] is -999999999 days and [timedelta.max] is 999999999
    days, 23:59:59.999999. *)
Definition timedelta_min : timedelta := -86399999913600000000.
Definition timedelta_max : timedelta := 86399999999999999999.

Definition is_datetime (t : Z) : bool :=
  (datetime_min <=? t) && (t <=? datetime_max).

Definition is_timedelta (d : Z) : bool :=
  (timedelta_min <=? d) && (d <=? timedelta_max).

Definition seconds (n : Z) : timedelta := n * 1000000.
Definition minutes (n : Z) : timedelta := seconds (n * 60).

(** [timedelta(seconds=v)] for a value taken from JSON: an integer whose
    timedelta has more than 999999999 days raises [OverflowError]. *)
Definition timedelta_seconds (v : json) : res timedelta :=
  match v with
  | JInt n =>
      if is_timedelta (seconds n) then Ok (seconds n) else Raise OverflowError
  | JBool b => Ok (seconds (b2z b))
  | _ => Raise TypeError
  end.

(** [t + d]: [OverflowError] when the sum is not a datetime. *)
Definition datetime_add (t : datetime) (d : timedelta) : res datetime :=
  if is_datetime (t + d) then Ok (t + d) else Raise OverflowError.

(** [t - d] for a positive [d]: [t] is a datetime, at most [datetime.max],
    so the difference can only fall below [datetime.min]. *)
Definition datetime_sub (t : datetime) (d : timedelta) : res datetime :=
  if datetime_min <=? t - d then Ok (t - d) else Raise OverflowError.

(** The datetime nearest to a count of microseconds, to build clocks. *)
Definition as_datetime (z : Z) : datetime :=
  Z.max datetime_min (Z.min datetime_max z).

Definition as_datetime_ok (z : Z) : is_datetime (as_datetime z) = true.
Proof.
  unfold is_datetime, as_datetime, datetime_min, datetime_max.
  apply andb_true_intro. split; apply Z.leb_le; lia.
Qed.

(** What [datetime.fromisoformat] yields: a naive datetime, or one that
    carries a UTC offset and so cannot be compared with [datetime.now()]. *)
Inductive parsed_datetime : Type :=
| Naive (t : datetime)
| Aware.

(** ** HTTP *)

Inductive http_outcome : Type :=
| PostRaises                                    (* no answer at all *)
| Response (status : Z) (body : option json).   (* [None]: body is not JSON *)

Definition raise_for_status (o : http_outcome) : res unit :=
  match o with
  | PostRaises => Raise ConnectionError
  | Response status _ =>
      if (400 <=? status) && (status <? 600) then Raise HTTPError else Ok tt
  end.

Definition response_json (o : http_outcome) : res json :=
  match o with
  | PostRaises => Raise ConnectionError
  | Response _ (Some j) => Ok j
  | Response _ None => Raise JSONDecodeError
  end.

(** The refresh grant sent to WorkOS. *)
Record grant_request : Type := {
  grant_client_id : string;
  grant_refresh_token : json
}.

(** The [variableUpsert] mutation sent to Railway. *)
Record upsert_request : Type := {
  upsert_bearer : string;
  upsert_environment_id : string;
  upsert_service_id : string;
  upsert_name : string;
  upsert_value : json
}.

(** ** The disk holding [/data/token_state.json] *)

Inductive file_content : Type :=
| Garbage               (* not JSON: torn or foreign content *)
| Json (j : json).

Inductive write_fault : Type :=
| MkdirFails            (* parent.mkdir raises *)
| OpenFails             (* open(..., 'w') raises, file untouched *)
| DumpFails.            (* json.dump raises, file left torn *)

(** ** The world outside the process *)

Record World : Type := {
  environ : list (string * string);
  clock : nat -> datetime;          (* successive readings of datetime.now() *)
  clock_ok : forall n, is_datetime (clock n) = true;   (* each is a datetime *)
  ticks : nat;                      (* readings taken so far *)
  workos : list grant_request -> http_outcome;   (* answer to the newest grant *)
  workos_log : list grant_request;  (* grants sent, newest first *)
  railway : list upsert_request -> http_outcome;
  railway_log : list upsert_request;
  file : option file_content;       (* [None]: the file does not exist *)
  read_fault : bool;                (* open(..., 'r') raises *)
  write_faults : option write_fault;
  unlink_fault : bool
}.

(** ** The monad of methods: object state, world, exceptions *)

Definition M (S A : Type) : Type := S -> World -> res A * S * World.

Definition ret {S A} (a : A) : M S A := fun s w => (Ok a, s, w).

Definition bind {S A B} (m : M S A) (f : A -> M S B) : M S B :=
  fun s w =>
    match m s w with
    | (Ok a, s', w') => f a s' w'
    | (Raise e, s', w') => (Raise e, s', w')
    end.

Definition raise {S A} (e : exn) : M S A := fun s w => (Raise e, s, w).

Definition lift {S A} (r : res A) : M S A := fun s w => (r, s, w).

(** [try: body  except Exception as e: handler]. *)
Definition try_except {S A} (body : M S A) (handler : exn -> M S A) : M S A :=
  fun s w =>
    match body s w with
    | (Ok a, s', w') => (Ok a, s', w')
    | (Raise e, s', w') => handler e s' w'
    end.

Definition get {S} : M S S := fun s w => (Ok s, s, w).
Definition put {S} (s' : S) : M S unit := fun _ w => (Ok tt, s', w).
Definition modify {S} (f : S -> S) : M S unit := fun s w => (Ok tt, f s, w).

Declare Scope py_scope.
Delimit Scope py_scope with py.
Notation "x <- m ;; k" := (bind m (fun x => k))
  (at level 100, m at next level, right associativity) : py_scope.
Notation "m ;; k" := (bind m (fun _ => k))
  (at level 100, right associativity) : py_scope.
Open Scope py_scope.

(** Accessors of a run. *)
Definition result_of {S A} (r : res A * S * World) : res A := fst (fst r).
Definition state_of {S A} (r : res A * S * World) : S := snd (fst r).
Definition world_of {S A} (r : res A * S * World) : World := snd r.

(** ** World operations *)

(** [os.environ.get(k, default)] with the empty string as default. *)
Fixpoint lookup_env (k : string) (e : list (string * string)) : string :=
  match e with
  | [] => EmptyString
  | (k', v) :: rest => if (k =? k')%string then v else lookup_env k rest
  end.

Definition environ_get {S} (k : string) : M S string :=
  fun s w => (Ok (lookup_env k (environ w)), s, w).

Definition tick (w : World) : World :=
  {| environ := environ w; clock := clock w; clock_ok := clock_ok w;
     ticks := S (ticks w);
     workos := workos w; workos_log := workos_log w;
     railway := railway w; railway_log := railway_log w;
     file := file w; read_fault := read_fault w;
     write_faults := write_faults w; unlink_fault := unlink_fault w |}.

(** [datetime.now()]. *)
Definition datetime_now {S} : M S datetime :=
  fun s w => (Ok (clock w (ticks w)), s, tick w).

Definition log_grant (q : grant_request) (w : World) : World :=
  {| environ := environ w; clock := clock w; clock_ok := clock_ok w;
     ticks := ticks w;
     workos := workos w; workos_log := q :: workos_log w;
     railway := railway w; railway_log := railway_log w;
     file := file w; read_fault := read_fault w;
     write_faults := write_faults w; unlink_fault := unlink_fault w |}.

(** [requests.post(workos_url, json=data)]: the outcome is handed back as a
    value; [raise_for_status] and [response_json] turn it into exceptions. *)
Definition post_workos {S} (q : grant_request) : M S http_outcome :=
  fun s w =>
    match workos w (q :: workos_log w) with
    | PostRaises => (Raise ConnectionError, s, log_grant q w)
    | o => (Ok o, s, log_grant q w)
    end.

Definition log_upsert (q : upsert_request) (w : World) : World :=
  {| environ := environ w; clock := clock w; clock_ok := clock_ok w;
     ticks := ticks w;
     workos := workos w; workos_log := workos_log w;
     railway := railway w; railway_log := q :: railway_log w;
     file := file w; read_fault := read_fault w;
     write_faults := write_faults w; unlink_fault := unlink_fault w |}.

Definition post_railway {S} (q : upsert_request) : M S http_outcome :=
  fun s w =>
    match railway w (q :: railway_log w) with
    | PostRaises => (Raise ConnectionError, s, log_upsert q w)
    | o => (Ok o, s, log_upsert q w)
    end.

Definition set_file (f : option file_content) (w : World) : World :=
  {| environ := environ w; clock := clock w; clock_ok := clock_ok w;
     ticks := ticks w;
     workos := workos w; workos_log := workos_log w;
     railway := railway w; railway_log := railway_log w;
     file := f; read_fault := read_fault w;
     write_faults := write_faults w; unlink_fault := unlink_fault w |}.

Definition set_write_faults (f : option write_fault) (w : World) : World :=
  {| environ := environ w; clock := clock w; clock_ok := clock_ok w;
     ticks := ticks w;
     workos := workos w; workos_log := workos_log w;
     railway := railway w; railway_log := railway_log w;
     file := file w; read_fault := read_fault w;
     write_faults := f; unlink_fault := unlink_fault w |}.

Definition set_railway (r : list upsert_request -> http_outcome) (w : World) : World :=
  {| environ := environ w; clock := clock w; clock_ok := clock_ok w;
     ticks := ticks w;
     workos := workos w; workos_log := workos_log w;
     railway := r; railway_log := railway_log w;
     file := file w; read_fault := read_fault w;
     write_faults := write_faults w; unlink_fault := unlink_fault w |}.

(** [TOKEN_STATE_FILE.exists()]. *)
Definition file_exists {S} : M S bool :=
  fun s w => (Ok (match file w with Some _ => true | None => false end), s, w).

(** [with open(TOKEN_STATE_FILE, 'r') as f: state = json.load(f)]. *)
Definition read_json_file {S} : M S json :=
  fun s w =>
    if read_fault w then (Raise OSError, s, w)
    else match file w with
         | None => (Raise OSError, s, w)
         | Some Garbage => (Raise JSONDecodeError, s, w)
         | Some (Json j) => (Ok j, s, w)
         end.

(** [TOKEN_STATE_FILE.parent.mkdir(parents=True, exist_ok=True)]. *)
Definition mkdir_parent {S} : M S unit :=
  fun s w =>
    match write_faults w with
    | Some MkdirFails => (Raise OSError, s, w)
    | _ => (Ok tt, s, w)
    end.

(** [with open(TOKEN_STATE_FILE, 'w') as f: json.dump(state, f, indent=2)]. *)
Definition write_json_file {S} (j : json) : M S unit :=
  fun s w =>
    match write_faults w with
    | Some MkdirFails | Some OpenFails => (Raise OSError, s, w)
    | Some DumpFails => (Raise OSError, s, set_file (Some Garbage) w)
    | None => (Ok tt, s, set_file (Some (Json j)) w)
    end.

(** [TOKEN_STATE_FILE.unlink()]. *)
Definition unlink_file {S} : M S unit :=
  fun s w =>
    if unlink_fault w then (Raise OSError, s, w)
    else match file w with
         | None => (Raise OSError, s, w)
         | Some _ => (Ok tt, s, set_file None w)
         end.

(** * [api.py]: persistence in a file on the volume *)

Module Api.

Record TokenState : Type := {
  access_token : json;                (* Optional[str]; [JNull] is None *)
  refresh_token : json;
  client_id : string;
  token_expiry : option datetime
}.

Definition set_access_token (v : json) (st : TokenState) : TokenState :=
  {| access_token := v; refresh_token := refresh_token st;
     client_id := client_id st; token_expiry := token_expiry st |}.

Definition set_refresh_token (v : json) (st : TokenState) : TokenState :=
  {| access_token := access_token st; refresh_token := v;
     client_id := client_id st; token_expiry := token_expiry st |}.

Definition set_token_expiry (e : option datetime) (st : TokenState) : TokenState :=
  {| access_token := access_token st; refresh_token := refresh_token st;
     client_id := client_id st; token_expiry := e |}.

Definition py := M TokenState.

(** [is_expired] with the reading of the clock made explicit. *)
Definition is_expired_at (now : datetime) (st : TokenState) : res bool :=
  if negb (truthy (access_token st)) then Ok true
  else match token_expiry st with
       | None => Ok true
       | Some expiry =>
           match datetime_sub expiry (minutes 5) with
           | Ok limit => Ok (limit <=? now)
           | Raise e => Raise e
           end
       end.

(** [datetime.now() >= (self.token_expiry - buffer)]: the clock is read
    first, then the buffer is subtracted. *)
Definition is_expired : py bool :=
  st <- get ;;
  if negb (truthy (access_token st)) then ret true
  else match token_expiry st with
       | None => ret true
       | Some expiry =>
           now <- datetime_now ;;
           limit <- lift (datetime_sub expiry (minutes 5)) ;;
           ret (limit <=? now)
       end.

Section Datetime_text.

(** [datetime.fromisoformat] ([None]: ValueError) and [datetime.isoformat]. *)
Variable fromisoformat : string -> option parsed_datetime.
Variable isoformat : datetime -> string.

Definition py_fromisoformat (v : json) : res parsed_datetime :=
  match v with
  | JStr s =>
      match fromisoformat s with
      | Some p => Ok p
      | None => Raise ValueError
      end
  | _ => Raise TypeError
  end.

(** [datetime.now() < expiry - timedelta(minutes=5)]. *)
Definition now_before_buffer (expiry : parsed_datetime) : py bool :=
  now <- datetime_now ;;
  match expiry with
  | Naive e =>
      limit <- lift (datetime_sub e (minutes 5)) ;;
      ret (now <? limit)
  | Aware => raise TypeError
  end.

Definition load_body : py unit :=
  present <- file_exists ;;
  if present then
    state <- read_json_file ;;
    persisted_refresh <- lift (dict_get state "refresh_token") ;;
    (if truthy persisted_refresh then
       modify (set_refresh_token persisted_refresh) ;;
       _ <- lift (slice10 persisted_refresh) ;;      (* the logged prefix *)
       ret tt
     else ret tt) ;;
    expiry_str <- lift (dict_get state "token_expiry") ;;
    if truthy expiry_str then
      expiry <- lift (py_fromisoformat expiry_str) ;;
      still_valid <- now_before_buffer expiry ;;
      if still_valid then
        token <- lift (dict_get state "access_token") ;;
        modify (set_access_token token) ;;
        modify (set_token_expiry
                  (match expiry with Naive e => Some e | Aware => None end))
      else ret tt
    else ret tt
  else ret tt.

Definition _load_persisted_state : py unit :=
  try_except load_body (fun _ => ret tt).

(** [TokenState.__init__]. *)
Definition init : py unit :=
  rt <- environ_get "GRANOLA_REFRESH_TOKEN" ;;
  cid <- environ_get "GRANOLA_CLIENT_ID" ;;
  put {| access_token := JNull; refresh_token := JStr rt;
         client_id := cid; token_expiry := None |} ;;
  _load_persisted_state.

(** The record that [_persist_state] dumps. *)
Definition state_record (st : TokenState) (now : datetime) : json :=
  JObj [ ("refresh_token", refresh_token st);
         ("access_token", access_token st);
         ("token_expiry", match token_expiry st with
                          | Some e => JStr (isoformat e)
                          | None => JNull
                          end);
         ("updated_at", JStr (isoformat now)) ].

Definition persist_body : py unit :=
  mkdir_parent ;;
  st <- get ;;
  now <- datetime_now ;;
  write_json_file (state_record st now).

Definition _persist_state : py unit :=
  try_except persist_body (fun _ => ret tt).

Definition refresh_body : py bool :=
  st <- get ;;
  response <- post_workos {| grant_client_id := client_id st;
                             grant_refresh_token := refresh_token st |} ;;
  lift (raise_for_status response) ;;
  result <- lift (response_json response) ;;
  token <- lift (dict_get result "access_token") ;;
  modify (set_access_token token) ;;
  new_refresh <- lift (dict_get result "refresh_token") ;;
  (if truthy new_refresh && py_ne new_refresh (refresh_token st) then
     (if truthy (refresh_token st)
      then _ <- lift (slice10 (refresh_token st)) ;; ret tt
      else ret tt) ;;
     _ <- lift (slice10 new_refresh) ;;
     modify (set_refresh_token new_refresh)
   else ret tt) ;;
  expires_in <- lift (dict_get_default result "expires_in" (JInt 3600)) ;;
  now <- datetime_now ;;
  delta <- lift (timedelta_seconds expires_in) ;;
  expiry <- lift (datetime_add now delta) ;;
  modify (set_token_expiry (Some expiry)) ;;
  _persist_state ;;
  ret true.

Definition refresh : py bool :=
  st <- get ;;
  if negb (truthy (refresh_token st)) then ret false
  else if negb (truthy (JStr (client_id st))) then ret false
  else
    _ <- lift (slice10 (refresh_token st)) ;;        (* the logged prefix *)
    try_except refresh_body (fun _ => ret false).

Definition get_token : py json :=
  expired <- is_expired ;;
  if expired then
    ok <- refresh ;;
    if negb ok then ret JNull
    else st <- get ;; ret (access_token st)
  else st <- get ;; ret (access_token st).

(** What [/health] answers. *)
Record health_report : Type := {
  status : string;
  token_valid : bool;
  reported_expiry : option string;
  persistence_enabled : bool;
  refresh_token_prefix : json
}.

Definition health : py health_report :=
  token <- get_token ;;
  persisted <- file_exists ;;
  st <- get ;;
  prefix <- (if truthy (refresh_token st)
             then head10 <- lift (slice10 (refresh_token st)) ;;
                  lift (add_dots head10)
             else ret JNull) ;;
  ret {| status := if truthy token then "healthy" else "unhealthy";
         token_valid := is_not_none token;
         reported_expiry := option_map isoformat (token_expiry st);
         persistence_enabled := persisted;
         refresh_token_prefix := prefix |}.

(** What [/reset-token] answers. *)
Inductive reset_report : Type :=
| ResetOk (prefix : json)
| ResetError.

Definition reset_token : py reset_report :=
  present <- file_exists ;;
  (if present then unlink_file else ret tt) ;;
  init ;;
  try_except
    (_ <- refresh ;;
     st <- get ;;
     head10 <- lift (slice10 (refresh_token st)) ;;
     prefix <- lift (add_dots head10) ;;
     ret (ResetOk prefix))
    (fun _ => ret ResetError).

End Datetime_text.

End Api.

(** * [api_fixed.py]: persistence through the Railway variable API *)

Module ApiFixed.

Record TokenState : Type := {
  access_token : json;
  refresh_token : json;
  client_id : string;
  token_expiry : option datetime;
  railway_token : string;
  railway_env_id : string;
  railway_service_id : string
}.

Definition set_access_token (v : json) (st : TokenState) : TokenState :=
  {| access_token := v; refresh_token := refresh_token st;
     client_id := client_id st; token_expiry := token_expiry st;
     railway_token := railway_token st; railway_env_id := railway_env_id st;
     railway_service_id := railway_service_id st |}.

Definition set_refresh_token (v : json) (st : TokenState) : TokenState :=
  {| access_token := access_token st; refresh_token := v;
     client_id := client_id st; token_expiry := token_expiry st;
     railway_token := railway_token st; railway_env_id := railway_env_id st;
     railway_service_id := railway_service_id st |}.

Definition set_token_expiry (e : option datetime) (st : TokenState) : TokenState :=
  {| access_token := access_token st; refresh_token := refresh_token st;
     client_id := client_id st; token_expiry := e;
     railway_token := railway_token st; railway_env_id := railway_env_id st;
     railway_service_id := railway_service_id st |}.

Definition py := M TokenState.

(** [TokenState.__init__]. *)
Definition init : py unit :=
  rt <- environ_get "GRANOLA_REFRESH_TOKEN" ;;
  cid <- environ_get "GRANOLA_CLIENT_ID" ;;
  rw_token <- environ_get "RAILWAY_API_TOKEN" ;;
  rw_env <- environ_get "RAILWAY_ENVIRONMENT_ID" ;;
  rw_service <- environ_get "RAILWAY_SERVICE_ID" ;;
  put {| access_token := JNull; refresh_token := JStr rt;
         client_id := cid; token_expiry := None;
         railway_token := rw_token; railway_env_id := rw_env;
         railway_service_id := rw_service |}.

Definition is_expired_at (now : datetime) (st : TokenState) : res bool :=
  if negb (truthy (access_token st)) then Ok true
  else match token_expiry st with
       | None => Ok true
       | Some expiry =>
           match datetime_sub expiry (minutes 5) with
           | Ok limit => Ok (limit <=? now)
           | Raise e => Raise e
           end
       end.

(** [datetime.now() >= (self.token_expiry - buffer)]: the clock is read
    first, then the buffer is subtracted. *)
Definition is_expired : py bool :=
  st <- get ;;
  if negb (truthy (access_token st)) then ret true
  else match token_expiry st with
       | None => ret true
       | Some expiry =>
           now <- datetime_now ;;
           limit <- lift (datetime_sub expiry (minutes 5)) ;;
           ret (limit <=? now)
       end.

(** [all([railway_token, railway_env_id, railway_service_id])]. *)
Definition railway_configured (st : TokenState) : bool :=
  truthy (JStr (railway_token st)) &&
  truthy (JStr (railway_env_id st)) &&
  truthy (JStr (railway_service_id st)).

Definition upsert_of (st : TokenState) (new_token : json) : upsert_request :=
  {| upsert_bearer := railway_token st;
     upsert_environment_id := railway_env_id st;
     upsert_service_id := railway_service_id st;
     upsert_name := "GRANOLA_REFRESH_TOKEN";
     upsert_value := new_token |}.

Definition _persist_refresh_token (new_token : json) : py bool :=
  st <- get ;;
  if negb (railway_configured st) then ret false
  else
    try_except
      (response <- post_railway (upsert_of st new_token) ;;
       lift (raise_for_status response) ;;
       result <- lift (response_json response) ;;
       errors <- lift (dict_get result "errors") ;;
       if truthy errors then ret false else ret true)
      (fun _ => ret false).

Definition refresh_body : py bool :=
  st <- get ;;
  response <- post_workos {| grant_client_id := client_id st;
                             grant_refresh_token := refresh_token st |} ;;
  lift (raise_for_status response) ;;
  result <- lift (response_json response) ;;
  token <- lift (dict_get result "access_token") ;;
  modify (set_access_token token) ;;
  new_refresh <- lift (dict_get result "refresh_token") ;;
  (if truthy new_refresh && py_ne new_refresh (refresh_token st) then
     (if truthy (refresh_token st)
      then _ <- lift (slice10 (refresh_token st)) ;; ret tt
      else ret tt) ;;
     _ <- lift (slice10 new_refresh) ;;
     modify (set_refresh_token new_refresh) ;;
     _ <- _persist_refresh_token new_refresh ;;
     ret tt
   else ret tt) ;;
  expires_in <- lift (dict_get_default result "expires_in" (JInt 3600)) ;;
  now <- datetime_now ;;
  delta <- lift (timedelta_seconds expires_in) ;;
  expiry <- lift (datetime_add now delta) ;;
  modify (set_token_expiry (Some expiry)) ;;
  ret true.

Definition refresh : py bool :=
  st <- get ;;
  if negb (truthy (refresh_token st)) || negb (truthy (JStr (client_id st)))
  then ret false
  else try_except refresh_body (fun _ => ret false).

Definition get_token : py json :=
  expired <- is_expired ;;
  if expired then
    ok <- refresh ;;
    if negb ok then ret JNull
    else st <- get ;; ret (access_token st)
  else st <- get ;; ret (access_token st).

(** What [/health] answers. *)
Record health_report : Type := {
  status : string;
  token_valid : bool;
  reported_expiry : option string;
  railway_persistence : bool
}.

Section Datetime_text.

Variable isoformat : datetime -> string.

Definition health : py health_report :=
  token <- get_token ;;
  st <- get ;;
  ret {| status := if truthy token then "healthy" else "unhealthy";
         token_valid := is_not_none token;
         reported_expiry := option_map isoformat (token_expiry st);
         railway_persistence := truthy (JStr (railway_token st)) |}.

End Datetime_text.

End ApiFixed.

(** * Running the model *)

(** A stand-in for the text form of datetimes, used to run examples: the
    microsecond count in decimal. *)
Definition stamp_text (t : datetime) : string :=
  NilZero.string_of_int (Z.to_int t).

Definition stamp_parse (s : string) : option parsed_datetime :=
  match NilZero.int_of_string s with
  | Some i => Some (Naive (Z.of_int i))
  | None => None
  end.

(** A world whose clock reads [t0], [t0 + 1s], ... (within the range of
    datetimes), whose provider answers every grant with [answer], with an
    empty healthy disk and a Railway API that acknowledges. *)
Definition quiet_world (t0 : datetime) (answer : http_outcome) : World :=
  {| environ := [("GRANOLA_REFRESH_TOKEN", "rt-baseline");
                 ("GRANOLA_CLIENT_ID", "client_01")];
     clock := fun n => as_datetime (t0 + seconds (Z.of_nat n));
     clock_ok := fun n => as_datetime_ok (t0 + seconds (Z.of_nat n));
     ticks := 0;
     workos := fun _ => answer;
     workos_log := [];
     railway := fun _ => Response 200 (Some (JObj [("data", JObj [("variableUpsert", JBool true)])]));
     railway_log := [];
     file := None;
     read_fault := false;
     write_faults := None;
     unlink_fault := false |}.

Definition old_state : Api.TokenState :=
  {| Api.access_token := JStr "at-old";
     Api.refresh_token := JStr "rt-old";
     Api.client_id := "client_01";
     Api.token_expiry := Some 1000 |}.

Definition rotating_answer : http_outcome :=
  Response 200 (Some (JObj [("access_token", JStr "at-1");
                            ("refresh_token", JStr "rt-new");
                            ("expires_in", JInt 3600)])).

(** * Vocabulary of the statements *)

(** The fields of a grant answer that [refresh] goes on to read: the answer
    arrived, its status is not 4xx/5xx, and its body is a JSON object. *)
Definition answer_fields (o : http_outcome) : option (list (string * json)) :=
  match o with
  | Response status (Some (JObj fields)) =>
      if (400 <=? status) && (status <? 600) then None else Some fields
  | _ => None
  end.

(** [fields.get(k)]. *)
Definition field (k : string) (fields : list (string * json)) : json :=
  match assoc k fields with
  | Some v => v
  | None => JNull
  end.

Definition field_or (k : string) (default : json) (fields : list (string * json)) : json :=
  match assoc k fields with
  | Some v => v
  | None => default
  end.

Definition is_ok {A} (r : res A) : bool :=
  match r with Ok _ => true | Raise _ => false end.

Definition is_some {A} (o : option A) : bool :=
  match o with Some _ => true | None => false end.

(** The answer carries a refresh token that replaces [old]. *)
Definition rotates (old : json) (fields : list (string * json)) : bool :=
  truthy (field "refresh_token" fields) && py_ne (field "refresh_token" fields) old.

(** The lifetime announced by the answer, 3600 s when it announces none. *)
Definition lifetime (fields : list (string * json)) : res timedelta :=
  timedelta_seconds (field_or "expires_in" (JInt 3600) fields).

(** [datetime.now() + timedelta(seconds=expires_in)] when the clock reads
    [now]. *)
Definition new_expiry (now : datetime) (fields : list (string * json)) :
    res datetime :=
  match lifetime fields with
  | Ok delta => datetime_add now delta
  | Raise e => Raise e
  end.

(** Nothing raises between the assignment of [access_token] and the end of
    the [try] block, when the clock reads [now]: the rotation can be logged,
    the lifetime is a timedelta and the expiry is a datetime. *)
Definition grant_usable (now : datetime) (old : json)
    (fields : list (string * json)) : bool :=
  (if rotates old fields
   then (if truthy old then is_ok (slice10 old) else true) &&
        is_ok (slice10 (field "refresh_token" fields))
   else true) &&
  is_ok (new_expiry now fields).

(** The refresh token stored in the file, if the file holds a record. *)
Definition saved_refresh_token (w : World) : option json :=
  match file w with
  | Some (Json (JObj fields)) => assoc "refresh_token" fields
  | _ => None
  end.

Definition api_grant (st : Api.TokenState) : grant_request :=
  {| grant_client_id := Api.client_id st;
     grant_refresh_token := Api.refresh_token st |}.

Definition fixed_grant (st : ApiFixed.TokenState) : grant_request :=
  {| grant_client_id := ApiFixed.client_id st;
     grant_refresh_token := ApiFixed.refresh_token st |}.

(** The provider's answer to the grant that [refresh] sends from [st]. *)
Definition api_answer (st : Api.TokenState) (w : World) : http_outcome :=
  workos w (api_grant st :: workos_log w).

Definition fixed_answer (st : ApiFixed.TokenState) (w : World) : http_outcome :=
  workos w (fixed_grant st :: workos_log w).

(** The state a granted refresh leaves. *)
Definition api_adopted (st : Api.TokenState) (fields : list (string * json))
    (expiry : datetime) : Api.TokenState :=
  {| Api.access_token := field "access_token" fields;
     Api.refresh_token := if rotates (Api.refresh_token st) fields
                          then field "refresh_token" fields
                          else Api.refresh_token st;
     Api.client_id := Api.client_id st;
     Api.token_expiry := Some expiry |}.

Definition fixed_adopted (st : ApiFixed.TokenState) (fields : list (string * json))
    (expiry : datetime) : ApiFixed.TokenState :=
  {| ApiFixed.access_token := field "access_token" fields;
     ApiFixed.refresh_token := if rotates (ApiFixed.refresh_token st) fields
                               then field "refresh_token" fields
                               else ApiFixed.refresh_token st;
     ApiFixed.client_id := ApiFixed.client_id st;
     ApiFixed.token_expiry := Some expiry;
     ApiFixed.railway_token := ApiFixed.railway_token st;
     ApiFixed.railway_env_id := ApiFixed.railway_env_id st;
     ApiFixed.railway_service_id := ApiFixed.railway_service_id st |}.

(** * Outcomes of the operations *)

Section Refresh_outcomes.

Variable isoformat : datetime -> string.

(** The world that [_persist_state] leaves. *)
Definition api_persisted (st : Api.TokenState) (w : World) : World :=
  world_of (Api._persist_state isoformat st w).

(** The ways a call of [refresh] can go. *)
Inductive api_refresh_view (st : Api.TokenState) (w : World) :
    res bool * Api.TokenState * World -> Prop :=
| ApiUnconfigured :
    truthy (Api.refresh_token st) = false \/
    truthy (JStr (Api.client_id st)) = false ->
    api_refresh_view st w (Ok false, st, w)
| ApiUnsliceable :
    truthy (Api.refresh_token st) = true ->
    truthy (JStr (Api.client_id st)) = true ->
    is_ok (slice10 (Api.refresh_token st)) = false ->
    api_refresh_view st w (Raise TypeError, st, w)
| ApiRefused :
    truthy (Api.refresh_token st) = true ->
    truthy (JStr (Api.client_id st)) = true ->
    is_ok (slice10 (Api.refresh_token st)) = true ->
    answer_fields (api_answer st w) = None ->
    api_refresh_view st w (Ok false, st, log_grant (api_grant st) w)
| ApiBroken fields st' w' :
    truthy (Api.refresh_token st) = true ->
    truthy (JStr (Api.client_id st)) = true ->
    is_ok (slice10 (Api.refresh_token st)) = true ->
    answer_fields (api_answer st w) = Some fields ->
    grant_usable (clock w (ticks w)) (Api.refresh_token st) fields = false ->
    Api.access_token st' = field "access_token" fields ->
    Api.token_expiry st' = Api.token_expiry st ->
    file w' = file w ->
    workos w' = workos w ->
    workos_log w' = api_grant st :: workos_log w ->
    api_refresh_view st w (Ok false, st', w')
| ApiGranted fields expiry :
    truthy (Api.refresh_token st) = true ->
    truthy (JStr (Api.client_id st)) = true ->
    is_ok (slice10 (Api.refresh_token st)) = true ->
    answer_fields (api_answer st w) = Some fields ->
    grant_usable (clock w (ticks w)) (Api.refresh_token st) fields = true ->
    new_expiry (clock w (ticks w)) fields = Ok expiry ->
    api_refresh_view st w
      (Ok true,
       api_adopted st fields expiry,
       api_persisted (api_adopted st fields expiry)
                     (tick (log_grant (api_grant st) w))).

End Refresh_outcomes.

(** Railway answered, with a passing status and a JSON object free of
    [errors]. *)
Definition railway_acknowledged (o : http_outcome) : bool :=
  match answer_fields o with
  | Some fields => negb (truthy (field "errors" fields))
  | None => false
  end.

(** The world that [_persist_refresh_token] leaves. *)
Definition fixed_persisted (new_token : json) (st : ApiFixed.TokenState)
    (w : World) : World :=
  if ApiFixed.railway_configured st
  then log_upsert (ApiFixed.upsert_of st new_token) w
  else w.

(** The world a granted refresh leaves: the grant is logged, the rotated
    token is pushed to Railway, the clock is read once. *)
Definition fixed_granted_world (st : ApiFixed.TokenState)
    (fields : list (string * json)) (w : World) : World :=
  tick (if rotates (ApiFixed.refresh_token st) fields
        then fixed_persisted (field "refresh_token" fields) st
               (log_grant (fixed_grant st) w)
        else log_grant (fixed_grant st) w).

Inductive fixed_refresh_view (st : ApiFixed.TokenState) (w : World) :
    res bool * ApiFixed.TokenState * World -> Prop :=
| FixedUnconfigured :
    truthy (ApiFixed.refresh_token st) = false \/
    truthy (JStr (ApiFixed.client_id st)) = false ->
    fixed_refresh_view st w (Ok false, st, w)
| FixedRefused :
    truthy (ApiFixed.refresh_token st) = true ->
    truthy (JStr (ApiFixed.client_id st)) = true ->
    answer_fields (fixed_answer st w) = None ->
    fixed_refresh_view st w (Ok false, st, log_grant (fixed_grant st) w)
| FixedBroken fields st' w' :
    truthy (ApiFixed.refresh_token st) = true ->
    truthy (JStr (ApiFixed.client_id st)) = true ->
    answer_fields (fixed_answer st w) = Some fields ->
    grant_usable (clock w (ticks w)) (ApiFixed.refresh_token st) fields = false ->
    ApiFixed.access_token st' = field "access_token" fields ->
    ApiFixed.token_expiry st' = ApiFixed.token_expiry st ->
    workos_log w' = fixed_grant st :: workos_log w ->
    fixed_refresh_view st w (Ok false, st', w')
| FixedGranted fields expiry :
    truthy (ApiFixed.refresh_token st) = true ->
    truthy (JStr (ApiFixed.client_id st)) = true ->
    answer_fields (fixed_answer st w) = Some fields ->
    grant_usable (clock w (ticks w)) (ApiFixed.refresh_token st) fields = true ->
    new_expiry (clock w (ticks w)) fields = Ok expiry ->
    fixed_refresh_view st w
      (Ok true,
       fixed_adopted st fields expiry,
       fixed_granted_world st fields w).

(** The world after [is_expired]: the clock is read only when both the token
    and its expiry are set. *)
Definition api_checked (st : Api.TokenState) (w : World) : World :=
  if truthy (Api.access_token st) && is_some (Api.token_expiry st)
  then tick w else w.

(** What [get_token] makes of the outcome of [refresh]. *)
Definition token_after {S} (token_of : S -> json) (r : res bool * S * World) :
    res json * S * World :=
  (match result_of r with
   | Ok true => Ok (token_of (state_of r))
   | Ok false => Ok JNull
   | Raise e => Raise e
   end, state_of r, world_of r).

Definition fixed_checked (st : ApiFixed.TokenState) (w : World) : World :=
  if truthy (ApiFixed.access_token st) && is_some (ApiFixed.token_expiry st)
  then tick w else w.

(** The state seeded from the environment, before the file is looked at. *)
Definition baseline (w : World) : Api.TokenState :=
  {| Api.access_token := JNull;
     Api.refresh_token := JStr (lookup_env "GRANOLA_REFRESH_TOKEN" (environ w));
     Api.client_id := lookup_env "GRANOLA_CLIENT_ID" (environ w);
     Api.token_expiry := None |}.

(** The persisted refresh token, when the record has one, replaces the
    baseline. *)
Definition adopt_refresh (fields : list (string * json)) (st : Api.TokenState) :
    Api.TokenState :=
  if truthy (field "refresh_token" fields)
  then Api.set_refresh_token (field "refresh_token" fields) st
  else st.

Section Construction_outcomes.

Variable fromisoformat : string -> option parsed_datetime.

(** The ways construction can go. *)
Inductive api_init_view (w : World) : Api.TokenState -> World -> Prop :=
| InitNoRecord :
    file w = None \/ read_fault w = true \/ file w = Some Garbage \/
    (exists j, file w = Some (Json j) /\ forall fields, j <> JObj fields) ->
    api_init_view w (baseline w) w
| InitRefreshOnly fields w' :
    file w = Some (Json (JObj fields)) ->
    read_fault w = false ->
    w' = w \/ w' = tick w ->
    api_init_view w (adopt_refresh fields (baseline w)) w'
| InitRestored fields s e :
    file w = Some (Json (JObj fields)) ->
    read_fault w = false ->
    field "token_expiry" fields = JStr s ->
    truthy (JStr s) = true ->
    fromisoformat s = Some (Naive e) ->
    clock w (ticks w) < e - minutes 5 ->
    api_init_view w
      (Api.set_token_expiry (Some e)
         (Api.set_access_token (field "access_token" fields)
            (adopt_refresh fields (baseline w))))
      (tick w).

End Construction_outcomes.

(** * The Railway variable *)

(** The value of [GRANOLA_REFRESH_TOKEN] on Railway as far as this process
    set it: the value of the newest mutation that Railway acknowledged
    ([None]: still the deployed value). *)
Fixpoint railway_variable_from (answer : list upsert_request -> http_outcome)
    (log : list upsert_request) : option json :=
  match log with
  | [] => None
  | q :: rest =>
      if (upsert_name q =? "GRANOLA_REFRESH_TOKEN")%string &&
         railway_acknowledged (answer (q :: rest))
      then Some (upsert_value q)
      else railway_variable_from answer rest
  end.

Definition railway_variable (w : World) : option json :=
  railway_variable_from (railway w) (railway_log w).

(** * Access token and expiry together *)

(** [access_token] is None exactly when [token_expiry] is None. *)
Definition paired (st : Api.TokenState) : Prop :=
  is_not_none (Api.access_token st) = is_some (Api.token_expiry st).

(** A grant answer that [refresh] can take in whole when the clock reads
    [now]: it has an access token, a refresh token that is empty or can be
    sliced, and a lifetime that [timedelta] accepts and that added to [now]
    gives a datetime. *)
Definition complete_grant (now : datetime) (fields : list (string * json)) :
    bool :=
  is_not_none (field "access_token" fields) &&
  (negb (truthy (field "refresh_token" fields)) ||
   is_ok (slice10 (field "refresh_token" fields))) &&
  is_ok (new_expiry now fields).

(** Every answer of the provider is complete at every reading of the
    clock. *)
Definition provider_complete (w : World) : Prop :=
  forall log fields n,
    answer_fields (workos w log) = Some fields ->
    complete_grant (clock w n) fields = true.

(** A record on the volume that has an expiry also has an access token. *)
Definition record_paired (w : World) : Prop :=
  forall fields,
    file w = Some (Json (JObj fields)) ->
    truthy (field "token_expiry" fields) = true ->
    is_not_none (field "access_token" fields) = true.

Definition world_ok (w : World) : Prop :=
  provider_complete w /\ record_paired w.

Section Reachable_states.

Variable fromisoformat : string -> option parsed_datetime.
Variable isoformat : datetime -> string.

(** The states of the manager, with the world they are in: construction at
    start, then calls of the methods and handlers, while the world moves on
    between calls. *)
Inductive api_reachable : Api.TokenState -> World -> Prop :=
| ReachConstruct st0 w :
    world_ok w ->
    api_reachable (state_of (Api.init fromisoformat st0 w))
                  (world_of (Api.init fromisoformat st0 w))
| ReachRefresh st w :
    api_reachable st w ->
    api_reachable (state_of (Api.refresh isoformat st w))
                  (world_of (Api.refresh isoformat st w))
| ReachGetToken st w :
    api_reachable st w ->
    api_reachable (state_of (Api.get_token isoformat st w))
                  (world_of (Api.get_token isoformat st w))
| ReachHealth st w :
    api_reachable st w ->
    api_reachable (state_of (Api.health isoformat st w))
                  (world_of (Api.health isoformat st w))
| ReachReset st w :
    api_reachable st w ->
    api_reachable (state_of (Api.reset_token fromisoformat isoformat st w))
                  (world_of (Api.reset_token fromisoformat isoformat st w))
| ReachOutside st w w' :
    api_reachable st w ->
    world_ok w' ->
    api_reachable st w'.

End Reachable_states.

(** * Worlds and states of the examples *)

(** The volume refuses to open the file for writing. *)
Definition readonly_world : World :=
  set_write_faults (Some OpenFails) (quiet_world 5000000000 rotating_answer).

(** The provider answers 200 with a token but a null lifetime. *)
Definition null_lifetime_answer : http_outcome :=
  Response 200 (Some (JObj [("access_token", JStr "at-1");
                            ("expires_in", JNull)])).

(** A world like [quiet_world 5000000000 rotating_answer] whose clock stands
    still. *)
Definition frozen_world : World :=
  {| environ := environ (quiet_world 5000000000 rotating_answer);
     clock := fun _ => 5000000000;
     clock_ok := fun _ => eq_refl;
     ticks := 0;
     workos := workos (quiet_world 5000000000 rotating_answer);
     workos_log := [];
     railway := railway (quiet_world 5000000000 rotating_answer);
     railway_log := [];
     file := None;
     read_fault := false;
     write_faults := None;
     unlink_fault := false |}.

(** The provider answers 200 with a token whose lifetime reaches back to
    one minute after [datetime.min]. *)
Definition early_expiry_answer : http_outcome :=
  Response 200 (Some (JObj [("access_token", JStr "at-1");
                            ("expires_in", JInt (-62135601740))])).

(** The provider answers 200 with a JSON object that has no access token. *)
Definition tokenless_answer : http_outcome :=
  Response 200 (Some (JObj [("expires_in", JInt 3600)])).

(** The provider rejects the grant. *)
Definition invalid_grant_answer : http_outcome :=
  Response 400 (Some (JObj [("error", JStr "invalid_grant")])).

Definition old_fixed_state : ApiFixed.TokenState :=
  {| ApiFixed.access_token := JStr "at-old";
     ApiFixed.refresh_token := JStr "rt-old";
     ApiFixed.client_id := "client_01";
     ApiFixed.token_expiry := Some 1000;
     ApiFixed.railway_token := "rw-token";
     ApiFixed.railway_env_id := "env-1";
     ApiFixed.railway_service_id := "svc-1" |}.

(** A Railway API that answers every mutation with an error list. *)
Definition railway_refusing (w : World) : World :=
  set_railway
    (fun _ => Response 200 (Some (JObj [("errors", JArr [JStr "Not Authorized"])])))
    w.

(** A world with the persisted record of scenario D on its volume. *)
Definition persisted_world (expiry_text : string) : World :=
  set_file
    (Some (Json (JObj [("refresh_token", JStr "rt-persisted");
                       ("access_token", JStr "at-persisted");
                       ("token_expiry", JStr expiry_text);
                       ("updated_at", JStr "4000000000")])))
    (quiet_world 5000000000 rotating_answer).

(** Scenario A: a token that expires an hour after the clock reading. *)
Definition fresh_state : Api.TokenState :=
  {| Api.access_token := JStr "at-current";
     Api.refresh_token := JStr "rt-old";
     Api.client_id := "client_01";
     Api.token_expiry := Some (5000000000 + seconds 3600) |}.

(** * The proxy side: helpers and handlers

    The handlers are the same in [api.py] and [api_fixed.py]; they reach the
    token only through [get_headers].  They are modelled once, over the
    variant's [get_token]. *)

(** Sequencing of steps that may raise, outside the object. *)
Definition res_bind {A B} (r : res A) (f : A -> res B) : res B :=
  match r with
  | Ok a => f a
  | Raise e => Raise e
  end.

Notation "x <~ r ;; k" := (res_bind r (fun x => k))
  (at level 100, r at next level, right associativity) : py_scope.

(** [for x in v]: a list yields its items, a string its characters, a dict
    its keys; nothing else can be iterated. *)
Definition py_iter (v : json) : res (list json) :=
  match v with
  | JArr items => Ok items
  | JStr s => Ok (map (fun c => JStr (String c EmptyString)) (list_ascii_of_string s))
  | JObj fields => Ok (map (fun kv => JStr (fst kv)) fields)
  | _ => Raise TypeError
  end.

(** [[a.get("email", "") for a in attendees if a.get("email")]]. *)
Fixpoint attendee_emails (attendees : list json) : res (list json) :=
  match attendees with
  | [] => Ok []
  | a :: rest =>
      wanted <~ dict_get a "email" ;;
      if truthy wanted then
        email <~ dict_get_default a "email" (JStr EmptyString) ;;
        others <~ attendee_emails rest ;;
        Ok (email :: others)
      else attendee_emails rest
  end.

Definition _extract_attendees (doc : json) : res (list json) :=
  cal <~ dict_get_default doc "google_calendar_event" (JObj []) ;;
  if negb (truthy cal) then Ok []
  else
    attendees <~ dict_get_default cal "attendees" (JArr []) ;;
    each <~ py_iter attendees ;;
    attendee_emails each.

(** The [recurse] of [_extract_prosemirror_text], returning what it appends
    to [texts].  The loop over [n.get("content", [])] visits the items of a
    list; the keys of a dict and the characters of a string are strings, on
    which [recurse] does nothing. *)
Fixpoint recurse (n : json) : res (list json) :=
  match n with
  | JObj fields =>
      let own :=
        if py_eq (match assoc "type" fields with Some v => v | None => JNull end)
                 (JStr "text")
        then [match assoc "text" fields with
              | Some v => v
              | None => JStr EmptyString
              end]
        else [] in
      below <~
        (fix content (fs : list (string * json)) : res (list json) :=
           match fs with
           | [] => Ok []
           | (k, v) :: rest =>
               if ("content" =? k)%string then
                 match v with
                 | JArr items =>
                     (fix each (l : list json) : res (list json) :=
                        match l with
                        | [] => Ok []
                        | child :: l' =>
                            first <~ recurse child ;;
                            others <~ each l' ;;
                            Ok (first ++ others)%list
                        end) items
                 | JStr _ | JObj _ => Ok []
                 | _ => Raise TypeError
                 end
               else content rest
           end) fields ;;
      Ok (own ++ below)%list
  | JArr items =>
      (fix each (l : list json) : res (list json) :=
         match l with
         | [] => Ok []
         | item :: l' =>
             first <~ recurse item ;;
             others <~ each l' ;;
             Ok (first ++ others)%list
         end) items
  | _ => Ok []
  end.

(** The items of [texts] as strings; [" ".join] accepts nothing else. *)
Fixpoint str_items (texts : list json) : res (list string) :=
  match texts with
  | [] => Ok []
  | JStr s :: rest => others <~ str_items rest ;; Ok (s :: others)
  | _ :: _ => Raise TypeError
  end.

Definition _extract_prosemirror_text (node : json) : res string :=
  if negb (truthy node) then Ok EmptyString
  else
    texts <~ recurse node ;;
    strings <~ str_items texts ;;
    Ok (String.concat " " strings).

(** The header set of [get_headers]; [authorization_bearer] is the value
    formatted after ["Bearer "]. *)
Record headers : Type := {
  authorization_bearer : json;
  content_type : string;
  accept : string;
  user_agent : string;
  x_client_version : string
}.

(** What a handler raises besides the exceptions of [exn]. *)
Inductive handler_exn : Type :=
| HTTPException (status_code : Z)
| KeyError
| IndexError.

Inductive reply (A : Type) : Type :=
| Reply (a : A)
| Throws (x : handler_exn).
Arguments Reply {A} a.
Arguments Throws {A} x.

(** A request to the Granola API. *)
Record api_call : Type := {
  call_url : string;
  call_headers : headers;
  call_data : json
}.

(** [v[:500]]: a string or a list is cut; a number, a boolean and None
    cannot be subscripted, and a dict cannot be looked up at a slice (the
    [TypeError] of an unhashable key, up to Python 3.11). *)
Definition slice500 (v : json) : res json :=
  match v with
  | JStr s => Ok (JStr (substring 0 500 s))
  | JArr items => Ok (JArr (firstn 500 items))
  | _ => Raise TypeError
  end.

(** [needle in hay] on strings. *)
Definition str_contains (needle hay : string) : bool :=
  match index 0 needle hay with
  | Some _ => true
  | None => false
  end.

(** [docs[0]]: the first item of a list, the first character of a string,
    [IndexError] when they are empty; a dict from JSON has no key 0. *)
Definition index0 (docs : json) : res (reply json) :=
  match docs with
  | JArr (d :: _) => Ok (Reply d)
  | JStr (String c _) => Ok (Reply (JStr (String c EmptyString)))
  | JArr [] | JStr EmptyString => Ok (Throws IndexError)
  | JObj _ => Ok (Throws KeyError)
  | _ => Raise TypeError
  end.

(** The document as [list_documents] returns it. *)
Definition simplify_document (d : json) : res json :=
  id <~ dict_get d "id" ;;
  title <~ dict_get d "title" ;;
  created_at <~ dict_get d "created_at" ;;
  updated_at <~ dict_get d "updated_at" ;;
  notes_plain <~ dict_get_default d "notes_plain" (JStr EmptyString) ;;
  notes_markdown <~ dict_get_default d "notes_markdown" (JStr EmptyString) ;;
  workspace_id <~ dict_get d "workspace_id" ;;
  summary <~ dict_get d "summary" ;;
  overview <~ dict_get d "overview" ;;
  attendees <~ _extract_attendees d ;;
  Ok (JObj [("id", id); ("title", title); ("created_at", created_at);
            ("updated_at", updated_at); ("notes_plain", notes_plain);
            ("notes_markdown", notes_markdown); ("workspace_id", workspace_id);
            ("summary", summary); ("overview", overview);
            ("attendees", JArr attendees)]).

Fixpoint simplify_documents (docs : list json) : res (list json) :=
  match docs with
  | [] => Ok []
  | d :: rest =>
      first <~ simplify_document d ;;
      others <~ simplify_documents rest ;;
      Ok (first :: others)
  end.

(** The document as [get_document] returns it. *)
Definition full_document (d : json) : res json :=
  id <~ dict_get d "id" ;;
  title <~ dict_get d "title" ;;
  created_at <~ dict_get d "created_at" ;;
  updated_at <~ dict_get d "updated_at" ;;
  notes_plain <~ dict_get_default d "notes_plain" (JStr EmptyString) ;;
  notes_markdown <~ dict_get_default d "notes_markdown" (JStr EmptyString) ;;
  notes_tree <~ dict_get_default d "notes" (JObj []) ;;
  notes <~ _extract_prosemirror_text notes_tree ;;
  panel <~ dict_get_default d "last_viewed_panel" (JObj []) ;;
  panel_tree <~ dict_get_default panel "content" (JObj []) ;;
  last_viewed_panel <~ _extract_prosemirror_text panel_tree ;;
  workspace_id <~ dict_get d "workspace_id" ;;
  summary <~ dict_get d "summary" ;;
  overview <~ dict_get d "overview" ;;
  attendees <~ _extract_attendees d ;;
  chapters <~ dict_get d "chapters" ;;
  Ok (JObj [("id", id); ("title", title); ("created_at", created_at);
            ("updated_at", updated_at); ("notes_plain", notes_plain);
            ("notes_markdown", notes_markdown); ("notes", JStr notes);
            ("last_viewed_panel", JStr last_viewed_panel);
            ("workspace_id", workspace_id); ("summary", summary);
            ("overview", overview); ("attendees", JArr attendees);
            ("chapters", chapters)]).

(** The document as [search_documents] returns it. *)
Definition search_entry (d : json) : res json :=
  id <~ dict_get d "id" ;;
  title <~ dict_get d "title" ;;
  created_at <~ dict_get d "created_at" ;;
  notes_plain <~ dict_get_default d "notes_plain" (JStr EmptyString) ;;
  notes_head <~ slice500 notes_plain ;;
  attendees <~ _extract_attendees d ;;
  Ok (JObj [("id", id); ("title", title); ("created_at", created_at);
            ("notes_plain", notes_head); ("attendees", JArr attendees)]).

Section Handlers.

(** The object and its [get_token], of either variant. *)
Variable S : Type.
Variable get_token : M S json.

(** The Granola API: its answer to each request. *)
Variable granola : api_call -> http_outcome.

(** [str.lower]. *)
Variable str_lower : string -> string.

(** Whether [response.json()] fails with an exception of [requests]
    (a [RequestException], from requests 2.27 on) or with the standard
    library's. *)
Variable json_error_is_request_exception : bool.

Definition get_headers : M S (reply headers) :=
  token <- get_token ;;
  if negb (truthy token) then ret (Throws (HTTPException 401))
  else ret (Reply {| authorization_bearer := token;
                     content_type := "application/json";
                     accept := "*/*";
                     user_agent := "Granola/5.354.0";
                     x_client_version := "5.354.0" |}).

(** [requests.post(url, headers=headers, json=data)]. *)
Definition post_granola (c : api_call) : res http_outcome :=
  match granola c with
  | PostRaises => Raise ConnectionError
  | o => Ok o
  end.

Definition status_of (o : http_outcome) : Z :=
  match o with
  | Response status _ => status
  | PostRaises => 0
  end.

Definition is_request_exception (e : exn) : bool :=
  match e with
  | ConnectionError | HTTPError => true
  | JSONDecodeError => json_error_is_request_exception
  | _ => false
  end.

(** [except requests.exceptions.RequestException as e:
     raise HTTPException(status_code=500, detail=str(e))]. *)
Definition except_request_exception {A} (body : res (reply A)) : res (reply A) :=
  match body with
  | Raise e =>
      if is_request_exception e then Ok (Throws (HTTPException 500))
      else Raise e
  | done => done
  end.

(** A handler: the headers first, then the rest. *)
Definition with_headers {A} (rest : headers -> res (reply A)) : M S (reply A) :=
  got <- get_headers ;;
  match got with
  | Reply h => lift (rest h)
  | Throws x => ret (Throws x)
  end.

Definition list_documents (limit offset : Z) (include_content : bool) :
    M S (reply json) :=
  with_headers (fun h =>
    except_request_exception
      (response <~ post_granola
          {| call_url := "https://api.granola.ai/v2/get-documents";
             call_headers := h;
             call_data := JObj [("limit", JInt limit); ("offset", JInt offset);
                                ("include_last_viewed_panel", JBool include_content)] |} ;;
       _ <~ raise_for_status response ;;
       result <~ response_json response ;;
       docs <~ dict_get_default result "docs" (JArr []) ;;
       each <~ py_iter docs ;;
       simplified <~ simplify_documents each ;;
       Ok (Reply (JObj [("documents", JArr simplified);
                        ("count", JInt (Z.of_nat (List.length simplified)));
                        ("offset", JInt offset)])))).

Definition get_document (document_id : string) : M S (reply json) :=
  with_headers (fun h =>
    except_request_exception
      (response <~ post_granola
          {| call_url := "https://api.granola.ai/v1/get-documents-batch";
             call_headers := h;
             call_data := JObj [("document_ids", JArr [JStr document_id]);
                                ("include_last_viewed_panel", JBool true)] |} ;;
       _ <~ raise_for_status response ;;
       result <~ response_json response ;;
       documents <~ dict_get result "documents" ;;
       docs <~ (if truthy documents then Ok documents
                else other <~ dict_get result "docs" ;;
                     if truthy other then Ok other else Ok (JArr [])) ;;
       if negb (truthy docs) then Ok (Throws (HTTPException 404))
       else
         first <~ index0 docs ;;
         match first with
         | Throws x => Ok (Throws x)
         | Reply d => document <~ full_document d ;; Ok (Reply document)
         end)).

Definition get_transcript (document_id : string) : M S (reply json) :=
  with_headers (fun h =>
    match post_granola
            {| call_url := "https://api.granola.ai/v1/get-document-transcript";
               call_headers := h;
               call_data := JObj [("document_id", JStr document_id)] |} with
    | Raise e => Raise e
    | Ok response =>
        if status_of response =? 404 then Ok (Throws (HTTPException 404))
        else
          match raise_for_status response with
          | Raise HTTPError =>
              if status_of response =? 404 then Ok (Throws (HTTPException 404))
              else Ok (Throws (HTTPException 500))
          | Raise e => Raise e
          | Ok _ =>
              transcript <~ response_json response ;;
              Ok (Reply (JObj [("transcript", transcript)]))
          end
    end).

Definition list_workspaces : M S (reply json) :=
  with_headers (fun h =>
    except_request_exception
      (response <~ post_granola
          {| call_url := "https://api.granola.ai/v1/get-workspaces";
             call_headers := h;
             call_data := JObj [] |} ;;
       _ <~ raise_for_status response ;;
       workspaces <~ response_json response ;;
       Ok (Reply (JObj [("workspaces", workspaces)])))).

(** One round of the loop of [list_folders]: [Some] when it returns, [None]
    when it goes on to the next address. *)
Definition try_folders (h : headers) (url : string) : option json :=
  match post_granola {| call_url := url; call_headers := h;
                        call_data := JObj [] |} with
  | Raise _ => None
  | Ok response =>
      if status_of response =? 404 then None
      else
        match raise_for_status response with
        | Raise _ => None
        | Ok _ =>
            match response_json response with
            | Raise _ => None
            | Ok folders => Some (JObj [("folders", folders)])
            end
        end
  end.

Fixpoint folders_loop (h : headers) (urls : list string) : reply json :=
  match urls with
  | [] => Throws (HTTPException 500)
  | url :: rest =>
      match try_folders h url with
      | Some answer => Reply answer
      | None => folders_loop h rest
      end
  end.

Definition list_folders : M S (reply json) :=
  with_headers (fun h =>
    Ok (folders_loop h ["https://api.granola.ai/v2/get-document-lists";
                        "https://api.granola.ai/v1/get-document-lists"])).

(** [(v or "").lower()]. *)
Definition lower_or_empty (v : json) : res string :=
  if truthy v then
    match v with
    | JStr s => Ok (str_lower s)
    | _ => Raise AttributeError
    end
  else Ok (str_lower EmptyString).

(** The loop of [search_documents] over the documents still to visit, with
    the matches found so far. *)
Fixpoint search_loop (q_lower : string) (limit : Z) (docs : list json)
    (matches : list json) : res (list json) :=
  match docs with
  | [] => Ok matches
  | d :: rest =>
      raw_title <~ dict_get d "title" ;;
      title <~ lower_or_empty raw_title ;;
      raw_notes <~ dict_get d "notes_plain" ;;
      notes <~ lower_or_empty raw_notes ;;
      if str_contains q_lower title || str_contains q_lower notes then
        entry <~ search_entry d ;;
        if limit <=? Z.of_nat (List.length (matches ++ [entry])%list)
        then Ok (matches ++ [entry])%list
        else search_loop q_lower limit rest (matches ++ [entry])%list
      else search_loop q_lower limit rest matches
  end.

Definition search_documents (q : string) (limit : Z) : M S (reply json) :=
  with_headers (fun h =>
    except_request_exception
      (response <~ post_granola
          {| call_url := "https://api.granola.ai/v2/get-documents";
             call_headers := h;
             call_data := JObj [("limit", JInt 100); ("offset", JInt 0);
                                ("include_last_viewed_panel", JBool true)] |} ;;
       _ <~ raise_for_status response ;;
       result <~ response_json response ;;
       docs <~ dict_get_default result "docs" (JArr []) ;;
       each <~ py_iter docs ;;
       matches <~ search_loop (str_lower q) limit each [] ;;
       Ok (Reply (JObj [("documents", JArr matches);
                        ("count", JInt (Z.of_nat (List.length matches)));
                        ("query", JStr q)])))).

End Handlers.

(** The provider answers 200 and repeats the refresh token that was sent. *)
Definition repeating_answer : http_outcome :=
  Response 200 (Some (JObj [("access_token", JStr "at-2");
                            ("refresh_token", JStr "rt-old")])).

(** The provider answers 200 with a token that lives one minute. *)
Definition short_lived_answer : http_outcome :=
  Response 200 (Some (JObj [("access_token", JStr "at-1");
                            ("expires_in", JInt 60)])).

(** The header set that [get_headers] builds around a token. *)
Definition bearer_headers (token : json) : headers :=
  {| authorization_bearer := token;
     content_type := "application/json";
     accept := "*/*";
     user_agent := "Granola/5.354.0";
     x_client_version := "5.354.0" |}.

(** What a handler makes of the outcome of [get_token]: the exception of
    [get_token], 401 on an empty token, else the rest of the handler on the
    headers; the object and the world are as [get_token] left them. *)
Definition after_token {S A} (rest : headers -> res (reply A))
    (r : res json * S * World) : res (reply A) * S * World :=
  (match result_of r with
   | Ok token =>
       if negb (truthy token) then Ok (Throws (HTTPException 401))
       else rest (bearer_headers token)
   | Raise e => Raise e
   end, state_of r, world_of r).

(** A volume that holds the persisted record and refuses to delete it. *)
Definition undeletable_world (expiry_text : string) : World :=
  {| environ := environ (persisted_world expiry_text);
     clock := clock (persisted_world expiry_text);
     clock_ok := clock_ok (persisted_world expiry_text);
     ticks := 0;
     workos := workos (persisted_world expiry_text);
     workos_log := [];
     railway := railway (persisted_world expiry_text);
     railway_log := [];
     file := file (persisted_world expiry_text);
     read_fault := false;
     write_faults := None;
     unlink_fault := true |}.

(** * Vocabulary of the statements about the proxy side *)

Definition is_object (j : json) : bool :=
  match j with JObj _ => true | _ => false end.

(** [j.get(k)] for a value known to be a dict; None for anything else. *)
Definition json_field (k : string) (j : json) : json :=
  match j with
  | JObj fields => field k fields
  | _ => JNull
  end.

(** A ProseMirror tree as the editor produces it: text leaves, and blocks
    with children. *)
Inductive pm_node : Type :=
| PmText (text : string)
| PmBlock (kind : string) (children : list pm_node).

Fixpoint pm_json (t : pm_node) : json :=
  match t with
  | PmText text => JObj [("type", JStr "text"); ("text", JStr text)]
  | PmBlock kind children =>
      JObj [("type", JStr kind); ("content", JArr (map pm_json children))]
  end.

(** The texts of the leaves, in document order. *)
Fixpoint pm_texts (t : pm_node) : list string :=
  match t with
  | PmText text => [text]
  | PmBlock _ children => flat_map pm_texts children
  end.

(** No block calls itself ["text"]. *)
Fixpoint pm_blocks_named (t : pm_node) : bool :=
  match t with
  | PmText _ => true
  | PmBlock kind children =>
      negb (kind =? "text")%string && forallb pm_blocks_named children
  end.

(** A small document: two paragraphs, the second with two leaves. *)
Definition sample_tree : pm_node :=
  PmBlock "doc"
    [PmBlock "paragraph" [PmText "Agenda"];
     PmBlock "paragraph" [PmText "budget"; PmText "hiring"]].

(** A document with a calendar event and three attendees, one without
    email. *)
Definition sample_meeting : json :=
  JObj [("id", JStr "doc-1");
        ("title", JStr "Weekly Sync");
        ("notes_plain", JStr "Budget review");
        ("google_calendar_event",
         JObj [("attendees",
                JArr [JObj [("email", JStr "ann@example.com")];
                      JObj [("displayName", JStr "Room 4")];
                      JObj [("email", JStr "bob@example.com")]])])].

Definition is_string (j : json) : bool :=
  match j with JStr _ => true | _ => false end.

(** The loop [for child in n.get("content", []): recurse(child)] read with
    the dict lookup: what it appends to [texts]. *)
Definition recurse_content (fields : list (string * json)) : res (list json) :=
  match assoc "content" fields with
  | None => Ok []
  | Some (JArr items) => recurse (JArr items)
  | Some (JStr _) | Some (JObj _) => Ok []
  | Some _ => Raise TypeError
  end.

(** The JSON body of an answer of the Granola API that a handler goes on to
    use: the answer arrived, with a status that is not 4xx/5xx. *)
Definition upstream_body (o : http_outcome) : option json :=
  match o with
  | Response status (Some body) =>
      if (400 <=? status) && (status <? 600) then None else Some body
  | _ => None
  end.

(** The request of [list_documents]. *)
Definition list_documents_call (h : headers) (limit offset : Z)
    (include_content : bool) : api_call :=
  {| call_url := "https://api.granola.ai/v2/get-documents";
     call_headers := h;
     call_data := JObj [("limit", JInt limit); ("offset", JInt offset);
                        ("include_last_viewed_panel", JBool include_content)] |}.

(** The request of [search_documents]: always the first hundred documents. *)
Definition search_documents_call (h : headers) : api_call :=
  list_documents_call h 100 0 true.

(** The request of [get_document]. *)
Definition get_document_call (h : headers) (document_id : string) : api_call :=
  {| call_url := "https://api.granola.ai/v1/get-documents-batch";
     call_headers := h;
     call_data := JObj [("document_ids", JArr [JStr document_id]);
                        ("include_last_viewed_panel", JBool true)] |}.

(** The request of [get_transcript]. *)
Definition get_transcript_call (h : headers) (document_id : string) : api_call :=
  {| call_url := "https://api.granola.ai/v1/get-document-transcript";
     call_headers := h;
     call_data := JObj [("document_id", JStr document_id)] |}.

(** The request of [list_workspaces]. *)
Definition list_workspaces_call (h : headers) : api_call :=
  {| call_url := "https://api.granola.ai/v1/get-workspaces";
     call_headers := h;
     call_data := JObj [] |}.

(** The two requests of [list_folders]. *)
Definition list_folders_call (h : headers) (version : string) : api_call :=
  {| call_url := "https://api.granola.ai/" ++ version ++ "/get-document-lists";
     call_headers := h;
     call_data := JObj [] |}.

(** A Granola API that answers every request with two documents. *)
Definition willing_granola (c : api_call) : http_outcome :=
  Response 200
    (Some (JObj [("docs",
                  JArr [sample_meeting;
                        JObj [("id", JStr "doc-2");
                              ("title", JStr "Hiring plan");
                              ("notes_plain", JNull)]])])).

(** A document that the handlers can project: a JSON object whose calendar
    event [_extract_attendees] accepts. *)
Definition listable (d : json) : bool :=
  is_object d && is_ok (_extract_attendees d).

(** The Granola API could not be reached, or answered with a 4xx/5xx
    status. *)
Definition upstream_failed (o : http_outcome) : bool :=
  match o with
  | PostRaises => true
  | Response status _ => (400 <=? status) && (status <? 600)
  end.

(** A Granola API that answers 404 except at the v1 address of the folders. *)
Definition only_v1_granola (c : api_call) : http_outcome :=
  if (call_url c =? "https://api.granola.ai/v1/get-document-lists")%string
  then Response 200 (Some (JArr [JStr "Inbox"]))
  else Response 404 None.

(** What [(v or EMPTY).lower()] accepts: a string, or anything empty. *)
Definition text_or_empty (v : json) : bool := negb (truthy v) || is_string v.

(** The test of [search_documents] on a document that is a dict:
    [q_lower in title or q_lower in notes]. *)
Definition mentions (str_lower : string -> string) (q : string) (d : json) :
    bool :=
  match lower_or_empty str_lower (json_field "title" d),
        lower_or_empty str_lower (json_field "notes_plain" d) with
  | Ok title, Ok notes =>
      str_contains (str_lower q) title || str_contains (str_lower q) notes
  | _, _ => false
  end.

(** The plain notes of a dict are a string, or the key is missing: what
    both [(d.get("notes_plain") or EMPTY).lower()] and
    [d.get("notes_plain", EMPTY)[:500]] accept.  (A null is accepted by the
    first and not by the second.) *)
Definition notes_are_text (d : json) : bool :=
  match d with
  | JObj fields =>
      match assoc "notes_plain" fields with
      | None | Some (JStr _) => true
      | Some _ => false
      end
  | _ => false
  end.

(** A document that [search_documents] can test and project: a dict whose
    calendar event [_extract_attendees] accepts, whose title is a string or
    empty, and whose plain notes are a string or missing. *)
Definition searchable (d : json) : bool :=
  listable d && text_or_empty (json_field "title" d) && notes_are_text d.

(** [str.lower] on the letters A to Z, for the examples. *)
Definition ascii_lower_char (c : Ascii.ascii) : Ascii.ascii :=
  let n := Ascii.nat_of_ascii c in
  if (65 <=? n)%nat && (n <=? 90)%nat then Ascii.ascii_of_nat (n + 32) else c.

Fixpoint ascii_lower (s : string) : string :=
  match s with
  | EmptyString => EmptyString
  | String c rest => String (ascii_lower_char c) (ascii_lower rest)
  end.

(** A Granola API that answers every request with three documents, two of
    them about hiring. *)
Definition three_documents : list json :=
  [JObj [("id", JStr "doc-1"); ("title", JStr "Hiring plan")];
   JObj [("id", JStr "doc-2"); ("title", JStr "Weekly Sync");
         ("notes_plain", JStr "Budget review")];
   JObj [("id", JStr "doc-3"); ("title", JNull);
         ("notes_plain", JStr "Open roles and HIRING freeze")]].

Definition archive_granola (c : api_call) : http_outcome :=
  Response 200 (Some (JObj [("docs", JArr three_documents)])).

(** * Proof tools *)

(** The Python primitives stay folded while a run is simplified; they are
    unfolded by name where a proof needs their cases. *)
Arguments truthy : simpl never.
Arguments py_eq : simpl never.
Arguments py_ne : simpl never.
Arguments slice10 : simpl never.
Arguments add_dots : simpl never.
Arguments timedelta_seconds : simpl never.
Arguments datetime_add : simpl never.
Arguments datetime_sub : simpl never.
Arguments minutes : simpl never.
Arguments seconds : simpl never.
Arguments Api._persist_state : simpl never.
Arguments ApiFixed._persist_refresh_token : simpl never.

Ltac run_py :=
  unfold result_of, state_of, world_of;
  cbv beta delta
    [Api.refresh Api.refresh_body
     Api.get_token Api.is_expired Api.health Api.init Api._load_persisted_state
     Api.load_body Api.now_before_buffer Api.py_fromisoformat Api.reset_token
     ApiFixed.refresh ApiFixed.refresh_body
     ApiFixed.get_token ApiFixed.is_expired ApiFixed.health ApiFixed.init
     bind ret raise lift try_except get put modify
     post_workos post_railway datetime_now environ_get
     file_exists read_json_file mkdir_parent write_json_file unlink_file
     raise_for_status response_json dict_get dict_get_default
     api_answer fixed_answer api_grant fixed_grant];
  cbn beta iota.

Lemma bind_run {S A B} (m : M S A) (f : A -> M S B) s w :
  bind m f s w =
  match m s w with
  | (Ok a, s', w') => f a s' w'
  | (Raise e, s', w') => (Raise e, s', w')
  end.
Proof. reflexivity. Qed.

Lemma answer_fields_some o fields :
  answer_fields o = Some fields ->
  exists status, o = Response status (Some (JObj fields)) /\
                 (400 <=? status) && (status <? 600) = false.
Proof.
  destruct o as [|status [j|]]; cbn; try discriminate.
  destruct j; try discriminate.
  destruct ((400 <=? status) && (status <? 600)) eqn:E; try discriminate.
  intros H; injection H as <-. exists status. auto.
Qed.

(** * Facts about [refresh] in [api.py] *)

Section Api_refresh.

Variable isoformat : datetime -> string.

Ltac run_persist :=
  unfold api_persisted, world_of, Api._persist_state, Api.persist_body;
  cbv beta delta [bind ret try_except get mkdir_parent datetime_now write_json_file];
  cbn.

(** [_persist_state] swallows every exception and assigns nothing. *)
Lemma api_persist_run st w :
  Api._persist_state isoformat st w = (Ok tt, st, api_persisted isoformat st w).
Proof.
  run_persist.
  destruct (write_faults w) as [[]|] eqn:E; cbn; rewrite ?E; reflexivity.
Qed.

Lemma api_persisted_frame st w :
  workos (api_persisted isoformat st w) = workos w /\
  workos_log (api_persisted isoformat st w) = workos_log w.
Proof.
  run_persist.
  destruct (write_faults w) as [[]|] eqn:E; cbn; rewrite ?E; auto.
Qed.

Lemma api_persisted_file st w :
  write_faults w = None ->
  file (api_persisted isoformat st w) =
  Some (Json (Api.state_record isoformat st (clock w (ticks w)))).
Proof.
  intros E. run_persist. rewrite E. cbn. rewrite E. reflexivity.
Qed.

Lemma api_persisted_file_cases st w :
  file (api_persisted isoformat st w) = file w \/
  file (api_persisted isoformat st w) = Some Garbage \/
  file (api_persisted isoformat st w) =
  Some (Json (Api.state_record isoformat st (clock w (ticks w)))).
Proof.
  run_persist.
  destruct (write_faults w) as [[]|] eqn:E; cbn; rewrite ?E; auto.
Qed.

Lemma api_refresh_view_ok st w :
  api_refresh_view isoformat st w (Api.refresh isoformat st w).
Proof.
  destruct (truthy (Api.refresh_token st)) eqn:Hrt.
  2:{ replace (Api.refresh isoformat st w) with (@Ok bool false, st, w).
      - constructor; auto.
      - run_py. rewrite Hrt. reflexivity. }
  destruct (truthy (JStr (Api.client_id st))) eqn:Hcid.
  2:{ replace (Api.refresh isoformat st w) with (@Ok bool false, st, w).
      - constructor; auto.
      - run_py. rewrite Hrt, Hcid. reflexivity. }
  destruct (slice10 (Api.refresh_token st)) as [p|e] eqn:Hs.
  2:{ replace (Api.refresh isoformat st w) with (@Raise bool TypeError, st, w).
      - constructor; auto. rewrite Hs. reflexivity.
      - run_py. rewrite Hrt, Hcid. cbn. rewrite Hs. cbn.
        destruct (Api.refresh_token st); cbv in Hs; congruence. }
  assert (Hs' : is_ok (slice10 (Api.refresh_token st)) = true)
    by (rewrite Hs; reflexivity).
  destruct (answer_fields (api_answer st w)) as [fields|] eqn:Ha.
  2:{ replace (Api.refresh isoformat st w)
        with (@Ok bool false, st, log_grant (api_grant st) w).
      - constructor; auto.
      - run_py. rewrite Hrt, Hcid. cbn. rewrite Hs. cbn.
        unfold api_answer, api_grant in Ha.
        destruct (workos w _) as [|status [j|]]; cbn in *; auto.
        + destruct ((400 <=? status) && (status <? 600)); cbn; auto.
          destruct j; cbn; auto. discriminate.
        + destruct ((400 <=? status) && (status <? 600)); cbn; auto. }
  pose proof Ha as Ha0.
  apply answer_fields_some in Ha. destruct Ha as (status & Ha & Hst).
  unfold api_answer, api_grant in Ha.
  destruct (grant_usable (clock w (ticks w)) (Api.refresh_token st) fields)
    eqn:Hu.
  - unfold grant_usable in Hu. rewrite Hrt, Hs in Hu. cbn in Hu.
    apply andb_prop in Hu. destruct Hu as [Hu1 Hu2].
    destruct (new_expiry (clock w (ticks w)) fields) as [expiry|] eqn:Hl;
      [|discriminate].
    replace (Api.refresh isoformat st w)
      with (@Ok bool true,
            api_adopted st fields expiry,
            api_persisted isoformat (api_adopted st fields expiry)
                          (tick (log_grant (api_grant st) w))).
    { apply ApiGranted; auto.
      unfold grant_usable. rewrite Hrt, Hs. cbn. rewrite Hu1, Hl. reflexivity. }
    unfold api_adopted, new_expiry, lifetime, rotates, field, field_or in *.
    run_py. rewrite Hrt, Hcid. cbn. rewrite Hs. cbn.
    rewrite Ha. cbn. rewrite Hst. cbn.
    destruct (assoc "access_token" fields) as [tok|]; cbn;
    destruct (assoc "refresh_token" fields) as [new|]; cbn.
    all: repeat match goal with
         | |- context [truthy ?n && py_ne ?n ?o] =>
             destruct (truthy n && py_ne n o) eqn:?; cbn
         | |- context [truthy (Api.refresh_token _)] => rewrite Hrt in *; cbn in *
         | |- context [slice10 (Api.refresh_token _)] => rewrite Hs in *; cbn in *
         | |- context [slice10 ?n] => destruct (slice10 n) eqn:?; cbn in *
         | |- context [assoc "expires_in" ?f] =>
             destruct (assoc "expires_in" f) eqn:?; cbn in *
         | |- context [timedelta_seconds ?n] =>
             destruct (timedelta_seconds n) eqn:?; cbn in *
         | |- context [datetime_add ?t ?d] =>
             destruct (datetime_add t d) eqn:?; cbn in *
         | |- context [Api._persist_state] => rewrite api_persist_run; cbn
         end.
    all: try discriminate.
    all: try (injection Hl as <-); reflexivity.
  - destruct (Api.refresh isoformat st w) as [[r st'] w'] eqn:Hrun.
    assert (r = Ok false /\ Api.access_token st' = field "access_token" fields /\
            Api.token_expiry st' = Api.token_expiry st /\ file w' = file w /\
            workos w' = workos w /\
            workos_log w' = api_grant st :: workos_log w) as (-> & H1 & H2 & H3 & H4 & H5).
    2:{ eapply ApiBroken; eauto. }
    revert Hrun.
    unfold grant_usable in Hu. rewrite Hrt, Hs in Hu. cbn in Hu.
    unfold new_expiry, lifetime, rotates, field, field_or in *.
    run_py. rewrite Hrt, Hcid. cbn. rewrite Hs. cbn.
    rewrite Ha. cbn. rewrite Hst. cbn.
    destruct (assoc "access_token" fields) as [tok|]; cbn;
    destruct (assoc "refresh_token" fields) as [new|]; cbn.
    all: repeat match goal with
         | |- context [truthy ?n && py_ne ?n ?o] =>
             destruct (truthy n && py_ne n o) eqn:?; cbn
         | |- context [truthy (Api.refresh_token _)] => rewrite Hrt in *; cbn in *
         | |- context [slice10 (Api.refresh_token _)] => rewrite Hs in *; cbn in *
         | |- context [slice10 ?n] => destruct (slice10 n) eqn:?; cbn in *
         | |- context [assoc "expires_in" ?f] =>
             destruct (assoc "expires_in" f) eqn:?; cbn in *
         | |- context [timedelta_seconds ?n] =>
             destruct (timedelta_seconds n) eqn:?; cbn in *
         | |- context [datetime_add ?t ?d] =>
             destruct (datetime_add t d) eqn:?; cbn in *
         | |- context [Api._persist_state] => rewrite api_persist_run; cbn
         end.
    all: try discriminate.
    all: intros Hrun; injection Hrun as <- <- <-; cbn; auto 10.
Qed.

End Api_refresh.

(** * Facts about [refresh] in [api_fixed.py] *)

Lemma fixed_persist_run new_token st w :
  ApiFixed._persist_refresh_token new_token st w =
  (Ok (ApiFixed.railway_configured st &&
       railway_acknowledged
         (railway w (ApiFixed.upsert_of st new_token :: railway_log w))),
   st, fixed_persisted new_token st w).
Proof.
  unfold ApiFixed._persist_refresh_token, fixed_persisted, railway_acknowledged,
    answer_fields, field.
  cbv beta delta [bind ret try_except get lift post_railway raise_for_status
                  response_json dict_get dict_get_default].
  cbn beta iota.
  destruct (ApiFixed.railway_configured st); cbn; [|reflexivity].
  destruct (railway w _) as [|status [j|]]; cbn; try reflexivity.
  - destruct j as [| | | | |fs];
      destruct ((400 <=? status) && (status <? 600)); cbn; try reflexivity.
    destruct (assoc "errors" fs) as [v|]; cbn.
    + destruct (truthy v); reflexivity.
    + reflexivity.
  - destruct ((400 <=? status) && (status <? 600)); reflexivity.
Qed.

Lemma fixed_persisted_clock new_token st w :
  clock (fixed_persisted new_token st w) = clock w.
Proof.
  unfold fixed_persisted. destruct (ApiFixed.railway_configured st); reflexivity.
Qed.

Lemma fixed_persisted_ticks new_token st w :
  ticks (fixed_persisted new_token st w) = ticks w.
Proof.
  unfold fixed_persisted. destruct (ApiFixed.railway_configured st); reflexivity.
Qed.

Ltac step_fixed Hrt Hs :=
  repeat match goal with
  | |- context [clock (fixed_persisted _ _ _)] =>
      rewrite fixed_persisted_clock; cbn in *
  | |- context [ticks (fixed_persisted _ _ _)] =>
      rewrite fixed_persisted_ticks; cbn in *
  | |- context [truthy ?n && py_ne ?n ?o] =>
      destruct (truthy n && py_ne n o) eqn:?; cbn in *
  | |- context [truthy (ApiFixed.refresh_token _)] => rewrite Hrt in *; cbn in *
  | |- context [slice10 ?n] => destruct (slice10 n) eqn:?; cbn in *
  | |- context [assoc "expires_in" ?f] =>
      destruct (assoc "expires_in" f) eqn:?; cbn in *
  | |- context [timedelta_seconds ?n] =>
      destruct (timedelta_seconds n) eqn:?; cbn in *
  | |- context [datetime_add ?t ?d] =>
      destruct (datetime_add t d) eqn:?; cbn in *
  | |- context [ApiFixed._persist_refresh_token] =>
      rewrite fixed_persist_run; cbn in *
  end.

Lemma fixed_refresh_view_ok st w :
  fixed_refresh_view st w (ApiFixed.refresh st w).
Proof.
  destruct (truthy (ApiFixed.refresh_token st)) eqn:Hrt.
  2:{ replace (ApiFixed.refresh st w) with (@Ok bool false, st, w).
      - constructor; auto.
      - run_py. rewrite Hrt. reflexivity. }
  destruct (truthy (JStr (ApiFixed.client_id st))) eqn:Hcid.
  2:{ replace (ApiFixed.refresh st w) with (@Ok bool false, st, w).
      - constructor; auto.
      - run_py. rewrite Hrt, Hcid. reflexivity. }
  destruct (answer_fields (fixed_answer st w)) as [fields|] eqn:Ha.
  2:{ replace (ApiFixed.refresh st w)
        with (@Ok bool false, st, log_grant (fixed_grant st) w).
      - constructor; auto.
      - run_py. rewrite Hrt, Hcid. cbn.
        unfold fixed_answer, fixed_grant in Ha.
        destruct (workos w _) as [|status [j|]]; cbn in *; auto.
        + destruct ((400 <=? status) && (status <? 600)); cbn; auto.
          destruct j; cbn; auto. discriminate.
        + destruct ((400 <=? status) && (status <? 600)); cbn; auto. }
  pose proof Ha as Ha0.
  apply answer_fields_some in Ha. destruct Ha as (status & Ha & Hst).
  unfold fixed_answer, fixed_grant in Ha.
  destruct (grant_usable (clock w (ticks w)) (ApiFixed.refresh_token st) fields)
    eqn:Hu.
  - unfold grant_usable in Hu. rewrite Hrt in Hu.
    apply andb_prop in Hu. destruct Hu as [Hu1 Hu2].
    destruct (new_expiry (clock w (ticks w)) fields) as [expiry|] eqn:Hl;
      [|discriminate].
    replace (ApiFixed.refresh st w)
      with (@Ok bool true,
            fixed_adopted st fields expiry,
            fixed_granted_world st fields w).
    { apply FixedGranted; auto.
      unfold grant_usable. rewrite Hrt, Hu1, Hl. reflexivity. }
    unfold fixed_adopted, fixed_granted_world, new_expiry, lifetime, rotates,
      field, field_or in *.
    run_py. rewrite Hrt, Hcid. cbn.
    rewrite Ha. cbn. rewrite Hst. cbn.
    destruct (assoc "access_token" fields) as [tok|]; cbn;
    destruct (assoc "refresh_token" fields) as [new|]; cbn.
    all: step_fixed Hrt Hs.
    all: try discriminate.
    all: try (injection Hl as <-).
    all: try reflexivity.
    all: unfold fixed_persisted, fixed_grant; cbn;
         destruct (ApiFixed.railway_configured _); reflexivity.
  - destruct (ApiFixed.refresh st w) as [[r st'] w'] eqn:Hrun.
    assert (r = Ok false /\
            ApiFixed.access_token st' = field "access_token" fields /\
            ApiFixed.token_expiry st' = ApiFixed.token_expiry st /\
            workos_log w' = fixed_grant st :: workos_log w)
      as (-> & H1 & H2 & H3).
    2:{ eapply FixedBroken; eauto. }
    revert Hrun.
    unfold grant_usable in Hu. rewrite Hrt in Hu.
    unfold new_expiry, lifetime, rotates, field, field_or in *.
    run_py. rewrite Hrt, Hcid. cbn.
    rewrite Ha. cbn. rewrite Hst. cbn.
    destruct (assoc "access_token" fields) as [tok|]; cbn;
    destruct (assoc "refresh_token" fields) as [new|]; cbn.
    all: step_fixed Hrt Hs.
    all: try discriminate.
    all: intros Hrun; injection Hrun as <- <- <-; cbn; auto 10.
    all: unfold fixed_persisted; destruct (ApiFixed.railway_configured _); cbn; auto.
Qed.

(** * Facts about [is_expired] and [get_token] *)

(** A reading of the clock is a datetime. *)
Lemma clock_range w n : datetime_min <= clock w n <= datetime_max.
Proof.
  pose proof (clock_ok w n) as H. unfold is_datetime in H.
  apply andb_prop in H. destruct H as [H1 H2].
  apply Z.leb_le in H1. apply Z.leb_le in H2. auto.
Qed.

(** Five minutes before an expiry that lies after a reading of the clock is
    still a datetime. *)
Lemma datetime_sub_after w n e :
  clock w n < e - minutes 5 ->
  datetime_sub e (minutes 5) = Ok (e - minutes 5).
Proof.
  intros Hlt. unfold datetime_sub.
  pose proof (clock_range w n) as [Hmin _].
  destruct (Z.leb_spec datetime_min (e - minutes 5)); [reflexivity | lia].
Qed.

Lemma api_is_expired_run st w :
  Api.is_expired st w =
  (Api.is_expired_at (clock w (ticks w)) st, st, api_checked st w).
Proof.
  unfold Api.is_expired_at, api_checked. run_py.
  destruct (truthy (Api.access_token st)); cbn;
    destruct (Api.token_expiry st) as [e|]; cbn; try reflexivity.
  destruct (datetime_sub e (minutes 5)); reflexivity.
Qed.

Lemma api_get_token_run isoformat st w :
  Api.get_token isoformat st w =
  match Api.is_expired_at (clock w (ticks w)) st with
  | Ok true =>
      token_after Api.access_token (Api.refresh isoformat st (api_checked st w))
  | Ok false => (Ok (Api.access_token st), st, api_checked st w)
  | Raise e => (Raise e, st, api_checked st w)
  end.
Proof.
  unfold Api.get_token.
  cbv beta delta [bind]. rewrite api_is_expired_run. cbn beta iota.
  destruct (Api.is_expired_at (clock w (ticks w)) st) as [[]|e];
    try reflexivity.
  unfold token_after, result_of, state_of, world_of.
  destruct (Api.refresh isoformat st (api_checked st w)) as [[[[]|e] st'] w'];
    reflexivity.
Qed.

Lemma api_answer_checked st w :
  api_answer st (api_checked st w) = api_answer st w.
Proof.
  unfold api_checked. destruct (_ && _); reflexivity.
Qed.

Lemma api_checked_frame st w :
  workos (api_checked st w) = workos w /\
  workos_log (api_checked st w) = workos_log w /\
  file (api_checked st w) = file w /\
  write_faults (api_checked st w) = write_faults w /\
  clock (api_checked st w) = clock w.
Proof.
  unfold api_checked. destruct (_ && _); cbn; auto.
Qed.

Lemma fixed_is_expired_run st w :
  ApiFixed.is_expired st w =
  (ApiFixed.is_expired_at (clock w (ticks w)) st, st, fixed_checked st w).
Proof.
  unfold ApiFixed.is_expired_at, fixed_checked. run_py.
  destruct (truthy (ApiFixed.access_token st)); cbn;
    destruct (ApiFixed.token_expiry st) as [e|]; cbn; try reflexivity.
  destruct (datetime_sub e (minutes 5)); reflexivity.
Qed.

Lemma fixed_get_token_run st w :
  ApiFixed.get_token st w =
  match ApiFixed.is_expired_at (clock w (ticks w)) st with
  | Ok true =>
      token_after ApiFixed.access_token (ApiFixed.refresh st (fixed_checked st w))
  | Ok false => (Ok (ApiFixed.access_token st), st, fixed_checked st w)
  | Raise e => (Raise e, st, fixed_checked st w)
  end.
Proof.
  unfold ApiFixed.get_token.
  cbv beta delta [bind]. rewrite fixed_is_expired_run. cbn beta iota.
  destruct (ApiFixed.is_expired_at (clock w (ticks w)) st) as [[]|e];
    try reflexivity.
  unfold token_after, result_of, state_of, world_of.
  destruct (ApiFixed.refresh st (fixed_checked st w)) as [[[[]|e] st'] w'];
    reflexivity.
Qed.

Lemma fixed_answer_checked st w :
  fixed_answer st (fixed_checked st w) = fixed_answer st w.
Proof.
  unfold fixed_checked. destruct (_ && _); reflexivity.
Qed.

(** A token that is set and expires more than five minutes after [now]. *)
Lemma api_fresh_not_expired st w n e :
  truthy (Api.access_token st) = true ->
  Api.token_expiry st = Some e ->
  clock w n < e - minutes 5 ->
  Api.is_expired_at (clock w n) st = Ok false.
Proof.
  intros Ht He Hlt. unfold Api.is_expired_at. rewrite He, Ht. cbn.
  rewrite (datetime_sub_after w n e Hlt). f_equal.
  apply Z.leb_gt. exact Hlt.
Qed.


(** * Facts about construction and [_load_persisted_state] *)

Section Api_load.

Variable fromisoformat : string -> option parsed_datetime.

Lemma api_init_view_ok st0 w :
  exists st' w',
    Api.init fromisoformat st0 w = (Ok tt, st', w') /\ api_init_view fromisoformat w st' w'.
Proof.
  run_py. fold (baseline w).
  destruct (file w) as [[|j]|] eqn:Hf; cbn.
  3:{ eexists _, _. split; [reflexivity|]. apply InitNoRecord. auto. }
  all: destruct (read_fault w) eqn:Hr; cbn; rewrite ?Hf; cbn.
  1,2,3: eexists _, _; split; [reflexivity|]; apply InitNoRecord; auto.
  destruct j as [| | | | |fields]; cbn.
  1-5: eexists _, _; split; [reflexivity|]; apply InitNoRecord;
       right; right; right; eexists; split; [exact Hf|]; intros; discriminate.
  assert (Hplain : forall w', w' = w \/ w' = tick w ->
            api_init_view fromisoformat w (adopt_refresh fields (baseline w)) w')
    by (intros; eapply InitRefreshOnly; eauto).
  pose proof (InitRestored fromisoformat w fields) as Hrestored.
  unfold adopt_refresh, field in *.
  destruct (assoc "access_token" fields) as [tok|] eqn:Hat.
  all: destruct (assoc "refresh_token" fields) as [pr|]; cbn in *.
  all: try change (truthy JNull) with false in *; cbn in *.
  all: try (destruct (truthy pr) eqn:Hpr; cbn in *).
  all: try (destruct (slice10 pr) as [? | ?] eqn:Hsl; cbn in *).
  all: try (eexists _, _; split; [reflexivity|]; apply Hplain; auto; fail).
  all: destruct (assoc "token_expiry" fields) as [es|] eqn:He; cbn in *.
  all: try change (truthy JNull) with false in *; cbn in *.
  all: try (eexists _, _; split; [reflexivity|]; apply Hplain; auto; fail).
  all: destruct (truthy es) eqn:Hes; cbn in *.
  all: try (eexists _, _; split; [reflexivity|]; apply Hplain; auto; fail).
  all: destruct es as [| | |s| |]; cbn in *.
  all: try (eexists _, _; split; [reflexivity|]; apply Hplain; auto; fail).
  all: destruct (fromisoformat s) as [[expiry|]|] eqn:Hp; cbn in *.
  all: try (eexists _, _; split; [reflexivity|]; apply Hplain; auto; fail).
  all: destruct (datetime_sub expiry (minutes 5)) as [limit|] eqn:Hsub;
    cbn in *.
  all: try (eexists _, _; split; [reflexivity|]; apply Hplain; auto; fail).
  all: unfold datetime_sub in Hsub;
       destruct (datetime_min <=? expiry - minutes 5); [|discriminate];
       injection Hsub as <-.
  all: destruct (clock w (ticks w) <? expiry - minutes 5) eqn:Hlt; cbn in *.
  all: try (eexists _, _; split; [reflexivity|]; apply Hplain; auto; fail).
  all: eexists _, _; split; [reflexivity|].
  all: eapply Hrestored; eauto; apply Z.ltb_lt; assumption.
Qed.

End Api_load.

(** * Rotation and its persistence (C1) *)

(** C1, as stated, fails: with a volume that cannot be written, [refresh]
    succeeds on an answer that rotates ["rt-old"] to ["rt-new"], the manager
    holds ["rt-new"], and no saved record holds it (there is no file). *)
Lemma rotation_not_saved_on_readonly_volume :
  let r := Api.refresh stamp_text old_state readonly_world in
  result_of r = Ok true /\
  answer_fields (api_answer old_state readonly_world) =
    Some [("access_token", JStr "at-1"); ("refresh_token", JStr "rt-new");
          ("expires_in", JInt 3600)] /\
  py_ne (JStr "rt-new") (Api.refresh_token old_state) = true /\
  Api.refresh_token (state_of r) = JStr "rt-new" /\
  file (world_of r) = None /\
  saved_refresh_token (world_of r) = None.
Proof. vm_compute. repeat split; reflexivity. Qed.

(** C1 (amended): on a successful [refresh] whose answer carries a non-empty
    refresh token different from the one sent, the manager's [refresh_token]
    is the new value; in [api.py] the file record holds the new value when
    the write meets no fault; in [api_fixed.py] the Railway variable holds it
    when the Railway credentials are configured and Railway acknowledges the
    mutation. *)
Theorem rotation_adopted_and_saved :
  (forall isoformat st w fields,
      result_of (Api.refresh isoformat st w) = Ok true ->
      answer_fields (api_answer st w) = Some fields ->
      rotates (Api.refresh_token st) fields = true ->
      Api.refresh_token (state_of (Api.refresh isoformat st w)) =
        field "refresh_token" fields /\
      (write_faults w = None ->
       saved_refresh_token (world_of (Api.refresh isoformat st w)) =
         Some (field "refresh_token" fields)))
  /\
  (forall st w fields,
      result_of (ApiFixed.refresh st w) = Ok true ->
      answer_fields (fixed_answer st w) = Some fields ->
      rotates (ApiFixed.refresh_token st) fields = true ->
      ApiFixed.refresh_token (state_of (ApiFixed.refresh st w)) =
        field "refresh_token" fields /\
      (ApiFixed.railway_configured st = true ->
       railway_acknowledged
         (railway w (ApiFixed.upsert_of st (field "refresh_token" fields)
                       :: railway_log w)) = true ->
       railway_variable (world_of (ApiFixed.refresh st w)) =
         Some (field "refresh_token" fields))).
Proof.
  split.
  - intros isoformat st w fields Hok Ha Hrot.
    pose proof (api_refresh_view_ok isoformat st w) as V.
    inversion V as [ ? Heq | ? ? ? Heq | ? ? ? ? Heq
                   | fs st' w' ? ? ? ? ? ? ? ? ? ? Heq
                   | fs expiry ? ? ? Ha' ? ? Heq ];
      rewrite <- Heq in Hok; try discriminate.
    rewrite Ha in Ha'. injection Ha' as <-.
    unfold state_of, world_of; cbn. rewrite Hrot. split; [reflexivity|].
    intros Hw. unfold saved_refresh_token.
    rewrite api_persisted_file by exact Hw.
    cbn. rewrite Hrot. reflexivity.
  - intros st w fields Hok Ha Hrot.
    pose proof (fixed_refresh_view_ok st w) as V.
    inversion V as [ ? Heq | ? ? ? Heq
                   | fs st' w' ? ? ? ? ? ? ? Heq
                   | fs expiry ? ? Ha' ? ? Heq ];
      rewrite <- Heq in Hok; try discriminate.
    rewrite Ha in Ha'. injection Ha' as <-.
    unfold state_of, world_of; cbn. rewrite Hrot. split; [reflexivity|].
    intros Hc Hack. unfold railway_variable, fixed_granted_world, fixed_persisted.
    rewrite ?Hrot, ?Hc. cbn. rewrite ?Hrot, ?Hc. cbn. rewrite Hack. reflexivity.
Qed.

(** The theorem applied to the rotating answer, on a healthy volume and with
    Railway configured. *)
Lemma rotation_adopted_and_saved_witness :
  (Api.refresh_token
     (state_of (Api.refresh stamp_text old_state
                  (quiet_world 5000000000 rotating_answer))) = JStr "rt-new" /\
   saved_refresh_token
     (world_of (Api.refresh stamp_text old_state
                  (quiet_world 5000000000 rotating_answer))) = Some (JStr "rt-new"))
  /\
  (ApiFixed.refresh_token
     (state_of (ApiFixed.refresh old_fixed_state
                  (quiet_world 5000000000 rotating_answer))) = JStr "rt-new" /\
   railway_variable
     (world_of (ApiFixed.refresh old_fixed_state
                  (quiet_world 5000000000 rotating_answer))) = Some (JStr "rt-new")).
Proof.
  split.
  - destruct (proj1 rotation_adopted_and_saved stamp_text old_state
                (quiet_world 5000000000 rotating_answer)
                [("access_token", JStr "at-1"); ("refresh_token", JStr "rt-new");
                 ("expires_in", JInt 3600)]) as [H1 H2];
      [vm_compute; reflexivity ..|].
    split; [exact H1 | apply H2; reflexivity].
  - destruct (proj2 rotation_adopted_and_saved old_fixed_state
                (quiet_world 5000000000 rotating_answer)
                [("access_token", JStr "at-1"); ("refresh_token", JStr "rt-new");
                 ("expires_in", JInt 3600)]) as [H1 H2];
      [vm_compute; reflexivity ..|].
    split; [exact H1 | apply H2; vm_compute; reflexivity].
Defined.

(** * Failed refreshes (C2) *)

(** C2, as stated, fails: the provider answers 200 with
    [{"access_token": "at-1", "expires_in": null}]; [timedelta(seconds=None)]
    raises after [access_token] was assigned, [refresh] returns [False], and
    the state is no longer the one before the call. *)
Lemma failed_refresh_keeps_assigned_token :
  let r := Api.refresh stamp_text old_state
             (quiet_world 5000000000 null_lifetime_answer) in
  result_of r = Ok false /\
  Api.access_token old_state = JStr "at-old" /\
  Api.access_token (state_of r) = JStr "at-1" /\
  state_of r <> old_state.
Proof.
  vm_compute. repeat split; try reflexivity. discriminate.
Qed.

(** C2 (amended): when [refresh_token] or [client_id] is missing, when the
    provider call raises, when the provider answers with a 4xx/5xx status, or
    when the body is not a JSON object, every field of [TokenState] is as
    before the call and the caller gets the failure: [False], or in [api.py]
    the [TypeError] of the first log line when the stored refresh token cannot
    be sliced. *)
Theorem refused_refresh_leaves_state :
  (forall isoformat st w,
      truthy (Api.refresh_token st) = false \/
      truthy (JStr (Api.client_id st)) = false \/
      answer_fields (api_answer st w) = None ->
      state_of (Api.refresh isoformat st w) = st /\
      (result_of (Api.refresh isoformat st w) = Ok false \/
       result_of (Api.refresh isoformat st w) = Raise TypeError /\
       is_ok (slice10 (Api.refresh_token st)) = false))
  /\
  (forall st w,
      truthy (ApiFixed.refresh_token st) = false \/
      truthy (JStr (ApiFixed.client_id st)) = false \/
      answer_fields (fixed_answer st w) = None ->
      state_of (ApiFixed.refresh st w) = st /\
      result_of (ApiFixed.refresh st w) = Ok false).
Proof.
  split.
  - intros isoformat st w Hcause.
    pose proof (api_refresh_view_ok isoformat st w) as V.
    inversion V as [ ? Heq | ? ? Hs Heq | ? ? ? ? Heq
                   | fs st' w' Hrt Hcid ? Ha ? ? ? ? ? ? Heq
                   | fs expiry Hrt Hcid ? Ha ? ? Heq ];
      unfold state_of, result_of; cbn; auto.
    all: destruct Hcause as [Hc|[Hc|Hc]]; congruence.
  - intros st w Hcause.
    pose proof (fixed_refresh_view_ok st w) as V.
    inversion V as [ ? Heq | ? ? ? Heq
                   | fs st' w' Hrt Hcid Ha ? ? ? ? Heq
                   | fs expiry Hrt Hcid Ha ? ? Heq ];
      unfold state_of, result_of; cbn; auto.
    all: destruct Hcause as [Hc|[Hc|Hc]]; congruence.
Qed.

(** The theorem applied to a rejected grant (HTTP 400, [invalid_grant]). *)
Lemma refused_refresh_leaves_state_witness :
  (state_of (Api.refresh stamp_text old_state
               (quiet_world 5000000000 invalid_grant_answer)) = old_state /\
   result_of (Api.refresh stamp_text old_state
               (quiet_world 5000000000 invalid_grant_answer)) = Ok false)
  /\
  (state_of (ApiFixed.refresh old_fixed_state
               (quiet_world 5000000000 invalid_grant_answer)) = old_fixed_state /\
   result_of (ApiFixed.refresh old_fixed_state
               (quiet_world 5000000000 invalid_grant_answer)) = Ok false).
Proof.
  split.
  - destruct (proj1 refused_refresh_leaves_state stamp_text old_state
                (quiet_world 5000000000 invalid_grant_answer)) as [H1 H2].
    + right; right. vm_compute. reflexivity.
    + split; [exact H1|]. destruct H2 as [H2|[_ H2]]; [exact H2|].
      vm_compute in H2. discriminate.
  - apply (proj2 refused_refresh_leaves_state old_fixed_state
             (quiet_world 5000000000 invalid_grant_answer)).
    right; right. vm_compute. reflexivity.
Defined.

(** * Answers without an access token (C4) *)




(** * Persistence failures (C5) *)

Lemma api_persisted_fault isoformat st w fault :
  write_faults w = Some fault ->
  file (api_persisted isoformat st w) = file w \/
  file (api_persisted isoformat st w) = Some Garbage.
Proof.
  intros E.
  unfold api_persisted, world_of, Api._persist_state, Api.persist_body.
  cbv beta delta [bind ret try_except get mkdir_parent datetime_now write_json_file].
  cbn. rewrite E. destruct fault; cbn; rewrite ?E; cbn; auto.
Qed.

Lemma railway_variable_tick w :
  railway_variable (tick w) = railway_variable w.
Proof. reflexivity. Qed.

(** A mutation that is not sent, or not acknowledged, leaves the variable. *)
Lemma fixed_persisted_unsaved new_token st w :
  ApiFixed.railway_configured st = false \/
  railway_acknowledged
    (railway w (ApiFixed.upsert_of st new_token :: railway_log w)) = false ->
  railway_variable (fixed_persisted new_token st w) = railway_variable w.
Proof.
  intros H. unfold fixed_persisted, railway_variable.
  destruct (ApiFixed.railway_configured st); [|reflexivity].
  destruct H as [H|H]; [discriminate|].
  cbn [railway_variable_from log_upsert railway railway_log].
  rewrite H. rewrite andb_false_r. reflexivity.
Qed.

(** C5: when the provider exchange succeeds (the answer is usable at the
    reading of the clock, so that the reading plus the announced lifetime is
    the new expiry) and the persistence write fails (a fault of the volume in
    [api.py]; missing Railway credentials or a mutation that Railway does not
    acknowledge in [api_fixed.py]), [refresh] returns [True] and leaves the
    new [access_token], [token_expiry] and [refresh_token] in memory; nothing
    of the failure reaches the caller, and nothing new is saved. *)
Theorem persistence_failure_not_surfaced :
  (forall isoformat st w fields expiry fault,
      write_faults w = Some fault ->
      truthy (Api.refresh_token st) = true ->
      truthy (JStr (Api.client_id st)) = true ->
      is_ok (slice10 (Api.refresh_token st)) = true ->
      answer_fields (api_answer st w) = Some fields ->
      grant_usable (clock w (ticks w)) (Api.refresh_token st) fields = true ->
      new_expiry (clock w (ticks w)) fields = Ok expiry ->
      result_of (Api.refresh isoformat st w) = Ok true /\
      state_of (Api.refresh isoformat st w) = api_adopted st fields expiry /\
      (file (world_of (Api.refresh isoformat st w)) = file w \/
       file (world_of (Api.refresh isoformat st w)) = Some Garbage))
  /\
  (forall st w fields expiry,
      ApiFixed.railway_configured st = false \/
      railway_acknowledged
        (railway w (ApiFixed.upsert_of st (field "refresh_token" fields)
                      :: railway_log w)) = false ->
      truthy (ApiFixed.refresh_token st) = true ->
      truthy (JStr (ApiFixed.client_id st)) = true ->
      answer_fields (fixed_answer st w) = Some fields ->
      grant_usable (clock w (ticks w)) (ApiFixed.refresh_token st) fields = true ->
      new_expiry (clock w (ticks w)) fields = Ok expiry ->
      result_of (ApiFixed.refresh st w) = Ok true /\
      state_of (ApiFixed.refresh st w) = fixed_adopted st fields expiry /\
      railway_variable (world_of (ApiFixed.refresh st w)) = railway_variable w).
Proof.
  split.
  - intros isoformat st w fields expiry fault Hw Hrt Hcid Hs Ha Hu Hl.
    pose proof (api_refresh_view_ok isoformat st w) as V.
    inversion V as [ Hc Heq | ? ? Hs' Heq | ? ? ? Ha' Heq
                   | fs st' w' ? ? ? Ha' Hu' ? ? ? ? ? Heq
                   | fs expiry' ? ? ? Ha' Hu' Hl' Heq ];
      unfold state_of, result_of, world_of; cbn.
    + destruct Hc; congruence.
    + congruence.
    + congruence.
    + rewrite Ha in Ha'. injection Ha' as <-. congruence.
    + rewrite Ha in Ha'. injection Ha' as <-.
      rewrite Hl in Hl'. injection Hl' as <-.
      repeat split; auto.
      destruct (api_persisted_fault isoformat
                  (api_adopted st fields expiry)
                  (tick (log_grant (api_grant st) w)) fault Hw) as [E|E];
        rewrite E; auto.
  - intros st w fields expiry Hfail Hrt Hcid Ha Hu Hl.
    pose proof (fixed_refresh_view_ok st w) as V.
    inversion V as [ Hc Heq | ? ? Ha' Heq
                   | fs st' w' ? ? Ha' Hu' ? ? ? Heq
                   | fs expiry' ? ? Ha' Hu' Hl' Heq ];
      unfold state_of, result_of, world_of; cbn.
    + destruct Hc; congruence.
    + congruence.
    + rewrite Ha in Ha'. injection Ha' as <-. congruence.
    + rewrite Ha in Ha'. injection Ha' as <-.
      rewrite Hl in Hl'. injection Hl' as <-.
      repeat split; auto.
      change (railway_variable (fixed_granted_world st fields w) =
              railway_variable w).
      unfold fixed_granted_world. rewrite railway_variable_tick.
      destruct (rotates (ApiFixed.refresh_token st) fields); [|reflexivity].
      rewrite fixed_persisted_unsaved; [reflexivity|exact Hfail].
Qed.

(** The theorem applied to the rotating answer, on a read-only volume and
    with a Railway API that refuses. *)
Lemma persistence_failure_not_surfaced_witness :
  (result_of (Api.refresh stamp_text old_state readonly_world) = Ok true /\
   Api.access_token (state_of (Api.refresh stamp_text old_state readonly_world))
     = JStr "at-1" /\
   Api.refresh_token (state_of (Api.refresh stamp_text old_state readonly_world))
     = JStr "rt-new")
  /\
  (result_of (ApiFixed.refresh old_fixed_state
                (railway_refusing (quiet_world 5000000000 rotating_answer)))
     = Ok true /\
   ApiFixed.refresh_token
     (state_of (ApiFixed.refresh old_fixed_state
                  (railway_refusing (quiet_world 5000000000 rotating_answer))))
     = JStr "rt-new").
Proof.
  split.
  - destruct (proj1 persistence_failure_not_surfaced stamp_text old_state
                readonly_world
                [("access_token", JStr "at-1"); ("refresh_token", JStr "rt-new");
                 ("expires_in", JInt 3600)] (5000000000 + seconds 3600)
                OpenFails)
      as (H1 & H2 & _); [vm_compute; reflexivity ..|].
    rewrite H2. split; [exact H1|]. split; reflexivity.
  - destruct (proj2 persistence_failure_not_surfaced old_fixed_state
                (railway_refusing (quiet_world 5000000000 rotating_answer))
                [("access_token", JStr "at-1"); ("refresh_token", JStr "rt-new");
                 ("expires_in", JInt 3600)] (5000000000 + seconds 3600))
      as (H1 & H2 & _); [right; vm_compute; reflexivity
                        | vm_compute; reflexivity ..|].
    rewrite H2. split; [exact H1|]. reflexivity.
Defined.

(** * Startup from the persisted file (C6, C10) *)

Lemma truthy_not_none v : truthy v = true -> is_not_none v = true.
Proof. destruct v; cbv; congruence. Qed.

Lemma adopt_refresh_access fields st :
  Api.access_token (adopt_refresh fields st) = Api.access_token st /\
  Api.token_expiry (adopt_refresh fields st) = Api.token_expiry st /\
  Api.client_id (adopt_refresh fields st) = Api.client_id st.
Proof.
  unfold adopt_refresh. destruct (truthy _); cbn; auto.
Qed.

Lemma adopt_refresh_token fields st :
  truthy (field "refresh_token" fields) = true ->
  Api.refresh_token (adopt_refresh fields st) = field "refresh_token" fields.
Proof.
  intros H. unfold adopt_refresh. rewrite H. reflexivity.
Qed.

Lemma record_excludes_no_record w fields :
  file w = Some (Json (JObj fields)) ->
  read_fault w = false ->
  ~ (file w = None \/ read_fault w = true \/ file w = Some Garbage \/
     (exists j, file w = Some (Json j) /\ forall fs, j <> JObj fs)).
Proof.
  intros Hf Hr [Hx|[Hx|[Hx|(j & Hx & Hj)]]].
  - congruence.
  - congruence.
  - congruence.
  - rewrite Hf in Hx. injection Hx as <-. apply (Hj fields). reflexivity.
Qed.

(** C6: construction never fails; when the file exists, can be read and holds
    a record with a non-empty [refresh_token], the constructed state has that
    value instead of the baseline one; when the file is missing, unreadable
    or corrupt, the constructed state is the baseline one. *)
Theorem persisted_refresh_token_takes_precedence :
  forall fromisoformat st0 w,
    result_of (Api.init fromisoformat st0 w) = Ok tt /\
    (forall fields,
        file w = Some (Json (JObj fields)) ->
        read_fault w = false ->
        truthy (field "refresh_token" fields) = true ->
        Api.refresh_token (state_of (Api.init fromisoformat st0 w)) =
          field "refresh_token" fields) /\
    (file w = None \/ read_fault w = true \/ file w = Some Garbage \/
     (exists j, file w = Some (Json j) /\ forall fields, j <> JObj fields) ->
     state_of (Api.init fromisoformat st0 w) = baseline w).
Proof.
  intros fromisoformat st0 w.
  destruct (api_init_view_ok fromisoformat st0 w) as (st' & w' & Heq & V).
  rewrite Heq. unfold result_of, state_of. cbn. clear Heq.
  split; [reflexivity|]. split.
  - intros fields Hf Hr Hrt.
    destruct V as [ Hno | fs w1 Hf' Hr' Hw' | fs s e Hf' Hr' He Hes Hp Hlt ].
    + destruct (record_excludes_no_record w fields Hf Hr Hno).
    + rewrite Hf in Hf'. injection Hf' as <-.
      apply adopt_refresh_token. exact Hrt.
    + rewrite Hf in Hf'. injection Hf' as <-. cbn.
      apply adopt_refresh_token. exact Hrt.
  - intros Hno.
    destruct V as [ Hno' | fs w1 Hf' Hr' Hw' | fs s e Hf' Hr' He Hes Hp Hlt ].
    + reflexivity.
    + destruct (record_excludes_no_record w fs Hf' Hr' Hno).
    + destruct (record_excludes_no_record w fs Hf' Hr' Hno).
Qed.

(** The theorem applied to scenario D, and to a volume without the file. *)
Lemma persisted_refresh_token_takes_precedence_witness :
  Api.refresh_token
    (state_of (Api.init stamp_parse old_state (persisted_world "9000000000")))
    = JStr "rt-persisted" /\
  state_of (Api.init stamp_parse old_state
              (quiet_world 5000000000 rotating_answer))
    = baseline (quiet_world 5000000000 rotating_answer).
Proof.
  split.
  - apply (proj1 (proj2 (persisted_refresh_token_takes_precedence
                           stamp_parse old_state (persisted_world "9000000000")))
             [("refresh_token", JStr "rt-persisted");
              ("access_token", JStr "at-persisted");
              ("token_expiry", JStr "9000000000");
              ("updated_at", JStr "4000000000")]);
      vm_compute; reflexivity.
  - apply (proj2 (proj2 (persisted_refresh_token_takes_precedence
                           stamp_parse old_state
                           (quiet_world 5000000000 rotating_answer)))).
    left. reflexivity.
Defined.

(** C10: at construction the persisted access token is restored only when
    the persisted expiry lies more than five minutes after the clock reading
    taken by the load; a state loaded with an access token is therefore not
    expired at that reading; and a record whose expiry is within the buffer or
    past leaves the access token and the expiry absent while its refresh
    token is adopted all the same. *)
Theorem persisted_access_token_restored_only_if_fresh :
  forall fromisoformat st0 w,
    (is_not_none (Api.access_token (state_of (Api.init fromisoformat st0 w))) = true ->
     exists fields s e,
       file w = Some (Json (JObj fields)) /\
       field "token_expiry" fields = JStr s /\
       fromisoformat s = Some (Naive e) /\
       clock w (ticks w) + minutes 5 < e /\
       Api.access_token (state_of (Api.init fromisoformat st0 w)) =
         field "access_token" fields /\
       Api.token_expiry (state_of (Api.init fromisoformat st0 w)) = Some e) /\
    (truthy (Api.access_token (state_of (Api.init fromisoformat st0 w))) = true ->
     forall w1, clock w1 (ticks w1) = clock w (ticks w) ->
       result_of (Api.is_expired (state_of (Api.init fromisoformat st0 w)) w1) =
         Ok false) /\
    (forall fields s e,
        file w = Some (Json (JObj fields)) ->
        read_fault w = false ->
        field "token_expiry" fields = JStr s ->
        fromisoformat s = Some (Naive e) ->
        e <= clock w (ticks w) + minutes 5 ->
        Api.access_token (state_of (Api.init fromisoformat st0 w)) = JNull /\
        Api.token_expiry (state_of (Api.init fromisoformat st0 w)) = None /\
        (truthy (field "refresh_token" fields) = true ->
         Api.refresh_token (state_of (Api.init fromisoformat st0 w)) =
           field "refresh_token" fields)).
Proof.
  intros fromisoformat st0 w.
  destruct (api_init_view_ok fromisoformat st0 w) as (st' & w' & Heq & V).
  rewrite Heq. unfold state_of. cbn [fst snd]. clear Heq.
  assert (Hrestored : is_not_none (Api.access_token st') = true ->
     exists fields s e,
       file w = Some (Json (JObj fields)) /\
       field "token_expiry" fields = JStr s /\
       fromisoformat s = Some (Naive e) /\
       clock w (ticks w) + minutes 5 < e /\
       Api.access_token st' = field "access_token" fields /\
       Api.token_expiry st' = Some e).
  { intros Hset.
    destruct V as [ Hno | fs w1 Hf' Hr' Hw' | fs s e Hf' Hr' He Hes Hp Hlt ].
    - discriminate.
    - destruct (adopt_refresh_access fs (baseline w)) as (E & _).
      rewrite E in Hset. discriminate.
    - exists fs, s, e. repeat split; auto. lia. }
  split; [exact Hrestored|]. split.
  - intros Hset w1 Hclock.
    destruct (Hrestored (truthy_not_none _ Hset))
      as (fields & s & e & _ & _ & _ & Hlt & _ & He).
    rewrite api_is_expired_run. unfold result_of. cbn [fst].
    rewrite Hclock.
    apply (api_fresh_not_expired st' w (ticks w) e); auto. lia.
  - intros fields s e Hf Hr He Hp Hle.
    clear Hrestored.
    destruct V as [ Hno | fs w1 Hf' Hr' Hw' | fs s' e' Hf' Hr' He' Hes Hp' Hlt ].
    + destruct (record_excludes_no_record w fields Hf Hr Hno).
    + rewrite Hf in Hf'. injection Hf' as <-.
      destruct (adopt_refresh_access fields (baseline w)) as (E1 & E2 & _).
      rewrite E1, E2. repeat split; auto.
      apply adopt_refresh_token.
    + rewrite Hf in Hf'. injection Hf' as <-.
      rewrite He in He'. injection He' as <-.
      rewrite Hp in Hp'. injection Hp' as <-. lia.
Qed.

(** The theorem applied to a record that expires an hour after the load, and
    to one that expires two minutes after it. *)
Lemma persisted_access_token_restored_only_if_fresh_witness :
  (result_of (Api.is_expired
                (state_of (Api.init stamp_parse old_state
                             (persisted_world "8600000000")))
                (persisted_world "8600000000")) = Ok false) /\
  (Api.access_token
     (state_of (Api.init stamp_parse old_state (persisted_world "5120000000")))
     = JNull /\
   Api.refresh_token
     (state_of (Api.init stamp_parse old_state (persisted_world "5120000000")))
     = JStr "rt-persisted").
Proof.
  split.
  - apply (proj1 (proj2 (persisted_access_token_restored_only_if_fresh
                           stamp_parse old_state (persisted_world "8600000000")))).
    + vm_compute. reflexivity.
    + reflexivity.
  - destruct (proj2 (proj2 (persisted_access_token_restored_only_if_fresh
                           stamp_parse old_state (persisted_world "5120000000")))
                [("refresh_token", JStr "rt-persisted");
                 ("access_token", JStr "at-persisted");
                 ("token_expiry", JStr "5120000000");
                 ("updated_at", JStr "4000000000")]
                "5120000000"%string 5120000000) as (H1 & _ & H3);
      [vm_compute; try reflexivity; discriminate ..|].
    split; [exact H1|]. apply H3. vm_compute. reflexivity.
Defined.

(** * Serving a valid token (C7) *)

(** C7, as stated, fails at the lower end of the datetime range.  A refresh
    answered with a lifetime of -62135601740 seconds succeeds and stores the
    expiry 0001-01-01T00:01:00.  The state then has an access token and an
    expiry, the clock reading is past the expiry minus five minutes, and
    [is_expired] does not answer [True]: subtracting the buffer raises
    [OverflowError], which also ends [get_token]. *)
Lemma is_expired_raises_near_datetime_min :
  let r := Api.refresh stamp_text old_state
             (quiet_world 5000000000 early_expiry_answer) in
  result_of r = Ok true /\
  truthy (Api.access_token (state_of r)) = true /\
  Api.token_expiry (state_of r) = Some (datetime_min + seconds 60) /\
  datetime_min + seconds 60 - minutes 5 <=
    clock (world_of r) (ticks (world_of r)) /\
  result_of (Api.is_expired (state_of r) (world_of r)) = Raise OverflowError /\
  result_of (Api.get_token stamp_text (state_of r) (world_of r)) =
    Raise OverflowError.
Proof.
  cbv zeta. repeat split; try (vm_compute; reflexivity).
  vm_compute. discriminate.
Qed.

(** C7 (amended): with [access_token] set and [token_expiry] more than five
    minutes after the clock reading, [get_token] returns that token, leaves
    every field as it was and sends nothing to the provider.  [is_expired]
    assigns nothing; it answers [True] exactly when the access token or the
    expiry is absent, or the expiry minus five minutes is a datetime and the
    clock reading is at or past it; it answers [False] exactly when the
    token is set and the clock reading is before the expiry minus five
    minutes; and when the token is set and the expiry lies less than five
    minutes after [datetime.min], it raises [OverflowError].  ("Set" and
    "absent" are Python's truth test, as in [not self.access_token].) *)
Theorem valid_token_served_without_refresh :
  (forall isoformat st w e,
      truthy (Api.access_token st) = true ->
      Api.token_expiry st = Some e ->
      clock w (ticks w) + minutes 5 < e ->
      result_of (Api.get_token isoformat st w) = Ok (Api.access_token st) /\
      state_of (Api.get_token isoformat st w) = st /\
      workos_log (world_of (Api.get_token isoformat st w)) = workos_log w)
  /\
  (forall st w,
      state_of (Api.is_expired st w) = st /\
      (result_of (Api.is_expired st w) = Ok true <->
       truthy (Api.access_token st) = false \/
       Api.token_expiry st = None \/
       exists e, Api.token_expiry st = Some e /\
                 datetime_min + minutes 5 <= e /\
                 e - minutes 5 <= clock w (ticks w)) /\
      (result_of (Api.is_expired st w) = Ok false <->
       truthy (Api.access_token st) = true /\
       exists e, Api.token_expiry st = Some e /\
                 clock w (ticks w) < e - minutes 5) /\
      (result_of (Api.is_expired st w) = Raise OverflowError <->
       truthy (Api.access_token st) = true /\
       exists e, Api.token_expiry st = Some e /\
                 e < datetime_min + minutes 5)).
Proof.
  split.
  - intros isoformat st w e Ht He Hlt.
    rewrite api_get_token_run.
    rewrite (api_fresh_not_expired st w (ticks w) e Ht He) by lia.
    unfold result_of, state_of, world_of. cbn [fst snd].
    repeat split. apply api_checked_frame.
  - intros st w. rewrite api_is_expired_run.
    unfold result_of, state_of. cbn [fst snd].
    split; [reflexivity|].
    pose proof (clock_range w (ticks w)) as [Hmin _].
    unfold Api.is_expired_at, datetime_sub.
    destruct (truthy (Api.access_token st)); cbn [negb].
    2:{ split; [|split]; (split; [intros H | intros H]);
          try discriminate H; auto.
        - destruct H as [H _]. discriminate H.
        - destruct H as [H _]. discriminate H. }
    destruct (Api.token_expiry st) as [e|].
    2:{ split; [|split]; (split; [intros H | intros H]);
          try discriminate H; auto.
        - destruct H as [_ (e & H & _)]. discriminate H.
        - destruct H as [_ (e & H & _)]. discriminate H. }
    destruct (Z.leb_spec datetime_min (e - minutes 5)) as [Hin|Hout].
    + destruct (Z.leb_spec (e - minutes 5) (clock w (ticks w))) as [Hle|Hgt].
      * split; [|split]; (split; [intros H | intros H]);
          try discriminate H.
        -- right; right. exists e. repeat split; auto. lia.
        -- reflexivity.
        -- destruct H as [_ (e' & H & Hlt)]. injection H as <-. lia.
        -- destruct H as [_ (e' & H & Hlt)]. injection H as <-. lia.
      * split; [|split]; (split; [intros H | intros H]);
          try discriminate H.
        -- destruct H as [H|[H|(e' & H & _ & Hle)]]; try discriminate.
           injection H as <-. lia.
        -- split; [reflexivity|]. exists e. auto.
        -- reflexivity.
        -- destruct H as [_ (e' & H & Hlt)]. injection H as <-. lia.
    + split; [|split]; (split; [intros H | intros H]);
        try discriminate H.
      * destruct H as [H|[H|(e' & H & Hle & _)]]; try discriminate.
        injection H as <-. lia.
      * destruct H as [_ (e' & H & Hlt)]. injection H as <-. lia.
      * split; [reflexivity|]. exists e. split; [reflexivity | lia].
      * reflexivity.
Qed.

(** The theorem applied to scenario A: the token expires in one hour. *)
Lemma valid_token_served_without_refresh_witness :
  result_of (Api.get_token stamp_text fresh_state
               (quiet_world 5000000000 rotating_answer))
    = Ok (JStr "at-current") /\
  state_of (Api.get_token stamp_text fresh_state
              (quiet_world 5000000000 rotating_answer)) = fresh_state /\
  workos_log (world_of (Api.get_token stamp_text fresh_state
                          (quiet_world 5000000000 rotating_answer))) = [].
Proof.
  apply (proj1 valid_token_served_without_refresh stamp_text fresh_state
           (quiet_world 5000000000 rotating_answer) (5000000000 + seconds 3600)).
  - reflexivity.
  - reflexivity.
  - vm_compute. reflexivity.
Defined.

(** * The status query (C9) *)

Lemma api_health_frame isoformat st w :
  state_of (Api.health isoformat st w) = state_of (Api.get_token isoformat st w) /\
  world_of (Api.health isoformat st w) = world_of (Api.get_token isoformat st w).
Proof.
  unfold Api.health. rewrite bind_run.
  destruct (Api.get_token isoformat st w) as [[[token|e] st'] w'];
    [|split; reflexivity].
  cbv beta delta [bind ret lift get file_exists]. cbn beta iota.
  unfold state_of, world_of.
  destruct (truthy (Api.refresh_token st')); cbn; [|split; reflexivity].
  destruct (slice10 (Api.refresh_token st')) as [p|]; cbn; [|split; reflexivity].
  destruct (add_dots p); cbn; split; reflexivity.
Qed.





(** * Access token and expiry go together (C8) *)

Lemma world_ok_same w w' :
  workos w' = workos w -> file w' = file w -> clock w' = clock w ->
  world_ok w -> world_ok w'.
Proof.
  intros Hw Hf Hc [Hp Hr]. split.
  - intros log fields n. rewrite Hw, Hc. apply Hp.
  - intros fields. rewrite Hf. apply Hr.
Qed.

Lemma api_persisted_clock isoformat st w :
  clock (api_persisted isoformat st w) = clock w.
Proof.
  unfold api_persisted, world_of, Api._persist_state, Api.persist_body.
  cbv beta delta [bind ret try_except get mkdir_parent datetime_now write_json_file].
  cbn.
  destruct (write_faults w) as [[]|] eqn:E; cbn; rewrite ?E; reflexivity.
Qed.

Lemma world_ok_erased w : world_ok w -> world_ok (set_file None w).
Proof.
  intros [Hp Hr]. split.
  - exact Hp.
  - intros fields Hf. discriminate.
Qed.

Section Api_invariant.

Variable fromisoformat : string -> option parsed_datetime.

Variable isoformat : datetime -> string.

Lemma api_init_inv st0 w :
  world_ok w ->
  paired (state_of (Api.init fromisoformat st0 w)) /\
  world_ok (world_of (Api.init fromisoformat st0 w)).
Proof.
  intros Hok.
  destruct (api_init_view_ok fromisoformat st0 w) as (st' & w' & Heq & V).
  rewrite Heq. unfold state_of, world_of. cbn [fst snd]. clear Heq.
  destruct V as [ Hno | fs w1 Hf Hr Hw | fs s e Hf Hr He Hes Hp Hlt ].
  - split; [reflexivity | exact Hok].
  - split.
    + unfold paired.
      destruct (adopt_refresh_access fs (baseline w)) as (E1 & E2 & _).
      rewrite E1, E2. reflexivity.
    + destruct Hw as [-> | ->]; [exact Hok|].
      apply (world_ok_same w); auto.
  - split.
    + unfold paired. cbn. apply (proj2 Hok fs Hf). rewrite He. exact Hes.
    + apply (world_ok_same w); auto.
Qed.

Lemma api_persisted_ok st w :
  paired st -> world_ok w -> world_ok (api_persisted isoformat st w).
Proof.
  intros Hst [Hp Hr]. split.
  - intros log fields n.
    destruct (api_persisted_frame isoformat st w) as [E _]. rewrite E.
    rewrite api_persisted_clock. apply Hp.
  - intros fields.
    destruct (api_persisted_file_cases isoformat st w) as [E|[E|E]]; rewrite E.
    + apply Hr.
    + discriminate.
    + intros Hf. injection Hf as <-. unfold field. cbn.
      unfold paired in Hst. rewrite Hst.
      destruct (Api.token_expiry st); [reflexivity|].
      intros H. discriminate H.
Qed.

Lemma complete_grant_usable now old fields :
  complete_grant now fields = true ->
  (truthy old = true -> is_ok (slice10 old) = true) ->
  grant_usable now old fields = true.
Proof.
  unfold complete_grant, grant_usable, rotates. intros Hc Hold.
  apply andb_prop in Hc. destruct Hc as [Hc Hl].
  apply andb_prop in Hc. destruct Hc as [_ Hnew].
  rewrite Hl, andb_true_r.
  destruct (truthy (field "refresh_token" fields)); cbn in *; [|reflexivity].
  destruct (py_ne _ _); [|reflexivity].
  rewrite Hnew, andb_true_r.
  destruct (truthy old); [apply Hold|]; reflexivity.
Qed.

Lemma api_refresh_inv st w :
  paired st -> world_ok w ->
  paired (state_of (Api.refresh isoformat st w)) /\
  world_ok (world_of (Api.refresh isoformat st w)).
Proof.
  intros Hst Hok.
  pose proof (api_refresh_view_ok isoformat st w) as V.
  destruct (Api.refresh isoformat st w) as [[r st'] w'].
  unfold state_of, world_of. cbn [fst snd].
  inversion V as [ Hc | ? ? Hs | ? ? ? Ha
                 | fs st1 w1 Hrt Hcid Hs Ha Hu
                 | fs expiry Hrt Hcid Hs Ha Hu Hl ]; subst.
  - auto.
  - auto.
  - split; [exact Hst|]. apply (world_ok_same w); auto.
  - assert (grant_usable (clock w (ticks w)) (Api.refresh_token st) fs = true)
      as Hu'.
    { apply complete_grant_usable; auto.
      exact (proj1 Hok _ _ (ticks w) Ha). }
    congruence.
  - assert (Hst' : paired (api_adopted st fs expiry)).
    { unfold paired. cbn.
      pose proof (proj1 Hok _ _ (ticks w) Ha) as Hc. unfold complete_grant in Hc.
      apply andb_prop in Hc. destruct Hc as [Hc _].
      apply andb_prop in Hc. destruct Hc as [Hc _]. exact Hc. }
    split; [exact Hst'|].
    apply api_persisted_ok; [exact Hst'|].
    apply (world_ok_same w); auto.
Qed.

Lemma api_get_token_inv st w :
  paired st -> world_ok w ->
  paired (state_of (Api.get_token isoformat st w)) /\
  world_ok (world_of (Api.get_token isoformat st w)).
Proof.
  intros Hst Hok.
  assert (Hck : world_ok (api_checked st w)).
  { destruct (api_checked_frame st w) as (E1 & _ & E2 & _ & E3).
    apply (world_ok_same w); auto. }
  rewrite api_get_token_run.
  destruct (Api.is_expired_at _ _) as [[]|e].
  - unfold token_after, state_of at 1, world_of at 1. cbn [fst snd].
    apply api_refresh_inv; assumption.
  - unfold state_of, world_of. cbn [fst snd]. auto.
  - unfold state_of, world_of. cbn [fst snd]. auto.
Qed.

Lemma api_health_inv st w :
  paired st -> world_ok w ->
  paired (state_of (Api.health isoformat st w)) /\
  world_ok (world_of (Api.health isoformat st w)).
Proof.
  intros Hst Hok.
  destruct (api_health_frame isoformat st w) as [E1 E2]. rewrite E1, E2.
  apply api_get_token_inv; assumption.
Qed.

(** [reset_token] either stops at the [unlink], or constructs afresh and
    refreshes. *)
Lemma api_reset_frame st w :
  (state_of (Api.reset_token fromisoformat isoformat st w) = st /\
   world_of (Api.reset_token fromisoformat isoformat st w) = w) \/
  exists w1, (w1 = w \/ w1 = set_file None w) /\
    state_of (Api.reset_token fromisoformat isoformat st w) =
      state_of (Api.refresh isoformat
                  (state_of (Api.init fromisoformat st w1))
                  (world_of (Api.init fromisoformat st w1))) /\
    world_of (Api.reset_token fromisoformat isoformat st w) =
      world_of (Api.refresh isoformat
                  (state_of (Api.init fromisoformat st w1))
                  (world_of (Api.init fromisoformat st w1))).
Proof.
  assert (Hrest : forall w1,
    let k := bind (Api.init fromisoformat)
               (fun _ => try_except
                  (bind (Api.refresh isoformat) (fun _ =>
                   bind get (fun st2 =>
                   bind (lift (slice10 (Api.refresh_token st2))) (fun head10 =>
                   bind (lift (add_dots head10)) (fun prefix =>
                   ret (Api.ResetOk prefix))))))
                  (fun _ => ret Api.ResetError)) in
    state_of (k st w1) =
      state_of (Api.refresh isoformat
                  (state_of (Api.init fromisoformat st w1))
                  (world_of (Api.init fromisoformat st w1))) /\
    world_of (k st w1) =
      world_of (Api.refresh isoformat
                  (state_of (Api.init fromisoformat st w1))
                  (world_of (Api.init fromisoformat st w1)))).
  { intros w1 k. subst k. rewrite bind_run.
    destruct (api_init_view_ok fromisoformat st w1) as (st1 & w2 & Heq & _).
    rewrite Heq.
    change (state_of (@Ok unit tt, st1, w2)) with st1.
    change (world_of (@Ok unit tt, st1, w2)) with w2.
    unfold try_except. rewrite bind_run.
    destruct (Api.refresh isoformat st1 w2) as [[[b|e] st2] w3];
      [|split; reflexivity].
    cbv beta delta [bind get lift ret]. cbn beta iota.
    destruct (slice10 (Api.refresh_token st2)) as [p|]; cbn;
      [|split; reflexivity].
    destruct (add_dots p); cbn; split; reflexivity. }
  unfold Api.reset_token. rewrite bind_run.
  cbv beta delta [file_exists]. cbn beta iota.
  destruct (file w) as [c|] eqn:Hf.
  - rewrite bind_run. cbv beta delta [unlink_file]. cbn beta iota.
    destruct (unlink_fault w).
    + left. split; reflexivity.
    + rewrite Hf. right. exists (set_file None w). split; [auto|].
      apply Hrest.
  - rewrite bind_run. cbv beta delta [ret]. cbn beta iota.
    right. exists w. split; [auto|]. apply Hrest.
Qed.

Lemma api_reset_inv st w :
  paired st -> world_ok w ->
  paired (state_of (Api.reset_token fromisoformat isoformat st w)) /\
  world_ok (world_of (Api.reset_token fromisoformat isoformat st w)).
Proof.
  intros Hst Hok.
  destruct (api_reset_frame st w) as [[E1 E2] | (w1 & Hw1 & E1 & E2)];
    rewrite E1, E2; [auto|].
  assert (Hok1 : world_ok w1)
    by (destruct Hw1 as [-> | ->]; [exact Hok | apply world_ok_erased, Hok]).
  destruct (api_init_inv st w1 Hok1) as [I1 I2].
  apply api_refresh_inv; assumption.
Qed.

Lemma api_reachable_inv st w :
  api_reachable fromisoformat isoformat st w -> paired st /\ world_ok w.
Proof.
  induction 1 as [ st0 w Hok | st w _ [IH1 IH2] | st w _ [IH1 IH2]
                 | st w _ [IH1 IH2] | st w _ [IH1 IH2]
                 | st w w' _ [IH1 IH2] Hok ].
  - apply api_init_inv. exact Hok.
  - apply api_refresh_inv; assumption.
  - apply api_get_token_inv; assumption.
  - apply api_health_inv; assumption.
  - apply api_reset_inv; assumption.
  - split; assumption.
Qed.

End Api_invariant.

(** C8, as stated, fails.  After construction without a file, a refresh
    answered with [{"expires_in": 3600}] leaves the access token absent and
    the expiry set; a refresh answered with
    [{"access_token": "at-1", "expires_in": null}] leaves the access token set
    and the expiry absent. *)
Lemma token_and_expiry_come_apart :
  (let w := quiet_world 5000000000 tokenless_answer in
   let built := Api.init stamp_parse old_state w in
   let r := Api.refresh stamp_text (state_of built) (world_of built) in
   Api.access_token (state_of r) = JNull /\
   Api.token_expiry (state_of r) = Some (5000000000 + seconds 3600))
  /\
  (let w := quiet_world 5000000000 null_lifetime_answer in
   let built := Api.init stamp_parse old_state w in
   let r := Api.refresh stamp_text (state_of built) (world_of built) in
   Api.access_token (state_of r) = JStr "at-1" /\
   Api.token_expiry (state_of r) = None).
Proof. vm_compute. repeat split; reflexivity. Qed.

(** C8 (amended): as long as every non-error JSON-object answer of the
    provider carries an access token, a refresh token that is empty or can be
    sliced and a lifetime that is absent or a number that [timedelta] accepts
    and that, added to any reading of the clock, gives a datetime, and every
    record on the volume that has an expiry also has an access token, every
    state reached by construction (with its load), [refresh], [get_token],
    the status query and [reset_token] has [access_token] non-absent exactly
    when [token_expiry] is non-absent. *)
Theorem reachable_states_paired :
  forall fromisoformat isoformat st w,
    api_reachable fromisoformat isoformat st w -> paired st.
Proof.
  intros fromisoformat isoformat st w H.
  exact (proj1 (api_reachable_inv fromisoformat isoformat st w H)).
Qed.

Lemma frozen_world_ok : world_ok frozen_world.
Proof.
  split.
  - intros log fields n H. vm_compute in H. injection H as <-. reflexivity.
  - intros fields H. discriminate H.
Defined.

(** The theorem applied to construction followed by a rotating refresh. *)
Lemma reachable_states_paired_witness :
  paired
    (state_of
       (Api.refresh stamp_text
          (state_of (Api.init stamp_parse old_state frozen_world))
          (world_of (Api.init stamp_parse old_state frozen_world)))).
Proof.
  apply (reachable_states_paired stamp_parse stamp_text _
           (world_of
              (Api.refresh stamp_text
                 (state_of (Api.init stamp_parse old_state frozen_world))
                 (world_of (Api.init stamp_parse old_state frozen_world))))).
  apply ReachRefresh. apply ReachConstruct. exact frozen_world_ok.
Defined.

(** * More about [refresh] *)

Lemma api_persisted_log isoformat st w :
  workos_log (api_persisted isoformat st w) = workos_log w.
Proof. apply api_persisted_frame. Qed.

Ltac step_api_refresh :=
  repeat match goal with
  | |- context [clock (fixed_persisted _ _ _)] =>
      rewrite fixed_persisted_clock; cbn
  | |- context [ticks (fixed_persisted _ _ _)] =>
      rewrite fixed_persisted_ticks; cbn
  | |- context [truthy ?n && py_ne ?n ?o] =>
      destruct (truthy n && py_ne n o) eqn:?; cbn
  | |- context [if truthy ?n then _ else _] => destruct (truthy n) eqn:?; cbn
  | |- context [slice10 ?n] => destruct (slice10 n) eqn:?; cbn
  | |- context [assoc "expires_in" ?f] =>
      destruct (assoc "expires_in" f) eqn:?; cbn
  | |- context [timedelta_seconds ?n] =>
      destruct (timedelta_seconds n) eqn:?; cbn
  | |- context [datetime_add ?t ?d] =>
      destruct (datetime_add t d) eqn:?; cbn
  | |- context [Api._persist_state] => rewrite api_persist_run; cbn
  | |- context [ApiFixed._persist_refresh_token] =>
      rewrite fixed_persist_run; cbn
  end.

Lemma api_refresh_frame isoformat st w :
  Api.client_id (state_of (Api.refresh isoformat st w)) = Api.client_id st /\
  (workos_log (world_of (Api.refresh isoformat st w)) = workos_log w \/
   workos_log (world_of (Api.refresh isoformat st w)) =
     api_grant st :: workos_log w).
Proof.
  run_py.
  destruct (truthy (Api.refresh_token st)) eqn:Hrt; cbn; [|auto].
  destruct (truthy (JStr (Api.client_id st))) eqn:Hcid; cbn; [|auto].
  destruct (slice10 (Api.refresh_token st)) eqn:Hs; cbn; [|auto].
  destruct (workos w _) as [|status [j|]]; cbn; [auto| |].
  2:{ destruct ((400 <=? status) && (status <? 600)); cbn; auto. }
  destruct ((400 <=? status) && (status <? 600)); cbn; [auto|].
  destruct j as [| | | | |fields]; cbn; auto.
  destruct (assoc "access_token" fields) as [tok|]; cbn;
    destruct (assoc "refresh_token" fields) as [new|]; cbn.
  all: step_api_refresh.
  all: rewrite ?api_persisted_log; cbn; auto.
Qed.

Lemma fixed_persisted_log new_token st w :
  workos_log (fixed_persisted new_token st w) = workos_log w.
Proof.
  unfold fixed_persisted. destruct (ApiFixed.railway_configured st); reflexivity.
Qed.

Lemma fixed_refresh_frame st w :
  ApiFixed.client_id (state_of (ApiFixed.refresh st w)) = ApiFixed.client_id st /\
  (workos_log (world_of (ApiFixed.refresh st w)) = workos_log w \/
   workos_log (world_of (ApiFixed.refresh st w)) =
     fixed_grant st :: workos_log w).
Proof.
  run_py.
  destruct (truthy (ApiFixed.refresh_token st)) eqn:Hrt; cbn; [|auto].
  destruct (truthy (JStr (ApiFixed.client_id st))) eqn:Hcid; cbn; [|auto].
  destruct (workos w _) as [|status [j|]]; cbn; [auto| |].
  2:{ destruct ((400 <=? status) && (status <? 600)); cbn; auto. }
  destruct ((400 <=? status) && (status <? 600)); cbn; [auto|].
  destruct j as [| | | | |fields]; cbn; auto.
  destruct (assoc "access_token" fields) as [tok|]; cbn;
    destruct (assoc "refresh_token" fields) as [new|]; cbn.
  all: step_api_refresh.
  all: rewrite ?fixed_persisted_log; cbn; auto.
Qed.

(** X1: whatever the outcome, [refresh] leaves [client_id] as it is and sends
    at most one grant to the provider, the one built from the [client_id] and
    the [refresh_token] held before the call. *)
Theorem refresh_sends_at_most_one_grant :
  (forall isoformat st w,
      Api.client_id (state_of (Api.refresh isoformat st w)) = Api.client_id st /\
      (workos_log (world_of (Api.refresh isoformat st w)) = workos_log w \/
       workos_log (world_of (Api.refresh isoformat st w)) =
         {| grant_client_id := Api.client_id st;
            grant_refresh_token := Api.refresh_token st |} :: workos_log w))
  /\
  (forall st w,
      ApiFixed.client_id (state_of (ApiFixed.refresh st w)) = ApiFixed.client_id st /\
      (workos_log (world_of (ApiFixed.refresh st w)) = workos_log w \/
       workos_log (world_of (ApiFixed.refresh st w)) =
         {| grant_client_id := ApiFixed.client_id st;
            grant_refresh_token := ApiFixed.refresh_token st |} :: workos_log w)).
Proof.
  split.
  - intros. apply api_refresh_frame.
  - intros. apply fixed_refresh_frame.
Qed.

(** X2: a successful [refresh] whose answer carries no refresh token, an
    empty one, or the one that was sent leaves [refresh_token] as it is; in
    [api_fixed.py] nothing is sent to Railway then. *)
Theorem refresh_without_rotation_keeps_token :
  (forall isoformat st w fields,
      result_of (Api.refresh isoformat st w) = Ok true ->
      answer_fields (api_answer st w) = Some fields ->
      rotates (Api.refresh_token st) fields = false ->
      Api.refresh_token (state_of (Api.refresh isoformat st w)) =
        Api.refresh_token st)
  /\
  (forall st w fields,
      result_of (ApiFixed.refresh st w) = Ok true ->
      answer_fields (fixed_answer st w) = Some fields ->
      rotates (ApiFixed.refresh_token st) fields = false ->
      ApiFixed.refresh_token (state_of (ApiFixed.refresh st w)) =
        ApiFixed.refresh_token st /\
      railway_log (world_of (ApiFixed.refresh st w)) = railway_log w).
Proof.
  split.
  - intros isoformat st w fields Hok Ha Hrot.
    pose proof (api_refresh_view_ok isoformat st w) as V.
    inversion V as [ ? Heq | ? ? ? Heq | ? ? ? ? Heq
                   | fs st' w' ? ? ? ? ? ? ? ? ? ? Heq
                   | fs expiry ? ? ? Ha' ? ? Heq ];
      rewrite <- Heq in Hok; try discriminate.
    rewrite Ha in Ha'. injection Ha' as <-.
    unfold state_of; cbn. rewrite Hrot. reflexivity.
  - intros st w fields Hok Ha Hrot.
    pose proof (fixed_refresh_view_ok st w) as V.
    inversion V as [ ? Heq | ? ? ? Heq
                   | fs st' w' ? ? ? ? ? ? ? Heq
                   | fs expiry ? ? Ha' ? ? Heq ];
      rewrite <- Heq in Hok; try discriminate.
    rewrite Ha in Ha'. injection Ha' as <-.
    unfold state_of, world_of, fixed_granted_world; cbn.
    rewrite Hrot. split; reflexivity.
Qed.

(** The theorem applied to an answer that repeats the refresh token sent. *)
Lemma refresh_without_rotation_keeps_token_witness :
  Api.refresh_token
    (state_of (Api.refresh stamp_text old_state
                 (quiet_world 5000000000 repeating_answer))) = JStr "rt-old" /\
  railway_log
    (world_of (ApiFixed.refresh old_fixed_state
                 (quiet_world 5000000000 repeating_answer))) = [].
Proof.
  split.
  - apply (proj1 refresh_without_rotation_keeps_token stamp_text old_state
             (quiet_world 5000000000 repeating_answer)
             [("access_token", JStr "at-2"); ("refresh_token", JStr "rt-old")]);
      vm_compute; reflexivity.
  - apply (proj2 refresh_without_rotation_keeps_token old_fixed_state
             (quiet_world 5000000000 repeating_answer)
             [("access_token", JStr "at-2"); ("refresh_token", JStr "rt-old")]);
      vm_compute; reflexivity.
Defined.

Lemma fixed_persisted_after_rotation new_token tok st w :
  fixed_persisted new_token
    (ApiFixed.set_refresh_token new_token (ApiFixed.set_access_token tok st)) w =
  if ApiFixed.railway_configured st
  then log_upsert (ApiFixed.upsert_of st new_token) w
  else w.
Proof. reflexivity. Qed.

(** X3: one call of [refresh] in [api_fixed.py] sends at most one mutation
    to Railway; when it sends one, the Railway credentials are configured, the
    refresh token was rotated, and the mutation sets [GRANOLA_REFRESH_TOKEN]
    to the refresh token that the manager holds after the call. *)
Theorem railway_receives_the_token_in_memory st w :
  railway_log (world_of (ApiFixed.refresh st w)) = railway_log w \/
  ApiFixed.railway_configured st = true /\
  truthy (ApiFixed.refresh_token (state_of (ApiFixed.refresh st w))) = true /\
  py_ne (ApiFixed.refresh_token (state_of (ApiFixed.refresh st w)))
        (ApiFixed.refresh_token st) = true /\
  railway_log (world_of (ApiFixed.refresh st w)) =
    {| upsert_bearer := ApiFixed.railway_token st;
       upsert_environment_id := ApiFixed.railway_env_id st;
       upsert_service_id := ApiFixed.railway_service_id st;
       upsert_name := "GRANOLA_REFRESH_TOKEN";
       upsert_value := ApiFixed.refresh_token (state_of (ApiFixed.refresh st w)) |}
    :: railway_log w.
Proof.
  run_py.
  destruct (truthy (ApiFixed.refresh_token st)) eqn:Hrt; cbn; [|auto].
  destruct (truthy (JStr (ApiFixed.client_id st))) eqn:Hcid; cbn; [|auto].
  destruct (workos w _) as [|status [j|]]; cbn; [auto| |].
  2:{ destruct ((400 <=? status) && (status <? 600)); cbn; auto. }
  destruct ((400 <=? status) && (status <? 600)); cbn; [auto|].
  destruct j as [| | | | |fields]; cbn; auto.
  destruct (assoc "access_token" fields) as [tok|]; cbn;
    destruct (assoc "refresh_token" fields) as [new|]; cbn.
  all: step_api_refresh.
  all: rewrite ?fixed_persisted_after_rotation.
  all: destruct (ApiFixed.railway_configured st) eqn:Hc; cbn; auto.
  all: right; repeat split; try reflexivity.
  all: match goal with
       | H : truthy ?n && py_ne ?n _ = true |- _ =>
           apply andb_prop in H; destruct H; assumption
       end.
Qed.


(** * Restarting from the file that [refresh] wrote *)

Ltac settle_buffer w e :=
  unfold datetime_sub;
  destruct (Z.leb_spec datetime_min (e - minutes 5)); cbn;
  [ destruct (clock w (ticks w) <? e - minutes 5); cbn; [|reflexivity]
  | pose proof (clock_range w (ticks w));
    destruct (Z.ltb_spec (clock w (ticks w)) (e - minutes 5));
    [lia | reflexivity] ].

Lemma api_init_restores fromisoformat st0 w fields s e :
  file w = Some (Json (JObj fields)) ->
  read_fault w = false ->
  (truthy (field "refresh_token" fields) = true ->
   is_ok (slice10 (field "refresh_token" fields)) = true) ->
  field "token_expiry" fields = JStr s ->
  truthy (JStr s) = true ->
  fromisoformat s = Some (Naive e) ->
  state_of (Api.init fromisoformat st0 w) =
    if clock w (ticks w) <? e - minutes 5
    then Api.set_token_expiry (Some e)
           (Api.set_access_token (field "access_token" fields)
              (adopt_refresh fields (baseline w)))
    else adopt_refresh fields (baseline w).
Proof.
  intros Hf Hr Hslice He Hes Hp.
  run_py. fold (baseline w). rewrite Hf. cbn. rewrite Hr. cbn. rewrite Hf. cbn.
  unfold adopt_refresh, field in *.
  destruct (assoc "refresh_token" fields) as [pr|]; cbn in *.
  - destruct (truthy pr) eqn:Hpr; cbn in *.
    + destruct (slice10 pr) as [p|x] eqn:Hsl; cbn in *;
        [|specialize (Hslice eq_refl); discriminate].
      destruct (assoc "token_expiry" fields) as [es|]; [|discriminate].
      subst es. cbn. rewrite Hes. cbn. rewrite Hp. cbn.
      settle_buffer w e.
      destruct (assoc "access_token" fields); reflexivity.
    + destruct (assoc "token_expiry" fields) as [es|]; [|discriminate].
      subst es. cbn. rewrite Hes. cbn. rewrite Hp. cbn.
      settle_buffer w e.
      destruct (assoc "access_token" fields); reflexivity.
  - change (truthy JNull) with false. cbn.
    destruct (assoc "token_expiry" fields) as [es|]; [|discriminate].
    subst es. cbn. rewrite Hes. cbn. rewrite Hp. cbn.
    settle_buffer w e.
    destruct (assoc "access_token" fields); reflexivity.
Qed.

Lemma api_persisted_torn isoformat st w :
  write_faults w = Some DumpFails ->
  file (api_persisted isoformat st w) = Some Garbage.
Proof.
  intros E.
  unfold api_persisted, world_of, Api._persist_state, Api.persist_body.
  cbv beta delta [bind ret try_except get mkdir_parent datetime_now write_json_file].
  cbn. rewrite E. cbn. rewrite E. reflexivity.
Qed.

(** X4: persist, then load.  After a successful [refresh] on a volume without
    fault, a construction that reads the file written has the refresh token
    that the manager held, and the same access token and expiry when the
    expiry is still more than five minutes ahead of its clock reading (neither
    of them otherwise).  The text form of the expiry is assumed to parse back
    to the expiry, and not to be empty. *)
Theorem restart_recovers_refreshed_state :
  forall fromisoformat isoformat st w st0 w2 e,
      fromisoformat (isoformat e) = Some (Naive e) ->
      truthy (JStr (isoformat e)) = true ->
      result_of (Api.refresh isoformat st w) = Ok true ->
      write_faults w = None ->
      file w2 = file (world_of (Api.refresh isoformat st w)) ->
      read_fault w2 = false ->
      Api.token_expiry (state_of (Api.refresh isoformat st w)) = Some e ->
      Api.refresh_token (state_of (Api.init fromisoformat st0 w2)) =
        Api.refresh_token (state_of (Api.refresh isoformat st w)) /\
      (clock w2 (ticks w2) + minutes 5 < e ->
       Api.access_token (state_of (Api.init fromisoformat st0 w2)) =
         Api.access_token (state_of (Api.refresh isoformat st w)) /\
       Api.token_expiry (state_of (Api.init fromisoformat st0 w2)) = Some e) /\
      (e <= clock w2 (ticks w2) + minutes 5 ->
       Api.access_token (state_of (Api.init fromisoformat st0 w2)) = JNull /\
       Api.token_expiry (state_of (Api.init fromisoformat st0 w2)) = None).
Proof.
  intros fromisoformat isoformat st w st0 w2 e Hround Hfull Hok Hw Hfile Hread He.
  pose proof (api_refresh_view_ok isoformat st w) as V.
  inversion V as [ ? Heq | ? ? ? Heq | ? ? ? ? Heq
                 | fs st' w' ? ? ? ? ? ? ? ? ? ? Heq
                 | fs expiry Hrt Hcid Hs Ha Hu Hl Heq ];
    rewrite <- Heq in Hok; try discriminate.
  rewrite <- Heq in Hfile, He. clear Heq Hok V.
  unfold state_of, world_of in *. cbn [fst snd] in *.
  set (st1 := api_adopted st fs expiry) in *.
  assert (Htruthy : truthy (Api.refresh_token st1) = true).
  { subst st1. cbn. destruct (rotates (Api.refresh_token st) fs) eqn:Hrot; auto.
    unfold rotates in Hrot. apply andb_prop in Hrot. tauto. }
  assert (Hslice : is_ok (slice10 (Api.refresh_token st1)) = true).
  { subst st1. cbn. unfold grant_usable in Hu.
    destruct (rotates (Api.refresh_token st) fs) eqn:Hrot; auto.
    apply andb_prop in Hu. destruct Hu as [Hu _].
    apply andb_prop in Hu. tauto. }
  rewrite api_persisted_file in Hfile by exact Hw.
  unfold Api.state_record in Hfile. rewrite He in Hfile.
  pose proof (api_init_restores fromisoformat st0 w2 _ (isoformat e) e
                Hfile Hread (fun _ => Hslice) eq_refl Hfull Hround) as Hinit.
  unfold state_of in Hinit. rewrite Hinit. clear Hinit.
  match goal with
  | |- context [adopt_refresh ?fields ?b] =>
      pose proof (adopt_refresh_token fields b Htruthy) as Hrt2;
      destruct (adopt_refresh_access fields b) as (Hat2 & Hex2 & _)
  end.
  destruct (clock w2 (ticks w2) <? e - minutes 5) eqn:Hlt.
  - apply Z.ltb_lt in Hlt.
    cbn [Api.refresh_token Api.access_token Api.token_expiry
         Api.set_token_expiry Api.set_access_token].
    rewrite Hrt2. split; [reflexivity|]. split; [intros _; split; reflexivity|].
    lia.
  - apply Z.ltb_ge in Hlt. rewrite Hrt2, Hat2, Hex2.
    split; [reflexivity|]. split; [lia|]. intros _. split; reflexivity.
Qed.

(** The theorem applied to the rotating answer and a restart one minute
    later. *)
Lemma restart_recovers_refreshed_state_witness :
  let r := Api.refresh stamp_text old_state
             (quiet_world 5000000000 rotating_answer) in
  let restarted :=
    Api.init stamp_parse old_state
      (set_file (file (world_of r)) (quiet_world 5060000000 rotating_answer)) in
  Api.refresh_token (state_of restarted) = JStr "rt-new" /\
  Api.access_token (state_of restarted) = JStr "at-1" /\
  Api.token_expiry (state_of restarted) = Some 8600000000.
Proof.
  destruct (restart_recovers_refreshed_state stamp_parse stamp_text old_state
              (quiet_world 5000000000 rotating_answer) old_state
              (set_file
                 (file (world_of (Api.refresh stamp_text old_state
                                    (quiet_world 5000000000 rotating_answer))))
                 (quiet_world 5060000000 rotating_answer))
              8600000000) as (H1 & H2 & _);
    [vm_compute; reflexivity ..|].
  destruct H2 as [H2 H3]; [vm_compute; reflexivity|].
  cbv zeta. rewrite H1, H2, H3. repeat split.
Defined.

(** X5: a write torn by a fault of the volume loses the rotation at the next
    start.  When [json.dump] fails during an otherwise successful [refresh],
    the file is left unparsable and a construction that reads it is the
    baseline state: the refresh token of the environment, no access token, no
    expiry. *)
Theorem torn_write_falls_back_to_baseline :
  forall fromisoformat isoformat st w st0 w2,
    result_of (Api.refresh isoformat st w) = Ok true ->
    write_faults w = Some DumpFails ->
    file w2 = file (world_of (Api.refresh isoformat st w)) ->
    file w2 = Some Garbage /\
    state_of (Api.init fromisoformat st0 w2) = baseline w2.
Proof.
  intros fromisoformat isoformat st w st0 w2 Hok Hw Hfile.
  pose proof (api_refresh_view_ok isoformat st w) as V.
  inversion V as [ ? Heq | ? ? ? Heq | ? ? ? ? Heq
                 | fs st' w' ? ? ? ? ? ? ? ? ? ? Heq
                 | fs expiry Hrt Hcid Hs Ha Hu Hl Heq ];
    rewrite <- Heq in Hok; try discriminate.
  rewrite <- Heq in Hfile. clear Heq Hok V.
  unfold world_of in Hfile. cbn [snd] in Hfile.
  rewrite api_persisted_torn in Hfile by exact Hw.
  split; [exact Hfile|].
  destruct (api_init_view_ok fromisoformat st0 w2) as (st' & w' & Heq & V).
  rewrite Heq. unfold state_of. cbn [fst snd]. clear Heq.
  destruct V as [ Hno | fs' w1 Hf' Hr' Hw' | fs' s e Hf' Hr' He Hes Hp Hlt ];
    [reflexivity | congruence | congruence].
Qed.

(** The theorem applied to the rotating answer on a volume that tears the
    write. *)
Lemma torn_write_falls_back_to_baseline_witness :
  let w := set_write_faults (Some DumpFails)
             (quiet_world 5000000000 rotating_answer) in
  let r := Api.refresh stamp_text old_state w in
  Api.refresh_token (state_of r) = JStr "rt-new" /\
  Api.refresh_token (state_of (Api.init stamp_parse old_state (world_of r)))
    = JStr "rt-baseline".
Proof.
  cbv zeta. split; [reflexivity|].
  destruct (torn_write_falls_back_to_baseline stamp_parse stamp_text old_state
              (set_write_faults (Some DumpFails)
                 (quiet_world 5000000000 rotating_answer))
              old_state
              (world_of (Api.refresh stamp_text old_state
                           (set_write_faults (Some DumpFails)
                              (quiet_world 5000000000 rotating_answer)))))
    as [_ H]; [reflexivity ..|].
  rewrite H. reflexivity.
Defined.

(** * More about [is_expired] and [get_token] *)

Lemma api_expired_later st now later :
  now <= later ->
  Api.is_expired_at now st = Ok true -> Api.is_expired_at later st = Ok true.
Proof.
  unfold Api.is_expired_at. intros Hle.
  destruct (negb (truthy (Api.access_token st))); [auto|].
  destruct (Api.token_expiry st) as [e|]; [|auto].
  destruct (datetime_sub e (minutes 5)) as [limit|]; [|discriminate].
  intros H. injection H as H. f_equal.
  apply Z.leb_le in H. apply Z.leb_le. lia.
Qed.

Lemma fixed_expired_later st now later :
  now <= later ->
  ApiFixed.is_expired_at now st = Ok true ->
  ApiFixed.is_expired_at later st = Ok true.
Proof.
  unfold ApiFixed.is_expired_at. intros Hle.
  destruct (negb (truthy (ApiFixed.access_token st))); [auto|].
  destruct (ApiFixed.token_expiry st) as [e|]; [|auto].
  destruct (datetime_sub e (minutes 5)) as [limit|]; [|discriminate].
  intros H. injection H as H. f_equal.
  apply Z.leb_le in H. apply Z.leb_le. lia.
Qed.

(** X6: expiry is monotone in time.  If [is_expired] answers [True] at one
    clock reading, it answers [True] on the same state at every later
    reading. *)
Theorem expired_stays_expired :
  (forall st w later,
      clock w (ticks w) <= clock later (ticks later) ->
      result_of (Api.is_expired st w) = Ok true ->
      result_of (Api.is_expired st later) = Ok true)
  /\
  (forall st w later,
      clock w (ticks w) <= clock later (ticks later) ->
      result_of (ApiFixed.is_expired st w) = Ok true ->
      result_of (ApiFixed.is_expired st later) = Ok true).
Proof.
  split; intros st w later Hle.
  - rewrite !api_is_expired_run. unfold result_of. cbn [fst].
    exact (api_expired_later st _ _ Hle).
  - rewrite !fixed_is_expired_run. unfold result_of. cbn [fst].
    exact (fixed_expired_later st _ _ Hle).
Qed.

(** The theorem applied to the expired state, at the reading and an hour
    later. *)
Lemma expired_stays_expired_witness :
  result_of (Api.is_expired old_state (quiet_world 8600000000 rotating_answer))
    = Ok true /\
  result_of (ApiFixed.is_expired old_fixed_state
               (quiet_world 8600000000 rotating_answer)) = Ok true.
Proof.
  split.
  - apply (proj1 expired_stays_expired old_state
             (quiet_world 5000000000 rotating_answer)
             (quiet_world 8600000000 rotating_answer)).
    + vm_compute. discriminate.
    + reflexivity.
  - apply (proj2 expired_stays_expired old_fixed_state
             (quiet_world 5000000000 rotating_answer)
             (quiet_world 8600000000 rotating_answer)).
    + vm_compute. discriminate.
    + reflexivity.
Defined.

Lemma api_checked_log st w :
  workos_log (api_checked st w) = workos_log w.
Proof. apply api_checked_frame. Qed.

Lemma fixed_checked_log st w :
  workos_log (fixed_checked st w) = workos_log w.
Proof. unfold fixed_checked. destruct (_ && _); reflexivity. Qed.

(** X7: [get_token] leaves [client_id] as it is and sends at most one grant
    to the provider; a token that it hands out (a non-empty result) is the
    [access_token] that the manager holds after the call. *)
Theorem get_token_hands_out_the_token_in_memory :
  (forall isoformat st w,
      Api.client_id (state_of (Api.get_token isoformat st w)) = Api.client_id st /\
      (workos_log (world_of (Api.get_token isoformat st w)) = workos_log w \/
       workos_log (world_of (Api.get_token isoformat st w)) =
         api_grant st :: workos_log w) /\
      (forall token,
          result_of (Api.get_token isoformat st w) = Ok token ->
          truthy token = true ->
          token = Api.access_token (state_of (Api.get_token isoformat st w))))
  /\
  (forall st w,
      ApiFixed.client_id (state_of (ApiFixed.get_token st w)) =
        ApiFixed.client_id st /\
      (workos_log (world_of (ApiFixed.get_token st w)) = workos_log w \/
       workos_log (world_of (ApiFixed.get_token st w)) =
         fixed_grant st :: workos_log w) /\
      (forall token,
          result_of (ApiFixed.get_token st w) = Ok token ->
          truthy token = true ->
          token = ApiFixed.access_token (state_of (ApiFixed.get_token st w)))).
Proof.
  split.
  - intros isoformat st w. rewrite api_get_token_run.
    destruct (Api.is_expired_at (clock w (ticks w)) st) as [[]|e].
    3:{ unfold state_of, world_of, result_of. cbn [fst snd].
        rewrite api_checked_log. split; [reflexivity|]. split; [auto|].
        intros token Hres _. discriminate Hres. }
    + destruct (api_refresh_frame isoformat st (api_checked st w)) as [F1 F2].
      rewrite api_checked_log in F2.
      unfold token_after.
      change (state_of (?a, ?b, ?c)) with b.
      unfold state_of at 1, world_of at 1 2, result_of at 1. cbn [fst snd].
      split; [exact F1|]. split; [exact F2|].
      intros token Hres Htok.
      destruct (result_of (Api.refresh isoformat st (api_checked st w)))
        as [[|]|]; try discriminate.
      * injection Hres as <-. reflexivity.
      * injection Hres as <-. discriminate Htok.
    + unfold state_of, world_of, result_of. cbn [fst snd].
      rewrite api_checked_log. split; [reflexivity|]. split; [auto|].
      intros token Hres _. injection Hres as <-. reflexivity.
  - intros st w. rewrite fixed_get_token_run.
    destruct (ApiFixed.is_expired_at (clock w (ticks w)) st) as [[]|e].
    3:{ unfold state_of, world_of, result_of. cbn [fst snd].
        rewrite fixed_checked_log. split; [reflexivity|]. split; [auto|].
        intros token Hres _. discriminate Hres. }
    + destruct (fixed_refresh_frame st (fixed_checked st w)) as [F1 F2].
      rewrite fixed_checked_log in F2.
      unfold token_after.
      unfold state_of at 1, world_of at 1 2, result_of at 1. cbn [fst snd].
      split; [exact F1|]. split; [exact F2|].
      intros token Hres Htok.
      destruct (result_of (ApiFixed.refresh st (fixed_checked st w)))
        as [[|]|]; try discriminate.
      * injection Hres as <-. reflexivity.
      * injection Hres as <-. discriminate Htok.
    + unfold state_of, world_of, result_of. cbn [fst snd].
      rewrite fixed_checked_log. split; [reflexivity|]. split; [auto|].
      intros token Hres _. injection Hres as <-. reflexivity.
Qed.

(** The theorem applied to scenario A and to the expired state. *)
Lemma get_token_hands_out_the_token_in_memory_witness :
  JStr "at-current" =
    Api.access_token
      (state_of (Api.get_token stamp_text fresh_state
                   (quiet_world 5000000000 rotating_answer))) /\
  JStr "at-1" =
    ApiFixed.access_token
      (state_of (ApiFixed.get_token old_fixed_state
                   (quiet_world 5000000000 rotating_answer))).
Proof.
  split.
  - apply (proj2 (proj2 (proj1 get_token_hands_out_the_token_in_memory
                           stamp_text fresh_state
                           (quiet_world 5000000000 rotating_answer))));
      reflexivity.
  - apply (proj2 (proj2 (proj2 get_token_hands_out_the_token_in_memory
                           old_fixed_state
                           (quiet_world 5000000000 rotating_answer))));
      reflexivity.
Defined.

(** X8: [get_token] does not look at the expiry again after a refresh.  On a
    state that [is_expired] reports as expired and a grant that [refresh]
    accepts at its reading of the clock (the one that follows the check), it
    returns the access token of the answer and sets the expiry to that
    reading plus the announced lifetime; when that expiry is no more than
    five minutes after the reading (and at least five minutes after
    [datetime.min]), the token handed out is one that [is_expired] already
    counts as expired. *)
Theorem get_token_hands_out_short_lived_token :
  (forall isoformat st w fields,
      result_of (Api.is_expired st w) = Ok true ->
      truthy (Api.refresh_token st) = true ->
      truthy (JStr (Api.client_id st)) = true ->
      is_ok (slice10 (Api.refresh_token st)) = true ->
      answer_fields (api_answer st w) = Some fields ->
      exists now,
        now = clock (api_checked st w) (ticks (api_checked st w)) /\
        forall expiry,
          grant_usable now (Api.refresh_token st) fields = true ->
          new_expiry now fields = Ok expiry ->
          result_of (Api.get_token isoformat st w) =
            Ok (field "access_token" fields) /\
          Api.token_expiry (state_of (Api.get_token isoformat st w)) =
            Some expiry /\
          (expiry <= now + minutes 5 ->
           datetime_min + minutes 5 <= expiry ->
           Api.is_expired_at now (state_of (Api.get_token isoformat st w)) =
             Ok true))
  /\
  (forall st w fields,
      result_of (ApiFixed.is_expired st w) = Ok true ->
      truthy (ApiFixed.refresh_token st) = true ->
      truthy (JStr (ApiFixed.client_id st)) = true ->
      answer_fields (fixed_answer st w) = Some fields ->
      exists now,
        now = clock (fixed_checked st w) (ticks (fixed_checked st w)) /\
        forall expiry,
          grant_usable now (ApiFixed.refresh_token st) fields = true ->
          new_expiry now fields = Ok expiry ->
          result_of (ApiFixed.get_token st w) =
            Ok (field "access_token" fields) /\
          ApiFixed.token_expiry (state_of (ApiFixed.get_token st w)) =
            Some expiry /\
          (expiry <= now + minutes 5 ->
           datetime_min + minutes 5 <= expiry ->
           ApiFixed.is_expired_at now (state_of (ApiFixed.get_token st w)) =
             Ok true)).
Proof.
  split.
  - intros isoformat st w fields Hexp Hrt Hcid Hs Ha.
    rewrite api_is_expired_run in Hexp. unfold result_of in Hexp.
    cbn [fst] in Hexp.
    exists (clock (api_checked st w) (ticks (api_checked st w))).
    split; [reflexivity|].
    intros expiry Hu Hl.
    rewrite api_get_token_run, Hexp.
    rewrite <- (api_answer_checked st w) in Ha.
    pose proof (api_refresh_view_ok isoformat st (api_checked st w)) as V.
    inversion V as [ Hc Heq | ? ? Hs' Heq | ? ? ? Ha' Heq
                   | fs st' w' ? ? ? Ha' Hu' ? ? ? ? ? Heq
                   | fs expiry' ? ? ? Ha' Hu' Hl' Heq ];
      try (destruct Hc); try congruence.
    + rewrite Ha in Ha'. injection Ha' as <-.
      rewrite Hl in Hl'. injection Hl' as <-.
      unfold token_after, result_of, state_of. cbn [fst snd].
      split; [reflexivity|]. split; [reflexivity|].
      intros Hshort Hfar. unfold Api.is_expired_at, datetime_sub. cbn.
      destruct (negb (truthy (field "access_token" fields))); [reflexivity|].
      destruct (Z.leb_spec datetime_min (expiry - minutes 5)); [|lia].
      f_equal. apply Z.leb_le. lia.
  - intros st w fields Hexp Hrt Hcid Ha.
    rewrite fixed_is_expired_run in Hexp. unfold result_of in Hexp.
    cbn [fst] in Hexp.
    exists (clock (fixed_checked st w) (ticks (fixed_checked st w))).
    split; [reflexivity|].
    intros expiry Hu Hl.
    rewrite fixed_get_token_run, Hexp.
    rewrite <- (fixed_answer_checked st w) in Ha.
    pose proof (fixed_refresh_view_ok st (fixed_checked st w)) as V.
    inversion V as [ Hc Heq | ? ? Ha' Heq
                   | fs st' w' ? ? Ha' Hu' ? ? ? Heq
                   | fs expiry' ? ? Ha' Hu' Hl' Heq ];
      try (destruct Hc); try congruence.
    + rewrite Ha in Ha'. injection Ha' as <-.
      rewrite Hl in Hl'. injection Hl' as <-.
      unfold token_after, result_of, state_of. cbn [fst snd].
      split; [reflexivity|]. split; [reflexivity|].
      intros Hshort Hfar. unfold ApiFixed.is_expired_at, datetime_sub. cbn.
      destruct (negb (truthy (field "access_token" fields))); [reflexivity|].
      destruct (Z.leb_spec datetime_min (expiry - minutes 5)); [|lia].
      f_equal. apply Z.leb_le. lia.
Qed.

(** The theorem applied to a grant that lives one minute. *)
Lemma get_token_hands_out_short_lived_token_witness :
  result_of (Api.get_token stamp_text old_state
               (quiet_world 5000000000 short_lived_answer)) = Ok (JStr "at-1") /\
  result_of (ApiFixed.get_token old_fixed_state
               (quiet_world 5000000000 short_lived_answer)) = Ok (JStr "at-1").
Proof.
  split.
  - destruct (proj1 get_token_hands_out_short_lived_token stamp_text old_state
                (quiet_world 5000000000 short_lived_answer)
                [("access_token", JStr "at-1"); ("expires_in", JInt 60)])
      as (now & -> & H); [vm_compute; reflexivity ..|].
    apply (H (5001000000 + seconds 60)); vm_compute; reflexivity.
  - destruct (proj2 get_token_hands_out_short_lived_token old_fixed_state
                (quiet_world 5000000000 short_lived_answer)
                [("access_token", JStr "at-1"); ("expires_in", JInt 60)])
      as (now & -> & H); [vm_compute; reflexivity ..|].
    apply (H (5001000000 + seconds 60)); vm_compute; reflexivity.
Defined.

(** * The headers and the handlers *)

Section Handler_facts.

Variable S : Type.
Variable get_token : M S json.

Lemma get_headers_run st w :
  get_headers S get_token st w =
  after_token (fun h => Ok (Reply h)) (get_token st w).
Proof.
  unfold get_headers, after_token, result_of, state_of, world_of.
  rewrite bind_run.
  destruct (get_token st w) as [[[token|e] st'] w']; cbn [fst snd]; [|reflexivity].
  destruct (negb (truthy token)); reflexivity.
Qed.

Lemma with_headers_run {A} (rest : headers -> res (reply A)) st w :
  with_headers S get_token rest st w = after_token rest (get_token st w).
Proof.
  unfold with_headers. rewrite bind_run, get_headers_run.
  unfold after_token, result_of, state_of, world_of.
  destruct (get_token st w) as [[[token|e] st'] w']; cbn [fst snd]; [|reflexivity].
  destruct (negb (truthy token)); reflexivity.
Qed.

End Handler_facts.

(** X9: [get_headers] changes the manager and the world exactly as its call
    of [get_token] does; a header set it returns carries the token that
    [get_token] returned, and that token is not empty; on an empty or absent
    token it raises [HTTPException] 401. *)
Theorem get_headers_never_carries_an_empty_token :
  forall (S : Type) (get_token : M S json) st w,
    state_of (get_headers S get_token st w) = state_of (get_token st w) /\
    world_of (get_headers S get_token st w) = world_of (get_token st w) /\
    (forall h,
        result_of (get_headers S get_token st w) = Ok (Reply h) ->
        truthy (authorization_bearer h) = true /\
        result_of (get_token st w) = Ok (authorization_bearer h)) /\
    (forall token,
        result_of (get_token st w) = Ok token ->
        truthy token = false ->
        result_of (get_headers S get_token st w) =
          Ok (Throws (HTTPException 401))).
Proof.
  intros S get_token st w. rewrite get_headers_run.
  destruct (get_token st w) as [[r st'] w'].
  unfold after_token, state_of, world_of, result_of. cbn [fst snd].
  split; [reflexivity|]. split; [reflexivity|]. split.
  - intros h. destruct r as [token|e]; [|discriminate].
    destruct (truthy token) eqn:Ht; cbn; [|discriminate].
    intros H. injection H as <-. cbn. auto.
  - intros token -> Ht. rewrite Ht. reflexivity.
Qed.

(** The theorem applied to scenario A and to a provider that answers without
    a token. *)
Lemma get_headers_never_carries_an_empty_token_witness :
  (truthy (JStr "at-current") = true /\
   result_of (Api.get_token stamp_text fresh_state
                (quiet_world 5000000000 rotating_answer))
     = Ok (JStr "at-current")) /\
  result_of (get_headers _ (Api.get_token stamp_text) old_state
               (quiet_world 5000000000 tokenless_answer))
    = Ok (Throws (HTTPException 401)).
Proof.
  split.
  - apply (proj1 (proj2 (proj2 (get_headers_never_carries_an_empty_token
                                  _ (Api.get_token stamp_text) fresh_state
                                  (quiet_world 5000000000 rotating_answer))))
             (bearer_headers (JStr "at-current"))).
    reflexivity.
  - apply (proj2 (proj2 (proj2 (get_headers_never_carries_an_empty_token
                                  _ (Api.get_token stamp_text) old_state
                                  (quiet_world 5000000000 tokenless_answer))))
             JNull); reflexivity.
Defined.

(** X10: no credential, no headers.  On a state that [is_expired] reports
    as expired, when the refresh token or the client id is missing, the
    provider cannot be reached, it answers with a 4xx/5xx status or with a
    body that is no JSON object, [get_headers] raises [HTTPException] 401 and
    every field of the manager is as before.  (For [api.py] the stored
    refresh token is taken to be a string, as the environment and the
    provider supply it.) *)
Theorem get_headers_unauthorized_when_refresh_refused :
  (forall isoformat st w s,
      Api.refresh_token st = JStr s ->
      result_of (Api.is_expired st w) = Ok true ->
      truthy (Api.refresh_token st) = false \/
      truthy (JStr (Api.client_id st)) = false \/
      answer_fields (api_answer st w) = None ->
      result_of (get_headers _ (Api.get_token isoformat) st w) =
        Ok (Throws (HTTPException 401)) /\
      state_of (get_headers _ (Api.get_token isoformat) st w) = st)
  /\
  (forall st w,
      result_of (ApiFixed.is_expired st w) = Ok true ->
      truthy (ApiFixed.refresh_token st) = false \/
      truthy (JStr (ApiFixed.client_id st)) = false \/
      answer_fields (fixed_answer st w) = None ->
      result_of (get_headers _ ApiFixed.get_token st w) =
        Ok (Throws (HTTPException 401)) /\
      state_of (get_headers _ ApiFixed.get_token st w) = st).
Proof.
  split.
  - intros isoformat st w s Hstr Hexp Hcause.
    rewrite api_is_expired_run in Hexp. unfold result_of in Hexp.
    cbn [fst] in Hexp.
    rewrite get_headers_run, api_get_token_run, Hexp.
    rewrite <- (api_answer_checked st w) in Hcause.
    pose proof (api_refresh_view_ok isoformat st (api_checked st w)) as V.
    assert (Hs : is_ok (slice10 (Api.refresh_token st)) = true)
      by (rewrite Hstr; reflexivity).
    inversion V as [ Hc Heq | ? ? Hs' Heq | ? ? ? Ha' Heq
                   | fs st' w' Hrt Hcid ? Ha' ? ? ? ? ? ? Heq
                   | fs expiry Hrt Hcid ? Ha' ? ? Heq ];
      try congruence.
    + unfold after_token, token_after, result_of, state_of. cbn. auto.
    + unfold after_token, token_after, result_of, state_of. cbn. auto.
    + destruct Hcause as [Hx|[Hx|Hx]]; congruence.
    + destruct Hcause as [Hx|[Hx|Hx]]; congruence.
  - intros st w Hexp Hcause.
    rewrite fixed_is_expired_run in Hexp. unfold result_of in Hexp.
    cbn [fst] in Hexp.
    rewrite get_headers_run, fixed_get_token_run, Hexp.
    rewrite <- (fixed_answer_checked st w) in Hcause.
    pose proof (fixed_refresh_view_ok st (fixed_checked st w)) as V.
    inversion V as [ Hc Heq | ? ? Ha' Heq
                   | fs st' w' Hrt Hcid Ha' ? ? ? ? Heq
                   | fs expiry Hrt Hcid Ha' ? ? Heq ].
    + unfold after_token, token_after, result_of, state_of. cbn. auto.
    + unfold after_token, token_after, result_of, state_of. cbn. auto.
    + destruct Hcause as [Hx|[Hx|Hx]]; congruence.
    + destruct Hcause as [Hx|[Hx|Hx]]; congruence.
Qed.

(** The theorem applied to scenario C: the provider answers 400,
    [invalid_grant]. *)
Lemma get_headers_unauthorized_when_refresh_refused_witness :
  result_of (get_headers _ (Api.get_token stamp_text) old_state
               (quiet_world 5000000000 invalid_grant_answer))
    = Ok (Throws (HTTPException 401)) /\
  state_of (get_headers _ ApiFixed.get_token old_fixed_state
              (quiet_world 5000000000 invalid_grant_answer)) = old_fixed_state.
Proof.
  split.
  - apply (proj1 get_headers_unauthorized_when_refresh_refused stamp_text
             old_state (quiet_world 5000000000 invalid_grant_answer)
             "rt-old"%string).
    + reflexivity.
    + reflexivity.
    + right; right. vm_compute. reflexivity.
  - apply (proj2 get_headers_unauthorized_when_refresh_refused
             old_fixed_state (quiet_world 5000000000 invalid_grant_answer)).
    + reflexivity.
    + right; right. vm_compute. reflexivity.
Defined.

(** * The reset handler *)

Lemma set_file_absent w : file w = None -> set_file None w = w.
Proof. destruct w. cbn. intros ->. reflexivity. Qed.

Lemma api_init_without_file fromisoformat st0 w :
  file w = None ->
  Api.init fromisoformat st0 w = (Ok tt, baseline w, w).
Proof.
  intros Hf. run_py. fold (baseline w). rewrite Hf. reflexivity.
Qed.

(** [reset_token] once the file is out of the way. *)
Lemma api_reset_run fromisoformat isoformat st w :
  unlink_fault w = false ->
  Api.reset_token fromisoformat isoformat st w =
  let r := Api.refresh isoformat (baseline w) (set_file None w) in
  (match result_of r with
   | Ok _ =>
       match slice10 (Api.refresh_token (state_of r)) with
       | Ok head10 =>
           match add_dots head10 with
           | Ok prefix => Ok (Api.ResetOk prefix)
           | Raise _ => Ok Api.ResetError
           end
       | Raise _ => Ok Api.ResetError
       end
   | Raise _ => Ok Api.ResetError
   end, state_of r, world_of r).
Proof.
  intros Hu.
  assert (Hrest : forall w1, file w1 = None -> baseline w1 = baseline w ->
    bind (Api.init fromisoformat)
      (fun _ => try_except
         (bind (Api.refresh isoformat) (fun _ =>
          bind get (fun st2 =>
          bind (lift (slice10 (Api.refresh_token st2))) (fun head10 =>
          bind (lift (add_dots head10)) (fun prefix =>
          ret (Api.ResetOk prefix))))))
         (fun _ => ret Api.ResetError)) st w1 =
    let r := Api.refresh isoformat (baseline w) w1 in
    (match result_of r with
     | Ok _ =>
         match slice10 (Api.refresh_token (state_of r)) with
         | Ok head10 =>
             match add_dots head10 with
             | Ok prefix => Ok (Api.ResetOk prefix)
             | Raise _ => Ok Api.ResetError
             end
         | Raise _ => Ok Api.ResetError
         end
     | Raise _ => Ok Api.ResetError
     end, state_of r, world_of r)).
  { intros w1 Hf Hb. rewrite bind_run, (api_init_without_file _ _ _ Hf), Hb.
    unfold try_except. rewrite bind_run. cbv zeta.
    unfold result_of, state_of, world_of.
    destruct (Api.refresh isoformat (baseline w) w1) as [[[b|e] st2] w3];
      cbn [fst snd]; [|reflexivity].
    cbv beta delta [bind get lift ret]. cbn beta iota.
    destruct (slice10 (Api.refresh_token st2)) as [p|]; cbn; [|reflexivity].
    destruct (add_dots p); reflexivity. }
  unfold Api.reset_token. rewrite bind_run.
  cbv beta delta [file_exists]. cbn beta iota.
  destruct (file w) as [c|] eqn:Hf.
  - rewrite bind_run. cbv beta delta [unlink_file]. cbn beta iota.
    rewrite Hu, Hf. apply Hrest; reflexivity.
  - rewrite bind_run. cbv beta delta [ret]. cbn beta iota.
    rewrite (set_file_absent w Hf). apply Hrest; [exact Hf | reflexivity].
Qed.

(** X11: when the file is absent or can be deleted, [reset_token] forgets the
    state it finds: it leaves the manager and the world exactly as a
    [refresh] from the baseline state (the refresh token and client id of the
    environment, no access token) on a volume without the file; and it answers
    [ok] with the first ten characters of the refresh token whether that
    refresh returned [True] or [False]. *)
Theorem reset_token_reseeds_from_baseline :
  forall fromisoformat isoformat st w,
    unlink_fault w = false ->
    state_of (Api.reset_token fromisoformat isoformat st w) =
      state_of (Api.refresh isoformat (baseline w) (set_file None w)) /\
    world_of (Api.reset_token fromisoformat isoformat st w) =
      world_of (Api.refresh isoformat (baseline w) (set_file None w)) /\
    (forall b s,
        result_of (Api.refresh isoformat (baseline w) (set_file None w)) = Ok b ->
        Api.refresh_token
          (state_of (Api.refresh isoformat (baseline w) (set_file None w))) = JStr s ->
        result_of (Api.reset_token fromisoformat isoformat st w) =
          Ok (Api.ResetOk (JStr (substring 0 10 s ++ "...")))).
Proof.
  intros fromisoformat isoformat st w Hu.
  rewrite (api_reset_run _ _ _ _ Hu). cbv zeta.
  split; [reflexivity|]. split; [reflexivity|].
  intros b s Hb Hs. unfold result_of at 1. cbn [fst]. rewrite Hb, Hs.
  reflexivity.
Qed.

(** The theorem applied to a reset with a persisted record on the volume and
    a provider that rejects the grant. *)
Lemma reset_token_reseeds_from_baseline_witness :
  result_of (Api.reset_token stamp_parse stamp_text old_state
               (set_file (file (persisted_world "9000000000"))
                  (quiet_world 5000000000 invalid_grant_answer)))
    = Ok (Api.ResetOk (JStr "rt-baselin...")).
Proof.
  apply (proj2 (proj2 (reset_token_reseeds_from_baseline stamp_parse stamp_text
                         old_state
                         (set_file (file (persisted_world "9000000000"))
                            (quiet_world 5000000000 invalid_grant_answer))
                         eq_refl))
           false "rt-baseline"%string); reflexivity.
Defined.

(** X12: when the file exists and cannot be deleted, [reset_token] ends with
    the [OSError] of [unlink]: the manager keeps the state it had, nothing is
    sent to the provider and the file stays. *)
Theorem reset_token_stops_at_failed_unlink :
  forall fromisoformat isoformat st w c,
    file w = Some c ->
    unlink_fault w = true ->
    Api.reset_token fromisoformat isoformat st w = (Raise OSError, st, w).
Proof.
  intros fromisoformat isoformat st w c Hf Hu.
  unfold Api.reset_token. rewrite bind_run.
  cbv beta delta [file_exists]. cbn beta iota. rewrite Hf.
  rewrite bind_run. cbv beta delta [unlink_file]. cbn beta iota.
  rewrite Hu. reflexivity.
Qed.

(** The volume refuses to delete the file. *)
Lemma reset_token_stops_at_failed_unlink_witness :
  state_of (Api.reset_token stamp_parse stamp_text old_state
              (undeletable_world "9000000000")) = old_state.
Proof.
  rewrite (reset_token_stops_at_failed_unlink stamp_parse stamp_text old_state
             (undeletable_world "9000000000")
             (Json (JObj [("refresh_token", JStr "rt-persisted");
                          ("access_token", JStr "at-persisted");
                          ("token_expiry", JStr "9000000000");
                          ("updated_at", JStr "4000000000")]))
             eq_refl eq_refl).
  reflexivity.
Defined.

(** X13: after [reset_token], when the file was absent or could be deleted,
    the volume holds no record with another refresh token than the one in
    memory: either there is no readable record, or its [refresh_token] is the
    manager's. *)
Theorem reset_token_leaves_no_stale_record :
  forall fromisoformat isoformat st w,
    unlink_fault w = false ->
    saved_refresh_token
      (world_of (Api.reset_token fromisoformat isoformat st w)) = None \/
    saved_refresh_token
      (world_of (Api.reset_token fromisoformat isoformat st w)) =
      Some (Api.refresh_token
              (state_of (Api.reset_token fromisoformat isoformat st w))).
Proof.
  intros fromisoformat isoformat st w Hu.
  rewrite (api_reset_run _ _ _ _ Hu). cbv zeta.
  unfold world_of at 1 3, state_of at 1. cbn [fst snd].
  pose proof (api_refresh_view_ok isoformat (baseline w) (set_file None w)) as V.
  inversion V as [ Hc Heq | ? ? Hs' Heq | ? ? ? Ha' Heq
                 | fs st' w' ? ? ? Ha' ? ? ? Hfile ? ? Heq
                 | fs expiry ? ? ? Ha' ? ? Heq ];
    unfold world_of, state_of; cbn [fst snd]; auto.
  - left. unfold saved_refresh_token. rewrite Hfile. reflexivity.
  - unfold saved_refresh_token.
    match goal with
    | |- context [api_persisted ?i ?s ?x] =>
        destruct (api_persisted_file_cases i s x) as [E|[E|E]]; rewrite E
    end; cbn; auto.
Qed.

(** The theorem applied to a reset with a persisted record on the volume. *)
Lemma reset_token_leaves_no_stale_record_witness :
  saved_refresh_token
    (world_of (Api.reset_token stamp_parse stamp_text old_state
                 (persisted_world "9000000000"))) = Some (JStr "rt-new").
Proof.
  destruct (reset_token_leaves_no_stale_record stamp_parse stamp_text old_state
              (persisted_world "9000000000") eq_refl) as [H|H].
  - vm_compute in H. discriminate H.
  - rewrite H. reflexivity.
Defined.

(** * The helpers *)

Lemma attendee_emails_of_objects attendees :
  forallb is_object attendees = true ->
  attendee_emails attendees =
    Ok (filter truthy (map (json_field "email") attendees)).
Proof.
  induction attendees as [|a rest IH]; intros H; [reflexivity|].
  cbn in H. apply andb_prop in H. destruct H as [Ha Hrest].
  destruct a as [| | | | |fs]; try discriminate.
  cbn [attendee_emails map filter json_field].
  unfold dict_get, dict_get_default, field, res_bind.
  rewrite (IH Hrest).
  destruct (assoc "email" fs) as [v|]; [|reflexivity].
  destruct (truthy v); reflexivity.
Qed.

Lemma attendee_emails_of_other attendees :
  forallb is_object attendees = false ->
  attendee_emails attendees = Raise AttributeError.
Proof.
  induction attendees as [|a rest IH]; intros H; [discriminate|].
  cbn in H. destruct a as [| | | | |fs]; try reflexivity.
  cbn in H. cbn [attendee_emails].
  unfold dict_get, dict_get_default, res_bind.
  rewrite (IH H).
  destruct (assoc "email" fs) as [v|]; [|reflexivity].
  destruct (truthy v); reflexivity.
Qed.

(** X14: [_extract_attendees] on a document whose calendar event lists its
    attendees as JSON objects returns their non-empty [email] values, in the
    order of the list, and nothing else; on a document without calendar event
    (missing, null or empty) it returns the empty list. *)
Theorem extract_attendees_keeps_the_emails :
  (forall fields cal attendees,
      assoc "google_calendar_event" fields = Some (JObj cal) ->
      assoc "attendees" cal = Some (JArr attendees) ->
      forallb is_object attendees = true ->
      _extract_attendees (JObj fields) =
        Ok (filter truthy (map (json_field "email") attendees)))
  /\
  (forall fields,
      truthy (field "google_calendar_event" fields) = false ->
      _extract_attendees (JObj fields) = Ok []).
Proof.
  split.
  - intros fields cal attendees Hcal Hatt Hobj.
    unfold _extract_attendees, dict_get_default, res_bind. rewrite Hcal.
    destruct cal as [|c cal']; [discriminate|].
    change (truthy (JObj (c :: cal'))) with true. cbn [negb].
    rewrite Hatt. cbn [py_iter].
    apply attendee_emails_of_objects. exact Hobj.
  - intros fields Hno.
    unfold _extract_attendees, dict_get_default, res_bind.
    unfold field in Hno.
    destruct (assoc "google_calendar_event" fields) as [cal|].
    + rewrite Hno. reflexivity.
    + reflexivity.
Qed.

(** The theorem applied to the sample meeting. *)
Lemma extract_attendees_keeps_the_emails_witness :
  _extract_attendees sample_meeting =
    Ok [JStr "ann@example.com"; JStr "bob@example.com"] /\
  _extract_attendees (JObj [("id", JStr "doc-2");
                            ("google_calendar_event", JNull)]) = Ok [].
Proof.
  split.
  - apply (proj1 extract_attendees_keeps_the_emails
             [("id", JStr "doc-1"); ("title", JStr "Weekly Sync");
              ("notes_plain", JStr "Budget review");
              ("google_calendar_event",
               JObj [("attendees",
                      JArr [JObj [("email", JStr "ann@example.com")];
                            JObj [("displayName", JStr "Room 4")];
                            JObj [("email", JStr "bob@example.com")]])])]
             [("attendees",
               JArr [JObj [("email", JStr "ann@example.com")];
                     JObj [("displayName", JStr "Room 4")];
                     JObj [("email", JStr "bob@example.com")]])]
             [JObj [("email", JStr "ann@example.com")];
              JObj [("displayName", JStr "Room 4")];
              JObj [("email", JStr "bob@example.com")]]);
      reflexivity.
  - apply (proj2 extract_attendees_keeps_the_emails). reflexivity.
Defined.

(** X15: what [_extract_attendees] does not tolerate.  An [attendees] field
    that is present but null is not replaced by the default list: iterating it
    raises [TypeError]; and a list of attendees with an item that is not a
    JSON object raises [AttributeError], whatever the other items are. *)
Theorem extract_attendees_raises_on_malformed_event :
  (forall fields cal,
      assoc "google_calendar_event" fields = Some (JObj cal) ->
      assoc "attendees" cal = Some JNull ->
      _extract_attendees (JObj fields) = Raise TypeError)
  /\
  (forall fields cal attendees,
      assoc "google_calendar_event" fields = Some (JObj cal) ->
      assoc "attendees" cal = Some (JArr attendees) ->
      forallb is_object attendees = false ->
      _extract_attendees (JObj fields) = Raise AttributeError).
Proof.
  split.
  - intros fields cal Hcal Hatt.
    unfold _extract_attendees, dict_get_default, res_bind. rewrite Hcal.
    destruct cal as [|c cal']; [discriminate|].
    change (truthy (JObj (c :: cal'))) with true. cbn [negb].
    rewrite Hatt. reflexivity.
  - intros fields cal attendees Hcal Hatt Hobj.
    unfold _extract_attendees, dict_get_default, res_bind. rewrite Hcal.
    destruct cal as [|c cal']; [discriminate|].
    change (truthy (JObj (c :: cal'))) with true. cbn [negb].
    rewrite Hatt. cbn [py_iter].
    apply attendee_emails_of_other. exact Hobj.
Qed.

(** The theorem applied to an event with null attendees and to one that
    lists an attendee as a bare address. *)
Lemma extract_attendees_raises_on_malformed_event_witness :
  _extract_attendees
    (JObj [("google_calendar_event", JObj [("attendees", JNull)])])
    = Raise TypeError /\
  _extract_attendees
    (JObj [("google_calendar_event",
            JObj [("attendees",
                   JArr [JObj [("email", JStr "ann@example.com")];
                         JStr "bob@example.com"])])])
    = Raise AttributeError.
Proof.
  split.
  - apply (proj1 extract_attendees_raises_on_malformed_event _
             [("attendees", JNull)]); reflexivity.
  - apply (proj2 extract_attendees_raises_on_malformed_event _
             [("attendees",
               JArr [JObj [("email", JStr "ann@example.com")];
                     JStr "bob@example.com"])]
             [JObj [("email", JStr "ann@example.com")];
              JStr "bob@example.com"]); reflexivity.
Defined.

Lemma str_items_of_strings texts :
  str_items (map JStr texts) = Ok texts.
Proof.
  induction texts as [|s rest IH]; [reflexivity|].
  cbn. rewrite IH. reflexivity.
Qed.

(** What [recurse] appends for a well-named tree. *)
Lemma recurse_pm_json :
  forall t, pm_blocks_named t = true ->
    recurse (pm_json t) = Ok (map JStr (pm_texts t)).
Proof.
  fix IH 1. intros [text|kind children] Hok.
  - reflexivity.
  - cbn in Hok. apply andb_prop in Hok. destruct Hok as [Hkind Hchildren].
    cbn [pm_json recurse assoc String.eqb Ascii.eqb Bool.eqb].
    assert (Hpy : py_eq (JStr kind) (JStr "text") = false).
    { unfold py_eq. destruct (kind =? "text")%string; [discriminate|reflexivity]. }
    cbn [pm_texts].
    assert (Heach :
      (fix each (l : list json) : res (list json) :=
         match l with
         | [] => Ok []
         | child :: l' =>
             res_bind (recurse child) (fun first =>
             res_bind (each l') (fun others => Ok (first ++ others)%list))
         end) (map pm_json children) =
      Ok (map JStr (flat_map pm_texts children))).
    { clear Hkind Hpy. induction children as [|c rest IHrest]; [reflexivity|].
      cbn in Hchildren. apply andb_prop in Hchildren.
      destruct Hchildren as [Hc Hrest].
      cbn [map flat_map]. rewrite (IH c Hc). cbn [res_bind].
      rewrite (IHrest Hrest). cbn [res_bind].
      rewrite map_app. reflexivity. }
    change (recurse (pm_json (PmBlock kind children)))
      with (res_bind
              ((fix each (l : list json) : res (list json) :=
                  match l with
                  | [] => Ok []
                  | child :: l' =>
                      res_bind (recurse child) (fun first =>
                      res_bind (each l') (fun others => Ok (first ++ others)%list))
                  end) (map pm_json children))
              (fun below =>
                 Ok ((if py_eq (JStr kind) (JStr "text")
                      then [JStr EmptyString] else []) ++ below)%list)).
    rewrite Heach, Hpy. reflexivity.
Qed.

(** X16: on a ProseMirror tree of text leaves and blocks (none of the blocks
    being called ["text"]), [_extract_prosemirror_text] returns the texts of
    the leaves in document order, joined by single spaces; it does not
    raise. *)
Theorem prosemirror_text_joins_the_leaves :
  forall t,
    pm_blocks_named t = true ->
    _extract_prosemirror_text (pm_json t) =
      Ok (String.concat " " (pm_texts t)).
Proof.
  intros t Hok. unfold _extract_prosemirror_text.
  assert (Htruthy : truthy (pm_json t) = true) by (destruct t; reflexivity).
  rewrite Htruthy. cbn [negb].
  rewrite (recurse_pm_json t Hok). cbn [res_bind].
  rewrite str_items_of_strings. reflexivity.
Qed.

(** The theorem applied to the sample tree. *)
Lemma prosemirror_text_joins_the_leaves_witness :
  _extract_prosemirror_text (pm_json sample_tree) = Ok "Agenda budget hiring".
Proof.
  rewrite (prosemirror_text_joins_the_leaves sample_tree eq_refl).
  reflexivity.
Defined.

(** [recurse] on a dict, with the children found by the dict lookup. *)
Lemma recurse_object fields :
  recurse (JObj fields) =
  res_bind (recurse_content fields) (fun below =>
    Ok ((if py_eq (field "type" fields) (JStr "text")
         then [field_or "text" (JStr EmptyString) fields]
         else []) ++ below)%list).
Proof.
  cbn [recurse]. unfold field, field_or. f_equal.
  unfold recurse_content.
  induction fields as [|[k v] rest IH]; [reflexivity|].
  cbn [assoc]. destruct ("content" =? k)%string; [|exact IH].
  destruct v; reflexivity.
Qed.

(** X17: what [_extract_prosemirror_text] does not tolerate.  A node whose
    [content] is present but not a list, a string or a dict (null, a number,
    a boolean) raises [TypeError] from the loop over it; a childless text node
    whose [text] is not a string raises [TypeError] from the join. *)
Theorem prosemirror_text_raises_on_malformed_node :
  (forall fields v,
      assoc "content" fields = Some v ->
      v = JNull \/ (exists b, v = JBool b) \/ (exists n, v = JInt n) ->
      _extract_prosemirror_text (JObj fields) = Raise TypeError)
  /\
  (forall fields v,
      py_eq (field "type" fields) (JStr "text") = true ->
      assoc "text" fields = Some v ->
      is_string v = false ->
      assoc "content" fields = None ->
      _extract_prosemirror_text (JObj fields) = Raise TypeError).
Proof.
  split.
  - intros fields v Hc Hv. unfold _extract_prosemirror_text.
    assert (Htruthy : truthy (JObj fields) = true)
      by (destruct fields; [discriminate|reflexivity]).
    rewrite Htruthy. cbn [negb]. rewrite recurse_object.
    unfold recurse_content. rewrite Hc.
    destruct Hv as [->|[[b ->]|[n ->]]]; reflexivity.
  - intros fields v Htype Htext Hv Hc. unfold _extract_prosemirror_text.
    assert (Htruthy : truthy (JObj fields) = true)
      by (destruct fields; [discriminate|reflexivity]).
    rewrite Htruthy. cbn [negb]. rewrite recurse_object.
    unfold recurse_content, field_or. rewrite Hc, Htype, Htext.
    cbn [res_bind app str_items].
    destruct v; try reflexivity. discriminate.
Qed.

(** The theorem applied to a paragraph with null content and to a text node
    that carries a number. *)
Lemma prosemirror_text_raises_on_malformed_node_witness :
  _extract_prosemirror_text
    (JObj [("type", JStr "paragraph"); ("content", JNull)]) = Raise TypeError /\
  _extract_prosemirror_text
    (JObj [("type", JStr "text"); ("text", JInt 42)]) = Raise TypeError.
Proof.
  split.
  - apply (proj1 prosemirror_text_raises_on_malformed_node
             [("type", JStr "paragraph"); ("content", JNull)] JNull);
      [reflexivity | left; reflexivity].
  - apply (proj2 prosemirror_text_raises_on_malformed_node
             [("type", JStr "text"); ("text", JInt 42)] (JInt 42));
      reflexivity.
Defined.

(** * The handlers *)

Lemma after_token_frame {S A} (rest : headers -> res (reply A))
    (r : res json * S * World) :
  state_of (after_token rest r) = state_of r /\
  world_of (after_token rest r) = world_of r.
Proof. split; reflexivity. Qed.

Lemma after_token_empty {S A} (rest : headers -> res (reply A))
    (r : res json * S * World) token :
  result_of r = Ok token ->
  truthy token = false ->
  result_of (after_token rest r) = Ok (Throws (HTTPException 401)).
Proof.
  intros Hr Ht. unfold after_token, result_of at 1. cbn [fst].
  rewrite Hr, Ht. reflexivity.
Qed.

Lemma after_token_set {S A} (rest : headers -> res (reply A))
    (r : res json * S * World) token :
  result_of r = Ok token ->
  truthy token = true ->
  result_of (after_token rest r) = rest (bearer_headers token).
Proof.
  intros Hr Ht. unfold after_token, result_of at 1. cbn [fst].
  rewrite Hr, Ht. reflexivity.
Qed.

(** X18: the handlers reach the manager only through [get_token].  Each of
    [list_documents], [get_document], [get_transcript], [list_workspaces],
    [list_folders] and [search_documents] leaves the manager and the world
    exactly as its one call of [get_token] does, whatever the Granola API
    answers. *)
Theorem handlers_change_the_manager_as_get_token_does :
  forall (S : Type) (get_token : M S json) granola str_lower caught st w,
    (forall limit offset include_content,
        state_of (list_documents S get_token granola caught
                    limit offset include_content st w) =
          state_of (get_token st w) /\
        world_of (list_documents S get_token granola caught
                    limit offset include_content st w) =
          world_of (get_token st w)) /\
    (forall document_id,
        state_of (get_document S get_token granola caught document_id st w) =
          state_of (get_token st w) /\
        world_of (get_document S get_token granola caught document_id st w) =
          world_of (get_token st w)) /\
    (forall document_id,
        state_of (get_transcript S get_token granola document_id st w) =
          state_of (get_token st w) /\
        world_of (get_transcript S get_token granola document_id st w) =
          world_of (get_token st w)) /\
    (state_of (list_workspaces S get_token granola caught st w) =
       state_of (get_token st w) /\
     world_of (list_workspaces S get_token granola caught st w) =
       world_of (get_token st w)) /\
    (state_of (list_folders S get_token granola st w) =
       state_of (get_token st w) /\
     world_of (list_folders S get_token granola st w) =
       world_of (get_token st w)) /\
    (forall q limit,
        state_of (search_documents S get_token granola str_lower caught
                    q limit st w) =
          state_of (get_token st w) /\
        world_of (search_documents S get_token granola str_lower caught
                    q limit st w) =
          world_of (get_token st w)).
Proof.
  intros S get_token granola str_lower caught st w.
  repeat split; intros;
    unfold list_documents, get_document, get_transcript, list_workspaces,
      list_folders, search_documents;
    rewrite with_headers_run; reflexivity.
Qed.

(** X19: no handler calls the Granola API without a token.  When [get_token]
    returns an empty or absent token, each handler raises [HTTPException]
    401, whatever the Granola API would answer. *)
Theorem handlers_unauthorized_without_token :
  forall (S : Type) (get_token : M S json) granola str_lower caught st w token,
    result_of (get_token st w) = Ok token ->
    truthy token = false ->
    (forall limit offset include_content,
        result_of (list_documents S get_token granola caught
                     limit offset include_content st w) =
          Ok (Throws (HTTPException 401))) /\
    (forall document_id,
        result_of (get_document S get_token granola caught document_id st w) =
          Ok (Throws (HTTPException 401))) /\
    (forall document_id,
        result_of (get_transcript S get_token granola document_id st w) =
          Ok (Throws (HTTPException 401))) /\
    result_of (list_workspaces S get_token granola caught st w) =
      Ok (Throws (HTTPException 401)) /\
    result_of (list_folders S get_token granola st w) =
      Ok (Throws (HTTPException 401)) /\
    (forall q limit,
        result_of (search_documents S get_token granola str_lower caught
                     q limit st w) =
          Ok (Throws (HTTPException 401))).
Proof.
  intros S get_token granola str_lower caught st w token Hr Ht.
  repeat split; intros;
    unfold list_documents, get_document, get_transcript, list_workspaces,
      list_folders, search_documents;
    rewrite with_headers_run; apply (after_token_empty _ _ token Hr Ht).
Qed.

(** The theorem applied to the expired state and a provider that rejects the
    grant: the Granola API would answer, and is not asked. *)
Lemma handlers_unauthorized_without_token_witness :
  result_of (list_documents _ (Api.get_token stamp_text) willing_granola true
               100 0 true old_state
               (quiet_world 5000000000 invalid_grant_answer))
    = Ok (Throws (HTTPException 401)) /\
  result_of (list_folders _ ApiFixed.get_token willing_granola old_fixed_state
               (quiet_world 5000000000 invalid_grant_answer))
    = Ok (Throws (HTTPException 401)).
Proof.
  split.
  - apply (proj1 (handlers_unauthorized_without_token _
                    (Api.get_token stamp_text) willing_granola (fun s => s) true
                    old_state (quiet_world 5000000000 invalid_grant_answer)
                    JNull eq_refl eq_refl)).
  - apply (proj1 (proj2 (proj2 (proj2 (proj2
             (handlers_unauthorized_without_token _
                ApiFixed.get_token willing_granola (fun s => s) true
                old_fixed_state (quiet_world 5000000000 invalid_grant_answer)
                JNull eq_refl eq_refl)))))).
Defined.

Lemma upstream_body_some o body :
  upstream_body o = Some body ->
  exists status, o = Response status (Some body) /\
                 (400 <=? status) && (status <? 600) = false.
Proof.
  destruct o as [|status [j|]]; cbn; try discriminate.
  destruct ((400 <=? status) && (status <? 600)) eqn:E; try discriminate.
  intros H. injection H as <-. exists status. auto.
Qed.

(** The first steps of a handler on an answer it can use. *)
Lemma granola_answer_used granola c body :
  upstream_body (granola c) = Some body ->
  exists response,
    post_granola granola c = Ok response /\
    raise_for_status response = Ok tt /\
    response_json response = Ok body.
Proof.
  intros H. apply upstream_body_some in H. destruct H as (status & Ho & Hst).
  exists (Response status (Some body)). unfold post_granola. rewrite Ho.
  cbn. rewrite Hst. auto.
Qed.

Lemma granola_failure_raised granola c :
  upstream_failed (granola c) = true ->
  post_granola granola c = Raise ConnectionError \/
  exists response,
    post_granola granola c = Ok response /\
    raise_for_status response = Raise HTTPError.
Proof.
  unfold post_granola, upstream_failed.
  destruct (granola c) as [|status body]; [auto|].
  intros H. right. exists (Response status body). cbn. rewrite H. auto.
Qed.

Lemma dict_get_object k fs : dict_get (JObj fs) k = Ok (field k fs).
Proof.
  unfold dict_get, dict_get_default, field. destruct (assoc k fs); reflexivity.
Qed.

Lemma dict_get_default_object k default fs :
  dict_get_default (JObj fs) k default = Ok (field_or k default fs).
Proof.
  unfold dict_get_default, field_or. destruct (assoc k fs); reflexivity.
Qed.

Lemma simplify_document_object fs emails :
  _extract_attendees (JObj fs) = Ok emails ->
  simplify_document (JObj fs) =
    Ok (JObj [("id", field "id" fs); ("title", field "title" fs);
              ("created_at", field "created_at" fs);
              ("updated_at", field "updated_at" fs);
              ("notes_plain", field_or "notes_plain" (JStr EmptyString) fs);
              ("notes_markdown", field_or "notes_markdown" (JStr EmptyString) fs);
              ("workspace_id", field "workspace_id" fs);
              ("summary", field "summary" fs);
              ("overview", field "overview" fs);
              ("attendees", JArr emails)]).
Proof.
  intros H. unfold simplify_document.
  rewrite !dict_get_object, !dict_get_default_object, H. reflexivity.
Qed.

Lemma simplify_documents_listable docs :
  forallb listable docs = true ->
  exists simplified,
    simplify_documents docs = Ok simplified /\
    List.length simplified = List.length docs /\
    map (json_field "id") simplified = map (json_field "id") docs /\
    map (json_field "title") simplified = map (json_field "title") docs.
Proof.
  induction docs as [|d rest IH]; intros H.
  - exists []. auto.
  - cbn in H. apply andb_prop in H. destruct H as [Hd Hrest].
    destruct (IH Hrest) as (others & E & Hlen & Hid & Htitle).
    unfold listable in Hd. apply andb_prop in Hd. destruct Hd as [Hobj Hatt].
    destruct d as [| | | | |fs]; try discriminate.
    destruct (_extract_attendees (JObj fs)) as [emails|] eqn:Hemails;
      [|discriminate].
    eexists. cbn [simplify_documents].
    rewrite (simplify_document_object fs emails Hemails). cbn [res_bind].
    rewrite E. cbn [res_bind].
    split; [reflexivity|]. cbn [List.length map].
    rewrite Hlen, Hid, Htitle. auto.
Qed.

(** X20: [list_documents] forwards [limit], [offset] and [include_content] in
    one request; when the answer is a JSON object whose [docs] are documents
    it can project, it returns one entry per document of the answer, in the
    same order and with the same [id] and [title], [count] is the number of
    documents in this answer, and [offset] is the one that was asked. *)
Theorem list_documents_returns_the_page :
  forall (S : Type) (get_token : M S json) granola caught
         limit offset include_content st w token fields docs,
    result_of (get_token st w) = Ok token ->
    truthy token = true ->
    upstream_body
      (granola (list_documents_call (bearer_headers token)
                  limit offset include_content)) = Some (JObj fields) ->
    field_or "docs" (JArr []) fields = JArr docs ->
    forallb listable docs = true ->
    exists simplified,
      result_of (list_documents S get_token granola caught
                   limit offset include_content st w) =
        Ok (Reply (JObj [("documents", JArr simplified);
                         ("count", JInt (Z.of_nat (List.length docs)));
                         ("offset", JInt offset)])) /\
      List.length simplified = List.length docs /\
      map (json_field "id") simplified = map (json_field "id") docs /\
      map (json_field "title") simplified = map (json_field "title") docs.
Proof.
  intros S get_token granola caught limit offset include_content st w token
         fields docs Hr Ht Hbody Hdocs Hlist.
  destruct (simplify_documents_listable docs Hlist)
    as (simplified & E & Hlen & Hid & Htitle).
  exists simplified. split; [|auto].
  unfold list_documents. rewrite with_headers_run.
  rewrite (after_token_set _ _ token Hr Ht).
  destruct (granola_answer_used granola _ _ Hbody) as (response & P1 & P2 & P3).
  unfold list_documents_call in P1. rewrite P1. cbn [res_bind].
  rewrite P2. cbn [res_bind]. rewrite P3. cbn [res_bind].
  unfold dict_get_default. unfold field_or in Hdocs.
  destruct (assoc "docs" fields) as [v|].
  - subst v. cbn [res_bind py_iter]. rewrite E. cbn [res_bind].
    rewrite Hlen. reflexivity.
  - injection Hdocs as <-. cbn [res_bind py_iter]. cbn in E.
    injection E as <-. reflexivity.
Qed.

(** The theorem applied to the Granola API that answers with two documents. *)
Lemma list_documents_returns_the_page_witness :
  exists simplified,
    result_of (list_documents _ (Api.get_token stamp_text) willing_granola true
                 50 10 true fresh_state
                 (quiet_world 5000000000 rotating_answer)) =
      Ok (Reply (JObj [("documents", JArr simplified);
                       ("count", JInt 2);
                       ("offset", JInt 10)])) /\
    map (json_field "id") simplified = [JStr "doc-1"; JStr "doc-2"].
Proof.
  destruct (list_documents_returns_the_page _ (Api.get_token stamp_text)
              willing_granola true 50 10 true fresh_state
              (quiet_world 5000000000 rotating_answer) (JStr "at-current")
              [("docs",
                JArr [sample_meeting;
                      JObj [("id", JStr "doc-2");
                            ("title", JStr "Hiring plan");
                            ("notes_plain", JNull)]])]
              [sample_meeting;
               JObj [("id", JStr "doc-2"); ("title", JStr "Hiring plan");
                     ("notes_plain", JNull)]])
    as (simplified & H1 & _ & H3 & _); [reflexivity ..|].
  exists simplified. split; [exact H1 | exact H3].
Defined.

(** X21: when the Granola API cannot be reached or answers with a 4xx/5xx
    status, [list_documents], [get_document], [list_workspaces] and
    [search_documents] raise [HTTPException] 500. *)
Theorem upstream_failure_becomes_500 :
  forall (S : Type) (get_token : M S json) granola str_lower caught st w token,
    result_of (get_token st w) = Ok token ->
    truthy token = true ->
    (forall limit offset include_content,
        upstream_failed
          (granola (list_documents_call (bearer_headers token)
                      limit offset include_content)) = true ->
        result_of (list_documents S get_token granola caught
                     limit offset include_content st w) =
          Ok (Throws (HTTPException 500))) /\
    (forall document_id,
        upstream_failed
          (granola (get_document_call (bearer_headers token) document_id)) = true ->
        result_of (get_document S get_token granola caught document_id st w) =
          Ok (Throws (HTTPException 500))) /\
    (upstream_failed
       (granola (list_workspaces_call (bearer_headers token))) = true ->
     result_of (list_workspaces S get_token granola caught st w) =
       Ok (Throws (HTTPException 500))) /\
    (forall q limit,
        upstream_failed
          (granola (search_documents_call (bearer_headers token))) = true ->
        result_of (search_documents S get_token granola str_lower caught
                     q limit st w) =
          Ok (Throws (HTTPException 500))).
Proof.
  intros S get_token granola str_lower caught st w token Hr Ht.
  repeat split; intros;
    unfold list_documents, get_document, list_workspaces, search_documents;
    rewrite with_headers_run, (after_token_set _ _ token Hr Ht);
    match goal with
    | H : upstream_failed (granola ?c) = true |- _ =>
        destruct (granola_failure_raised granola c H) as [P|(response & P1 & P2)]
    end.
  all: unfold list_documents_call, get_document_call, list_workspaces_call,
         search_documents_call, list_documents_call in *.
  all: try (rewrite P; reflexivity).
  all: rewrite P1; cbn [res_bind]; rewrite P2; reflexivity.
Qed.

(** A Granola API that is down. *)
Lemma upstream_failure_becomes_500_witness :
  result_of (list_workspaces _ (Api.get_token stamp_text)
               (fun _ => Response 503 None) true fresh_state
               (quiet_world 5000000000 rotating_answer))
    = Ok (Throws (HTTPException 500)) /\
  result_of (search_documents _ (Api.get_token stamp_text)
               (fun _ => PostRaises) (fun s => s) true "budget" 20 fresh_state
               (quiet_world 5000000000 rotating_answer))
    = Ok (Throws (HTTPException 500)).
Proof.
  split.
  - apply (proj1 (proj2 (proj2
             (upstream_failure_becomes_500 _ (Api.get_token stamp_text)
                (fun _ => Response 503 None) (fun s => s) true fresh_state
                (quiet_world 5000000000 rotating_answer) (JStr "at-current")
                eq_refl eq_refl)))).
    reflexivity.
  - apply (proj2 (proj2 (proj2
             (upstream_failure_becomes_500 _ (Api.get_token stamp_text)
                (fun _ => PostRaises) (fun s => s) true fresh_state
                (quiet_world 5000000000 rotating_answer) (JStr "at-current")
                eq_refl eq_refl)))).
    reflexivity.
Defined.

(** X22: how [get_transcript] maps the answer of the Granola API.  Status 404
    becomes [HTTPException] 404, any other 4xx/5xx status becomes 500, an
    answer with another status and a JSON body is returned under
    [transcript]; a failure to reach the Granola API is not caught and leaves
    the handler as [ConnectionError]. *)
Theorem get_transcript_maps_the_status :
  forall (S : Type) (get_token : M S json) granola document_id st w token,
    result_of (get_token st w) = Ok token ->
    truthy token = true ->
    (forall body,
        granola (get_transcript_call (bearer_headers token) document_id) =
          Response 404 body ->
        result_of (get_transcript S get_token granola document_id st w) =
          Ok (Throws (HTTPException 404))) /\
    (forall status body,
        granola (get_transcript_call (bearer_headers token) document_id) =
          Response status body ->
        400 <= status < 600 -> status <> 404 ->
        result_of (get_transcript S get_token granola document_id st w) =
          Ok (Throws (HTTPException 500))) /\
    (forall transcript,
        upstream_body
          (granola (get_transcript_call (bearer_headers token) document_id)) =
          Some transcript ->
        result_of (get_transcript S get_token granola document_id st w) =
          Ok (Reply (JObj [("transcript", transcript)]))) /\
    (granola (get_transcript_call (bearer_headers token) document_id) =
       PostRaises ->
     result_of (get_transcript S get_token granola document_id st w) =
       Raise ConnectionError).
Proof.
  intros S get_token granola document_id st w token Hr Ht.
  unfold get_transcript. rewrite with_headers_run.
  rewrite (after_token_set _ _ token Hr Ht).
  unfold get_transcript_call, post_granola.
  repeat split.
  - intros body H. rewrite H. reflexivity.
  - intros status body H Hrange Hnot. rewrite H. cbn.
    destruct (Z.eqb_spec status 404) as [E|_]; [contradiction|].
    assert (Herr : (400 <=? status) && (status <? 600) = true).
    { apply andb_true_intro. split; [apply Z.leb_le | apply Z.ltb_lt]; lia. }
    rewrite Herr. reflexivity.
  - intros transcript H. apply upstream_body_some in H.
    destruct H as (status & H & Hst). rewrite H. cbn. rewrite Hst.
    destruct (Z.eqb_spec status 404) as [E|_]; [|reflexivity].
    subst status. discriminate Hst.
  - intros H. rewrite H. reflexivity.
Qed.

(** The theorem applied to a document without transcript and to an outage of
    the Granola API. *)
Lemma get_transcript_maps_the_status_witness :
  result_of (get_transcript _ (Api.get_token stamp_text)
               (fun _ => Response 404 None) "doc-1" fresh_state
               (quiet_world 5000000000 rotating_answer))
    = Ok (Throws (HTTPException 404)) /\
  result_of (get_transcript _ (Api.get_token stamp_text)
               (fun _ => Response 502 None) "doc-1" fresh_state
               (quiet_world 5000000000 rotating_answer))
    = Ok (Throws (HTTPException 500)).
Proof.
  split.
  - apply (proj1 (get_transcript_maps_the_status _ (Api.get_token stamp_text)
                    (fun _ => Response 404 None) "doc-1" fresh_state
                    (quiet_world 5000000000 rotating_answer)
                    (JStr "at-current") eq_refl eq_refl) None).
    reflexivity.
  - apply (proj1 (proj2 (get_transcript_maps_the_status _
                    (Api.get_token stamp_text)
                    (fun _ => Response 502 None) "doc-1" fresh_state
                    (quiet_world 5000000000 rotating_answer)
                    (JStr "at-current") eq_refl eq_refl)) 502 None).
    + reflexivity.
    + lia.
    + discriminate.
Defined.

Lemma try_folders_body granola h version :
  try_folders granola h
    ("https://api.granola.ai/" ++ version ++ "/get-document-lists") =
  match upstream_body (granola (list_folders_call h version)) with
  | Some folders => Some (JObj [("folders", folders)])
  | None => None
  end.
Proof.
  unfold try_folders, list_folders_call, post_granola, upstream_body.
  destruct (granola _) as [|status [body|]]; cbn; [reflexivity| |].
  - destruct (Z.eqb_spec status 404) as [->|_]; [reflexivity|].
    destruct ((400 <=? status) && (status <? 600)); reflexivity.
  - destruct (Z.eqb_spec status 404) as [->|_]; [reflexivity|].
    destruct ((400 <=? status) && (status <? 600)); reflexivity.
Qed.

(** X23: [list_folders] asks the v2 address first and the v1 address only if
    v2 gave nothing usable; it returns the first JSON body that arrives with
    a status that is not 4xx/5xx, and raises [HTTPException] 500 when neither
    address gives one.  Whatever the Granola API does, nothing else escapes
    the loop. *)
Theorem list_folders_falls_back_to_v1 :
  forall (S : Type) (get_token : M S json) granola st w token,
    result_of (get_token st w) = Ok token ->
    truthy token = true ->
    result_of (list_folders S get_token granola st w) =
      Ok (match upstream_body
                  (granola (list_folders_call (bearer_headers token) "v2")) with
          | Some folders => Reply (JObj [("folders", folders)])
          | None =>
              match upstream_body
                      (granola (list_folders_call (bearer_headers token) "v1")) with
              | Some folders => Reply (JObj [("folders", folders)])
              | None => Throws (HTTPException 500)
              end
          end).
Proof.
  intros S get_token granola st w token Hr Ht.
  unfold list_folders. rewrite with_headers_run.
  rewrite (after_token_set _ _ token Hr Ht).
  cbn [folders_loop].
  change "https://api.granola.ai/v2/get-document-lists"
    with ("https://api.granola.ai/" ++ "v2" ++ "/get-document-lists").
  change "https://api.granola.ai/v1/get-document-lists"
    with ("https://api.granola.ai/" ++ "v1" ++ "/get-document-lists").
  rewrite !try_folders_body.
  destruct (upstream_body (granola (list_folders_call _ "v2"))); [reflexivity|].
  destruct (upstream_body (granola (list_folders_call _ "v1"))); reflexivity.
Qed.

(** The theorem applied to a Granola API that knows only the v1 address. *)
Lemma list_folders_falls_back_to_v1_witness :
  result_of (list_folders _ (Api.get_token stamp_text) only_v1_granola
               fresh_state (quiet_world 5000000000 rotating_answer))
    = Ok (Reply (JObj [("folders", JArr [JStr "Inbox"])])).
Proof.
  rewrite (list_folders_falls_back_to_v1 _ (Api.get_token stamp_text)
             only_v1_granola fresh_state
             (quiet_world 5000000000 rotating_answer) (JStr "at-current")
             eq_refl eq_refl).
  reflexivity.
Defined.

Lemma after_token_reply {S A} (rest : headers -> res (reply A))
    (r : res json * S * World) (a : A) :
  result_of (after_token rest r) = Ok (Reply a) ->
  exists token,
    result_of r = Ok token /\ truthy token = true /\
    rest (bearer_headers token) = Ok (Reply a).
Proof.
  unfold after_token. cbn.
  destruct (result_of r) as [token|e]; [|discriminate].
  destruct (truthy token) eqn:Ht; cbn; [|discriminate].
  intros H. exists token. auto.
Qed.

Lemma except_request_exception_reply {A} caught (body : res (reply A)) a :
  except_request_exception caught body = Ok (Reply a) -> body = Ok (Reply a).
Proof.
  unfold except_request_exception.
  destruct body as [done|e]; [auto|].
  destruct (is_request_exception caught e); discriminate.
Qed.

Lemma search_loop_bound str_lower q_lower limit docs :
  forall matches out,
    Z.of_nat (List.length matches) < Z.max limit 1 ->
    search_loop str_lower q_lower limit docs matches = Ok out ->
    Z.of_nat (List.length out) <= Z.max limit 1.
Proof.
  induction docs as [|d rest IH]; intros matches out Hlen H.
  - cbn in H. injection H as <-. lia.
  - cbn [search_loop] in H.
    destruct (dict_get d "title") as [raw_title|]; [|discriminate].
    cbn [res_bind] in H.
    destruct (lower_or_empty str_lower raw_title) as [title|]; [|discriminate].
    cbn [res_bind] in H.
    destruct (dict_get d "notes_plain") as [raw_notes|]; [|discriminate].
    cbn [res_bind] in H.
    destruct (lower_or_empty str_lower raw_notes) as [notes|]; [|discriminate].
    cbn [res_bind] in H.
    destruct (str_contains q_lower title || str_contains q_lower notes).
    + destruct (search_entry d) as [entry|]; [|discriminate].
      cbn [res_bind] in H.
      assert (Hnew : List.length (matches ++ [entry])%list =
                     Datatypes.S (List.length matches)).
      { rewrite length_app. cbn. lia. }
      destruct (limit <=? Z.of_nat (List.length (matches ++ [entry])%list))
        eqn:Hcmp.
      * injection H as <-. lia.
      * apply Z.leb_gt in Hcmp.
        apply (IH (matches ++ [entry])%list out); [lia | exact H].
    + apply (IH _ _ Hlen H).
Qed.

(** X24: whenever [search_documents] returns, [count] is the number of
    documents it returns, [query] is the text that was asked, and it returns
    at most [limit] documents, or one when [limit] is below one: the loop
    tests the limit only after it has appended a match. *)
Theorem search_documents_respects_the_limit :
  forall (S : Type) (get_token : M S json) granola str_lower caught
         q limit st w r,
    result_of (search_documents S get_token granola str_lower caught
                 q limit st w) = Ok (Reply r) ->
    exists matches,
      r = JObj [("documents", JArr matches);
                ("count", JInt (Z.of_nat (List.length matches)));
                ("query", JStr q)] /\
      Z.of_nat (List.length matches) <= Z.max limit 1.
Proof.
  intros S get_token granola str_lower caught q limit st w r H.
  unfold search_documents in H. rewrite with_headers_run in H.
  apply after_token_reply in H. destruct H as (token & _ & _ & H).
  apply except_request_exception_reply in H.
  destruct (post_granola granola _) as [response|]; [|discriminate].
  cbn [res_bind] in H.
  destruct (raise_for_status response); [|discriminate].
  cbn [res_bind] in H.
  destruct (response_json response) as [result|]; [|discriminate].
  cbn [res_bind] in H.
  destruct (dict_get_default result "docs" (JArr [])) as [docs|]; [|discriminate].
  cbn [res_bind] in H.
  destruct (py_iter docs) as [each|]; [|discriminate].
  cbn [res_bind] in H.
  destruct (search_loop str_lower (str_lower q) limit each [])
    as [matches|] eqn:Hloop; [|discriminate].
  cbn [res_bind] in H. injection H as <-.
  exists matches. split; [reflexivity|].
  apply (search_loop_bound str_lower (str_lower q) limit each [] matches);
    [cbn; lia | exact Hloop].
Qed.

(** The theorem applied to a search with limit 0 in three documents, two of
    which match: one document comes back. *)
Lemma search_documents_respects_the_limit_witness :
  exists matches,
    JObj [("documents",
           JArr [JObj [("id", JStr "doc-1"); ("title", JStr "Hiring plan");
                       ("created_at", JNull);
                       ("notes_plain", JStr EmptyString);
                       ("attendees", JArr [])]]);
          ("count", JInt 1); ("query", JStr "hiring")] =
    JObj [("documents", JArr matches);
          ("count", JInt (Z.of_nat (List.length matches)));
          ("query", JStr "hiring")] /\
    Z.of_nat (List.length matches) <= Z.max 0 1.
Proof.
  apply (search_documents_respects_the_limit _ (Api.get_token stamp_text)
           archive_granola ascii_lower true "hiring" 0 fresh_state
           (quiet_world 5000000000 rotating_answer)).
  reflexivity.
Defined.

Lemma lower_or_empty_text str_lower v :
  text_or_empty v = true ->
  exists text, lower_or_empty str_lower v = Ok text.
Proof.
  unfold text_or_empty, lower_or_empty. intros H.
  destruct (truthy v); [|eauto].
  destruct v; try discriminate. eauto.
Qed.

Lemma searchable_entry d :
  searchable d = true ->
  exists fs,
    d = JObj fs /\
    text_or_empty (json_field "title" d) = true /\
    text_or_empty (json_field "notes_plain" d) = true /\
    exists entry, search_entry d = Ok entry.
Proof.
  unfold searchable, listable. intros H.
  apply andb_prop in H. destruct H as [H Hnotes].
  apply andb_prop in H. destruct H as [H Htitle].
  apply andb_prop in H. destruct H as [Hobj Hatt].
  destruct d as [| | | | |fs]; try discriminate.
  exists fs. split; [reflexivity|]. split; [exact Htitle|].
  destruct (_extract_attendees (JObj fs)) as [emails|] eqn:Hemails;
    [|discriminate].
  unfold search_entry.
  rewrite !dict_get_object, dict_get_default_object, Hemails.
  cbn [notes_are_text] in Hnotes. unfold json_field, field, field_or.
  destruct (assoc "notes_plain" fs) as [[| | |text| |]|]; try discriminate.
  - split; [apply orb_true_r|]. eexists. reflexivity.
  - split; [reflexivity|]. eexists. reflexivity.
Qed.

Lemma search_loop_searchable str_lower q limit docs :
  forallb searchable docs = true ->
  forall matches,
    Z.of_nat (List.length matches) < Z.max limit 1 ->
    exists found,
      search_loop str_lower (str_lower q) limit docs matches =
        Ok (matches ++ found)%list /\
      Forall2 (fun d entry => search_entry d = Ok entry)
        (firstn (Z.to_nat (Z.max limit 1) - List.length matches)
                (filter (mentions str_lower q) docs))
        found.
Proof.
  induction docs as [|d rest IH]; intros Hall matches Hlen.
  - exists []. cbn. rewrite app_nil_r, firstn_nil. split; [reflexivity|constructor].
  - cbn [forallb] in Hall. apply andb_prop in Hall. destruct Hall as [Hd Hrest].
    destruct (searchable_entry d Hd) as (fs & -> & Htitle & Hnotes & entry & Ee).
    destruct (lower_or_empty_text str_lower _ Htitle) as (title & Et).
    destruct (lower_or_empty_text str_lower _ Hnotes) as (notes & En).
    cbn [json_field] in Et, En.
    cbn [search_loop filter]. unfold mentions. cbn [json_field].
    rewrite !dict_get_object. cbn [res_bind].
    rewrite Et, En. cbn [res_bind].
    destruct (str_contains (str_lower q) title ||
              str_contains (str_lower q) notes).
    + rewrite Ee. cbn [res_bind].
      assert (Hnew : List.length (matches ++ [entry])%list =
                     Datatypes.S (List.length matches)).
      { rewrite length_app. cbn. lia. }
      destruct (limit <=? Z.of_nat (List.length (matches ++ [entry])%list))
        eqn:Hcmp.
      * apply Z.leb_le in Hcmp.
        exists [entry]. split; [reflexivity|].
        replace (Z.to_nat (Z.max limit 1) - List.length matches)%nat
          with 1%nat by lia.
        cbn [firstn]. constructor; [exact Ee|].
        constructor.
      * apply Z.leb_gt in Hcmp.
        destruct (IH Hrest (matches ++ [entry])%list ltac:(lia))
          as (found & Hloop & Hfound).
        exists (entry :: found). split.
        -- rewrite Hloop, <- app_assoc. reflexivity.
        -- replace (Z.to_nat (Z.max limit 1) - List.length matches)%nat
             with (Datatypes.S (Z.to_nat (Z.max limit 1) -
                                List.length (matches ++ [entry])%list)) by lia.
           cbn [firstn]. constructor; [exact Ee | exact Hfound].
    + apply (IH Hrest matches Hlen).
Qed.

(** X25: what [search_documents] finds.  When the Granola API answers the
    request (always for the first hundred documents) with documents that
    are dicts whose calendar event [_extract_attendees] accepts, whose title
    is a string or empty and whose plain notes are a string or missing, the
    handler returns the entries of the documents whose lowered title or
    lowered plain notes contain the lowered query, in the order of the
    answer, and stops after the first [limit] of them (after the first one
    when [limit] is below one). *)
Theorem search_documents_returns_the_first_matches :
  forall (S : Type) (get_token : M S json) granola str_lower caught
         q limit st w token fields docs,
    result_of (get_token st w) = Ok token ->
    truthy token = true ->
    upstream_body (granola (search_documents_call (bearer_headers token))) =
      Some (JObj fields) ->
    field_or "docs" (JArr []) fields = JArr docs ->
    forallb searchable docs = true ->
    exists matches,
      result_of (search_documents S get_token granola str_lower caught
                   q limit st w) =
        Ok (Reply (JObj [("documents", JArr matches);
                         ("count", JInt (Z.of_nat (List.length matches)));
                         ("query", JStr q)])) /\
      Forall2 (fun d entry => search_entry d = Ok entry)
        (firstn (Z.to_nat (Z.max limit 1)) (filter (mentions str_lower q) docs))
        matches.
Proof.
  intros S get_token granola str_lower caught q limit st w token fields docs
         Hr Ht Hbody Hdocs Hall.
  destruct (search_loop_searchable str_lower q limit docs Hall []
              ltac:(cbn; lia)) as (matches & Hloop & Hfound).
  cbn [List.length app] in Hloop, Hfound. rewrite Nat.sub_0_r in Hfound.
  exists matches. split; [|exact Hfound].
  unfold search_documents. rewrite with_headers_run.
  rewrite (after_token_set _ _ token Hr Ht).
  destruct (granola_answer_used granola _ _ Hbody) as (response & P1 & P2 & P3).
  unfold search_documents_call, list_documents_call in P1.
  rewrite P1. cbn [res_bind]. rewrite P2. cbn [res_bind].
  rewrite P3. cbn [res_bind].
  rewrite dict_get_default_object, Hdocs. cbn [res_bind py_iter].
  rewrite Hloop. reflexivity.
Qed.

(** The theorem applied to a search for two documents about hiring among
    three. *)
Lemma search_documents_returns_the_first_matches_witness :
  exists matches,
    result_of (search_documents _ (Api.get_token stamp_text) archive_granola
                 ascii_lower true "Hiring" 2 fresh_state
                 (quiet_world 5000000000 rotating_answer)) =
      Ok (Reply (JObj [("documents", JArr matches);
                       ("count", JInt (Z.of_nat (List.length matches)));
                       ("query", JStr "Hiring")])) /\
    Forall2 (fun d entry => search_entry d = Ok entry)
      [JObj [("id", JStr "doc-1"); ("title", JStr "Hiring plan")];
       JObj [("id", JStr "doc-3"); ("title", JNull);
             ("notes_plain", JStr "Open roles and HIRING freeze")]]
      matches.
Proof.
  apply (search_documents_returns_the_first_matches _
           (Api.get_token stamp_text) archive_granola ascii_lower true
           "Hiring" 2 fresh_state (quiet_world 5000000000 rotating_answer)
           (JStr "at-current") [("docs", JArr three_documents)]
           three_documents);
    reflexivity.
Defined.

(** X26: [get_document] on a JSON object from the Granola API.  When neither
    [documents] nor [docs] holds anything it raises [HTTPException] 404;
    otherwise it projects the first element of [documents], or of [docs]
    when [documents] is missing or empty, and ignores the elements after
    it. *)
Theorem get_document_projects_the_first_document :
  forall (S : Type) (get_token : M S json) granola caught document_id
         st w token fields,
    result_of (get_token st w) = Ok token ->
    truthy token = true ->
    upstream_body
      (granola (get_document_call (bearer_headers token) document_id)) =
      Some (JObj fields) ->
    (truthy (field "documents" fields) = false ->
     truthy (field "docs" fields) = false ->
     result_of (get_document S get_token granola caught document_id st w) =
       Ok (Throws (HTTPException 404))) /\
    (forall d others document,
        field "documents" fields = JArr (d :: others) \/
        (truthy (field "documents" fields) = false /\
         field "docs" fields = JArr (d :: others)) ->
        full_document d = Ok document ->
        result_of (get_document S get_token granola caught document_id st w) =
          Ok (Reply document)).
Proof.
  intros S get_token granola caught document_id st w token fields Hr Ht Hbody.
  destruct (granola_answer_used granola _ _ Hbody) as (response & P1 & P2 & P3).
  unfold get_document_call in P1.
  assert (Hnonempty : forall d others, truthy (JArr (d :: others)) = true)
    by reflexivity.
  assert (Hempty : truthy (JArr []) = false) by reflexivity.
  split.
  - intros Hdocuments Hdocs.
    unfold get_document. rewrite with_headers_run.
    rewrite (after_token_set _ _ token Hr Ht).
    rewrite P1. cbn [res_bind]. rewrite P2. cbn [res_bind].
    rewrite P3. cbn [res_bind].
    rewrite !dict_get_object. cbn [res_bind].
    rewrite Hdocuments. cbn [res_bind]. rewrite Hdocs. cbn [res_bind].
    rewrite Hempty. reflexivity.
  - intros d others document Hfirst Hfull.
    unfold get_document. rewrite with_headers_run.
    rewrite (after_token_set _ _ token Hr Ht).
    rewrite P1. cbn [res_bind]. rewrite P2. cbn [res_bind].
    rewrite P3. cbn [res_bind].
    rewrite !dict_get_object. cbn [res_bind].
    destruct Hfirst as [Hdocuments | [Hdocuments Hdocs]].
    + rewrite Hdocuments, Hnonempty. cbn [res_bind].
      rewrite Hnonempty. cbn [negb index0 res_bind].
      rewrite Hfull. reflexivity.
    + rewrite Hdocuments. cbn [res_bind]. rewrite Hdocs, Hnonempty.
      cbn [res_bind]. rewrite Hnonempty. cbn [negb index0 res_bind].
      rewrite Hfull. reflexivity.
Qed.

(** The theorem applied to a Granola API that knows no such document. *)
Lemma get_document_projects_the_first_document_witness :
  result_of (get_document _ (Api.get_token stamp_text)
               (fun _ => Response 200 (Some (JObj [("docs", JArr [])])))
               true "doc-9" fresh_state
               (quiet_world 5000000000 rotating_answer))
    = Ok (Throws (HTTPException 404)).
Proof.
  apply (proj1 (get_document_projects_the_first_document _
                  (Api.get_token stamp_text)
                  (fun _ => Response 200 (Some (JObj [("docs", JArr [])])))
                  true "doc-9" fresh_state
                  (quiet_world 5000000000 rotating_answer)
                  (JStr "at-current") [("docs", JArr [])]
                  eq_refl eq_refl eq_refl));
    reflexivity.
Defined.
